(** * BrewNix quality gates: a shallow embedding and its properties

    The quality-gate pipeline of the repository (the analyzers under
    [quality-gates/] and their orchestrator [run_quality_gates.py]) is
    embedded as Rocq functions, and the properties stated about it are
    proved or refuted on that embedding.

    Conventions of the embedding:
    - a Python [str] is the list of its code points ([str := list N]);
      literals of the source are written [py "..."];
    - Python integers are [Z];
    - the closed enumerations of the source (severity, category, gate
      status) are inductive types, printed by [*_name];
    - dictionaries with a fixed key set are records; lists of
      dictionaries are lists of records, in the order the code appends;
    - the project tree is the list of its entries in the order in which
      [Path.glob] enumerates them;
    - functions of Python's standard library whose behaviour is not part
      of this repository ([re], [ast], [str.lower], [str.upper]) are the
      fields of the class [PyRuntime]; the results of the helpers of the
      orchestrator that run external tools are the fields of the class
      [QualityGateManager.Host];
    - console output ([print]) and the free-text [recommendations] lists
      are not modelled; resource exhaustion (recursion limit, memory) is
      not modelled either. *)

From Stdlib Require Import List ZArith NArith QArith Lia Bool String Ascii.
Import ListNotations.

Set Implicit Arguments.

(* ===================================================================== *)
(** * Part I: the embedding                                               *)
(* ===================================================================== *)

(** ** Python strings *)

Module PyStr.

Local Open Scope N_scope.

Definition char := N.
Definition str := list char.

(** A literal of the source (ASCII only). *)
Definition py (s : string) : str :=
  map N_of_ascii (list_ascii_of_string s).

Definition str_eqb (a b : str) : bool :=
  if list_eq_dec N.eq_dec a b then true else false.

(** [str.isspace] on one code point: the characters CPython's
    [_PyUnicode_IsWhitespace] accepts. *)
Definition isspace (c : char) : bool :=
  ((9 <=? c) && (c <=? 13)) || ((28 <=? c) && (c <=? 32))
  || (c =? 133) || (c =? 160) || (c =? 5760)
  || ((8192 <=? c) && (c <=? 8202))
  || (c =? 8232) || (c =? 8233) || (c =? 8239) || (c =? 8287)
  || (c =? 12288).

Fixpoint lstrip (s : str) : str :=
  match s with
  | [] => []
  | c :: s' => if isspace c then lstrip s' else s
  end.

Definition rstrip (s : str) : str := rev (lstrip (rev s)).

(** [s.strip()] *)
Definition strip (s : str) : str := rstrip (lstrip s).

(** [s.startswith(sub)] *)
Fixpoint startswith (sub s : str) : bool :=
  match sub, s with
  | [], _ => true
  | _ :: _, [] => false
  | a :: sub', b :: s' => (a =? b) && startswith sub' s'
  end.

(** [s.endswith(sub)] *)
Definition endswith (sub s : str) : bool :=
  startswith (rev sub) (rev s).

(** [sub in s] *)
Fixpoint contains (sub s : str) : bool :=
  startswith sub s
  || match s with
     | [] => false
     | _ :: s' => contains sub s'
     end.

(** [s.count(sub)]: occurrences found scanning left to right, the
    search resuming after the end of each occurrence. [skip] is the
    number of characters still covered by the last occurrence. *)
Fixpoint count_from (sub : str) (skip : nat) (s : str) : Z :=
  match s with
  | [] => match skip, sub with
          | O, [] => 1%Z
          | _, _ => 0%Z
          end
  | _ :: s' =>
      match skip with
      | S k => count_from sub k s'
      | O => if startswith sub s
             then (1 + count_from sub (Nat.pred (List.length sub)) s')%Z
             else count_from sub 0 s'
      end
  end.

Definition count (sub s : str) : Z := count_from sub 0 s.

(** [s.split(sep)] for a one-character separator. *)
Fixpoint split (sep : char) (s : str) : list str :=
  match s with
  | [] => [[]]
  | c :: s' =>
      if c =? sep then [] :: split sep s'
      else match split sep s' with
           | cur :: rest => (c :: cur) :: rest
           | [] => [[c]]
           end
  end.

Definition newline : char := 10.

(** [len(s)] as a Python integer. *)
Definition len {A} (l : list A) : Z := Z.of_nat (List.length l).

(** Digits of [n] in base [base], most significant first. *)
Fixpoint digits_aux (base : N) (fuel : nat) (n : N) (acc : str) : str :=
  match fuel with
  | O => acc
  | S k =>
      let acc' := (48 + n mod base) :: acc in
      if n / base =? 0 then acc' else digits_aux base k (n / base) acc'
  end.

Definition digits (base n : N) : str :=
  digits_aux base (S (N.to_nat (N.log2 n))) n [].

(** [str(n)] for an integer. *)
Definition str_of_Z (z : Z) : str :=
  match z with
  | Zneg p => py "-" ++ digits 10 (Npos p)
  | _ => digits 10 (Z.to_N z)
  end.

(** [oct(n)] for a non-negative integer. *)
Definition oct (n : N) : str := py "0o" ++ digits 8 n.

(** [enumerate(l, start)] *)
Fixpoint enumerate {A} (start : Z) (l : list A) : list (Z * A) :=
  match l with
  | [] => []
  | x :: l' => (start, x) :: enumerate (start + 1)%Z l'
  end.

(** [l[a:b]] for a list, with Python's treatment of negative and
    out-of-range bounds. *)
Definition clamp_index (n i : Z) : Z :=
  let i' := if (i <? 0)%Z then (i + n)%Z else i in
  Z.max 0 (Z.min n i').

Definition slice {A} (l : list A) (a b : Z) : list A :=
  let n := len l in
  let a' := clamp_index n a in
  let b' := clamp_index n b in
  firstn (Z.to_nat (b' - a')%Z) (skipn (Z.to_nat a') l).

End PyStr.
Import PyStr.

Local Open Scope Z_scope.


(** ** Enumerations shared by the analyzers *)

Inductive severity := Critical | High | Medium | Low | Info.
Inductive category := Style | Logic | Security | Performance | Maintainability.
Inductive status := Passed | Warning | Failed | Unknown.

Definition severity_name (s : severity) : string :=
  match s with
  | Critical => "critical" | High => "high" | Medium => "medium"
  | Low => "low" | Info => "info"
  end.

Definition category_name (c : category) : string :=
  match c with
  | Style => "style" | Logic => "logic" | Security => "security"
  | Performance => "performance" | Maintainability => "maintainability"
  end.

Definition status_name (s : status) : string :=
  match s with
  | Passed => "passed" | Warning => "warning" | Failed => "failed"
  | Unknown => "unknown"
  end.

Definition severity_eqb (a b : severity) : bool :=
  match a, b with
  | Critical, Critical | High, High | Medium, Medium
  | Low, Low | Info, Info => true
  | _, _ => false
  end.

Definition category_eqb (a b : category) : bool :=
  match a, b with
  | Style, Style | Logic, Logic | Security, Security
  | Performance, Performance | Maintainability, Maintainability => true
  | _, _ => false
  end.

Definition status_eqb (a b : status) : bool :=
  match a, b with
  | Passed, Passed | Warning, Warning | Failed, Failed
  | Unknown, Unknown => true
  | _, _ => false
  end.

(** ** The Python runtime the analyzers call into *)

(** What [ast.parse] returns, restricted to what the analyzers look at:
    the nodes that [ast.walk] and [ast.NodeVisitor] test for
    ([FunctionDef], [ClassDef], [If]) and any other node with the child
    nodes it carries, in field order. [docstring] is the truth value of
    [ast.get_docstring(node)]; [nargs] is [len(node.args.args)];
    [end_lineno] is [None] where the node has no such attribute, as on
    the Python versions before 3.8; from 3.8 on [ast.parse] gives every
    [FunctionDef] its end line. *)
#[warnings="-register-all"] Inductive node :=
| FunctionDef (name : str) (lineno : Z) (end_lineno : option Z)
              (nargs : Z) (docstring : bool) (body : list node)
| ClassDef (name : str) (lineno : Z) (docstring : bool) (body : list node)
| If (lineno : Z) (body orelse : list node)
| Other (children : list node).

(** The exceptions the analyzers distinguish: [SyntaxError] with its
    [lineno] and [msg], and any other [Exception] with its [str(e)]. *)
Inductive exn :=
| SyntaxError (lineno : option Z) (msg : str)
| OtherException (text : str).

Inductive re_flag := NOFLAG | IGNORECASE.

(** The regular expressions of the source, named after their use. The
    first six are [<word>\s*=\s*Q[^Q]*Q] for the word in the name, where
    Q is the class of the two quote characters; the others are the
    patterns of the source at the places named. *)
Inductive pattern :=
| pat_password | pat_secret | pat_key | pat_token
| pat_PASSWORD | pat_passwd
| pat_execute_format  (* scan_security.py, sql_patterns, first *)
| pat_cursor_fstring  (* scan_security.py, sql_patterns, second *)
| pat_concat_execute  (* scan_security.py, sql_patterns, third *)
| pat_shell_function  (* analyze_complexity.py, _analyze_shell_file *)
| pat_js_function     (* analyze_complexity.py, _analyze_javascript_file *)
| pat_magic_number    (* automate_review.py, _analyze_python_line *)
| pat_unquoted_var.   (* automate_review.py, _analyze_shell_line *)

Class PyRuntime := {
  (** [re.search(pattern, s, flags)] is not [None] *)
  re_search : pattern -> re_flag -> str -> bool;
  (** [re.match(pattern, s)]: [None], or the match with its [group(1)] *)
  re_match : pattern -> str -> option str;
  (** [re.findall(pattern, s)] *)
  re_findall : pattern -> str -> list str;
  (** [ast.parse(content)]: the body of the module, or the exception *)
  ast_parse : str -> list node + exn;
  (** [s.lower()] and [s.upper()] *)
  lower : str -> str;
  upper : str -> str
}.

(** ** The project tree *)

Record stat_result := { st_mode : N; st_size : N }.

(** One path below the project root. [e_read] is what opening and
    reading the path as UTF-8 text gives: the text, or [str(e)] of the
    exception raised. [e_stat] is [None] when [path.stat()] raises. *)
Record entry := {
  e_path : str;
  e_is_file : bool;
  e_read : str + str;
  e_stat : option stat_result
}.

(** The entries in the order in which [Path.glob] enumerates them. *)
Definition project := list entry.

(** The last component of a path. *)
Definition basename (p : str) : str := last (split 47%N p) [].

(** [project_root.glob("**/*<suffix>")] *)
Definition glob_suffix (suffix : string) (fs : project) : list entry :=
  filter (fun e => endswith (py suffix) (basename (e_path e))) fs.

(** [project_root.glob("**/<prefix>*")] *)
Definition glob_prefix (prefix : string) (fs : project) : list entry :=
  filter (fun e => startswith (py prefix) (basename (e_path e))) fs.

(** [project_root.glob("**/*")] *)
Definition glob_all (fs : project) : list entry := fs.

(** The number of bytes of a text in UTF-8. *)
Definition utf8_size (s : str) : N :=
  fold_left (fun n c => (n + if c <? 128 then 1
                             else if c <? 2048 then 2
                             else if c <? 65536 then 3 else 4)%N) s 0%N.

(** A regular, readable file with the permissions [rw-r--r--] (octal
    100644). *)
Definition text_file (path content : str) : entry :=
  {| e_path := path; e_is_file := true; e_read := inl content;
     e_stat := Some {| st_mode := 33188; st_size := utf8_size content |} |}.

(** ** quality-gates/security/scan_security.py *)

Module SecurityScanner.
Section WithRuntime.
Context {R : PyRuntime}.

(** A finding of the scanner. [v_code] is absent from the findings that
    report a file that could not be read. *)
Record Vulnerability := {
  v_file : str;
  v_line : Z;
  v_severity : severity;
  v_issue : str;
  v_code : option str;
  v_recommendation : str
}.

(** [self.vulnerabilities], the lists of findings by severity. *)
Record buckets := {
  b_critical : list Vulnerability;
  b_high : list Vulnerability;
  b_medium : list Vulnerability;
  b_low : list Vulnerability;
  b_info : list Vulnerability
}.

Definition bucket (b : buckets) (s : severity) : list Vulnerability :=
  match s with
  | Critical => b_critical b
  | High => b_high b
  | Medium => b_medium b
  | Low => b_low b
  | Info => b_info b
  end.

Record SecurityScanner := {
  project_root : project;
  vulnerabilities : buckets
}.

Definition __init__ (project_root : project) : SecurityScanner :=
  {| project_root := project_root;
     vulnerabilities := {| b_critical := []; b_high := []; b_medium := [];
                           b_low := []; b_info := [] |} |}.

Record vuln_info := {
  vi_severity : severity;
  vi_issue : string;
  vi_recommendation : string
}.

Definition dangerous_functions : list (string * vuln_info) := [
  ("eval(", {| vi_severity := Critical; vi_issue := "Use of eval() function";
     vi_recommendation := "Avoid eval() - use ast.literal_eval() for safe evaluation" |});
  ("exec(", {| vi_severity := Critical; vi_issue := "Use of exec() function";
     vi_recommendation := "Avoid exec() - find alternative implementation" |});
  ("os.system(", {| vi_severity := High; vi_issue := "Use of os.system()";
     vi_recommendation := "Use subprocess.run() instead" |});
  ("subprocess.call(", {| vi_severity := Medium; vi_issue := "Use of subprocess.call()";
     vi_recommendation := "Use subprocess.run() for better security" |});
  ("pickle.load(", {| vi_severity := High; vi_issue := "Use of pickle.load()";
     vi_recommendation := "Avoid pickle for untrusted data - use json instead" |});
  ("yaml.load(", {| vi_severity := High; vi_issue := "Unsafe YAML loading";
     vi_recommendation := "Use yaml.safe_load() instead" |});
  ("input(", {| vi_severity := Medium; vi_issue := "Use of input() in Python 2 style";
     vi_recommendation := "Use proper input validation" |})
]%string.

Definition secret_patterns : list pattern :=
  [pat_password; pat_secret; pat_key; pat_token].

Definition sql_patterns : list pattern :=
  [pat_execute_format; pat_cursor_fstring; pat_concat_execute].

Definition dangerous_commands : list (string * vuln_info) := [
  ("rm -rf /", {| vi_severity := Critical; vi_issue := "Dangerous rm command";
     vi_recommendation := "Never use rm -rf / - specify exact paths" |});
  ("chmod 777", {| vi_severity := High; vi_issue := "Overly permissive permissions";
     vi_recommendation := "Use minimal required permissions" |});
  ("curl | bash", {| vi_severity := High; vi_issue := "Piping curl to bash";
     vi_recommendation := "Download script first, review it, then execute" |});
  ("wget | bash", {| vi_severity := High; vi_issue := "Piping wget to bash";
     vi_recommendation := "Download script first, review it, then execute" |});
  ("sudo ", {| vi_severity := Medium; vi_issue := "Use of sudo";
     vi_recommendation := "Minimize sudo usage and use specific permissions" |})
]%string.

Definition password_patterns : list pattern :=
  [pat_password; pat_PASSWORD; pat_passwd].

(** The finding built from a table entry. *)
Definition table_finding (vi : vuln_info) (line : str) (line_num : Z)
    (file_path : str) : Vulnerability :=
  {| v_file := file_path; v_line := line_num;
     v_severity := vi_severity vi; v_issue := py (vi_issue vi);
     v_code := Some line; v_recommendation := py (vi_recommendation vi) |}.

(** [for pattern, vuln_info in table.items(): if pattern in line: return ...] *)
Fixpoint scan_table (table : list (string * vuln_info)) (line : str)
    (line_num : Z) (file_path : str) : option Vulnerability :=
  match table with
  | [] => None
  | (pattern, vi) :: rest =>
      if contains (py pattern) line
      then Some (table_finding vi line line_num file_path)
      else scan_table rest line line_num file_path
  end.

(** [for pattern in patterns: if re.search(pattern, line, flags): return ...],
    as the test of whether the loop returns. *)
Fixpoint search_any (patterns : list pattern) (flags : re_flag) (line : str)
    : bool :=
  match patterns with
  | [] => false
  | pattern :: rest =>
      if re_search pattern flags line then true
      else search_any rest flags line
  end.

Definition secret_finding (line : str) (line_num : Z) (file_path : str) :=
  {| v_file := file_path; v_line := line_num; v_severity := High;
     v_issue := py "Potential hardcoded secret"; v_code := Some line;
     v_recommendation :=
       py "Move secrets to environment variables or secure config files" |}.

Definition sql_finding (line : str) (line_num : Z) (file_path : str) :=
  {| v_file := file_path; v_line := line_num; v_severity := High;
     v_issue := py "Potential SQL injection vulnerability";
     v_code := Some line;
     v_recommendation :=
       py "Use parameterized queries or ORM instead of string formatting" |}.

Definition traversal_finding (line : str) (line_num : Z) (file_path : str) :=
  {| v_file := file_path; v_line := line_num; v_severity := Medium;
     v_issue := py "Potential path traversal vulnerability";
     v_code := Some line;
     v_recommendation := py "Validate and sanitize file paths" |}.

Definition _check_python_vulnerability (line : str) (line_num : Z)
    (file_path : str) : option Vulnerability :=
  match scan_table dangerous_functions line line_num file_path with
  | Some vuln => Some vuln
  | None =>
      if search_any secret_patterns IGNORECASE line
      then Some (secret_finding line line_num file_path)
      else if search_any sql_patterns NOFLAG line
      then Some (sql_finding line line_num file_path)
      else if contains (py "../") line || contains (py "..\") line
      then Some (traversal_finding line line_num file_path)
      else None
  end.

Definition injection_finding (line : str) (line_num : Z) (file_path : str) :=
  {| v_file := file_path; v_line := line_num; v_severity := High;
     v_issue := py "Potential command injection via variable";
     v_code := Some line;
     v_recommendation :=
       py "Validate and sanitize variables before using in commands" |}.

Definition password_finding (line : str) (line_num : Z) (file_path : str) :=
  {| v_file := file_path; v_line := line_num; v_severity := High;
     v_issue := py "Potential hardcoded password"; v_code := Some line;
     v_recommendation :=
       py "Use environment variables or secure credential storage" |}.

Definition _check_shell_vulnerability (line : str) (line_num : Z)
    (file_path : str) : option Vulnerability :=
  match scan_table dangerous_commands line line_num file_path with
  | Some vuln => Some vuln
  | None =>
      if contains (py "$") line
         && (contains (py "eval") line || contains (py "source") line)
      then Some (injection_finding line line_num file_path)
      else if search_any password_patterns IGNORECASE line
      then Some (password_finding line line_num file_path)
      else None
  end.

(** The finding recorded when a file cannot be opened or decoded. *)
Definition unreadable_finding (what recommendation : string)
    (file_path err : str) : Vulnerability :=
  {| v_file := file_path; v_line := 0; v_severity := Info;
     v_issue := py what ++ err; v_code := None;
     v_recommendation := py recommendation |}.

(** The loop over the lines shared by [_scan_python_file] and
    [_scan_shell_file]: each line is stripped, checked, and its finding,
    if any, appended. *)
Definition scan_lines
    (check : str -> Z -> str -> option Vulnerability)
    (file_path : str) (lines : list str) : list Vulnerability :=
  flat_map (fun '(i, line) =>
              let line_clean := strip line in
              match check line_clean i file_path with
              | Some vuln => [vuln]
              | None => []
              end)
           (enumerate 1 lines).

Definition _scan_python_file (file : entry) : list Vulnerability :=
  match e_read file with
  | inl content =>
      scan_lines _check_python_vulnerability (e_path file)
                 (split newline content)
  | inr e =>
      [unreadable_finding "Could not scan file: "
         "Check file permissions and encoding" (e_path file) e]
  end.

Definition _scan_shell_file (file : entry) : list Vulnerability :=
  match e_read file with
  | inl content =>
      scan_lines _check_shell_vulnerability (e_path file)
                 (split newline content)
  | inr e =>
      [unreadable_finding "Could not scan file: "
         "Check file permissions and encoding" (e_path file) e]
  end.

(** The report of one pass. [files_scanned] is absent from the report
    of the general pass. *)
Record pass_report := {
  files_scanned : option Z;
  pass_vulnerabilities : list Vulnerability
}.

Definition scan_python_files (self : SecurityScanner) : option pass_report :=
  let python_files := glob_suffix ".py" (project_root self) in
  match python_files with
  | [] => None
  | _ => Some {| files_scanned := Some (len python_files);
                 pass_vulnerabilities := flat_map _scan_python_file python_files |}
  end.

Definition scan_shell_scripts (self : SecurityScanner) : option pass_report :=
  let shell_files := glob_suffix ".sh" (project_root self) in
  match shell_files with
  | [] => None
  | _ => Some {| files_scanned := Some (len shell_files);
                 pass_vulnerabilities := flat_map _scan_shell_file shell_files |}
  end.

Definition config_keywords : list string :=
  ["password"; "secret"; "key"; "token"]%string.

Definition config_finding (line_clean : str) (i : Z) (file_path : str) :=
  {| v_file := file_path; v_line := i; v_severity := Medium;
     v_issue := py "Potential sensitive data in config file";
     v_code := Some line_clean;
     v_recommendation :=
       py "Move sensitive data to environment variables or secure vaults" |}.

Definition _scan_config_file (file : entry) : list Vulnerability :=
  match e_read file with
  | inl content =>
      flat_map (fun '(i, line) =>
                  let line_clean := strip line in
                  if existsb (fun keyword => contains (py keyword) (lower line_clean))
                             config_keywords
                  then if contains (py "=") line_clean || contains (py ":") line_clean
                       then [config_finding line_clean i (e_path file)]
                       else []
                  else [])
               (enumerate 1 (split newline content))
  | inr e =>
      [unreadable_finding "Could not scan config file: "
         "Check file permissions and format" (e_path file) e]
  end.

Definition config_patterns : list string :=
  [".yml"; ".yaml"; ".json"; ".conf"; ".ini"]%string.

Definition scan_config_files (self : SecurityScanner) : option pass_report :=
  let config_files :=
    flat_map (fun pattern => glob_suffix pattern (project_root self))
             config_patterns in
  match config_files with
  | [] => None
  | _ => Some {| files_scanned := Some (len config_files);
                 pass_vulnerabilities := flat_map _scan_config_file config_files |}
  end.

Definition world_writable_finding (file : entry) (st : stat_result) :=
  {| v_file := e_path file; v_line := 0; v_severity := Medium;
     v_issue := py "World-writable file";
     v_code := Some (py "Permissions: " ++ oct (st_mode st));
     v_recommendation := py "Remove world-write permissions: chmod o-w" |}.

Definition large_file_finding (file : entry) (st : stat_result) :=
  {| v_file := e_path file; v_line := 0; v_severity := Low;
     v_issue := py "Very large file";
     v_code := Some (py "Size: " ++ str_of_Z (Z.of_N (st_size st)) ++ py " bytes");
     v_recommendation :=
       py "Consider if this file should be in version control" |}.

Definition scan_general_security (self : SecurityScanner) : option pass_report :=
  let writable :=
    flat_map (fun file_path =>
                if e_is_file file_path then
                  match e_stat file_path with
                  | Some stat_info =>
                      if negb (N.land (st_mode stat_info) 2 =? 0)%N
                      then [world_writable_finding file_path stat_info]
                      else []
                  | None => []
                  end
                else [])
             (glob_all (project_root self)) in
  let large :=
    flat_map (fun file_path =>
                if e_is_file file_path then
                  match e_stat file_path with
                  | Some stat_info =>
                      if (100 * 1024 * 1024 <? st_size stat_info)%N
                      then [large_file_finding file_path stat_info]
                      else []
                  | None => []
                  end
                else [])
             (glob_all (project_root self)) in
  match writable ++ large with
  | [] => None
  | vulns => Some {| files_scanned := None; pass_vulnerabilities := vulns |}
  end.

Record summary := {
  total_vulnerabilities : Z;
  critical_count : Z;
  high_count : Z;
  medium_count : Z;
  low_count : Z;
  info_count : Z
}.

Definition all_severities : list severity :=
  [Critical; High; Medium; Low; Info].

Definition _calculate_summary (self : SecurityScanner) : summary :=
  let count severity := len (bucket (vulnerabilities self) severity) in
  {| total_vulnerabilities :=
       fold_left (fun total severity => total + count severity)
                 all_severities 0;
     critical_count := count Critical;
     high_count := count High;
     medium_count := count Medium;
     low_count := count Low;
     info_count := count Info |}.

Record languages := {
  lang_python : option pass_report;
  lang_shell : option pass_report;
  lang_config : option pass_report;
  lang_general : option pass_report
}.

(** The dictionary [scan_all_files] returns, which [main] writes out as
    the JSON report. *)
Record report := {
  r_vulnerabilities : buckets;
  r_summary : summary;
  r_languages : languages
}.

Definition scan_all_files (self : SecurityScanner) : report :=
  {| r_vulnerabilities := vulnerabilities self;
     r_languages :=
       {| lang_python := scan_python_files self;
          lang_shell := scan_shell_scripts self;
          lang_config := scan_config_files self;
          lang_general := scan_general_security self |};
     r_summary := _calculate_summary self |}.

(** All the findings a scan emits, in report order. *)
Definition pass_findings (p : option pass_report) : list Vulnerability :=
  match p with
  | Some r => pass_vulnerabilities r
  | None => []
  end.

Definition emitted (r : report) : list Vulnerability :=
  pass_findings (lang_python (r_languages r))
  ++ pass_findings (lang_shell (r_languages r))
  ++ pass_findings (lang_config (r_languages r))
  ++ pass_findings (lang_general (r_languages r)).

End WithRuntime.
End SecurityScanner.

(** ** Walking a syntax tree *)

(** The child nodes of a node, in field order. *)
Definition children (n : node) : list node :=
  match n with
  | FunctionDef _ _ _ _ _ body => body
  | ClassDef _ _ _ body => body
  | If _ body orelse => body ++ orelse
  | Other cs => cs
  end.

(** Level-wise merge of two forests' levels. *)
Fixpoint zip_levels (a b : list (list node)) : list (list node) :=
  match a, b with
  | [], _ => b
  | _, [] => a
  | x :: a', y :: b' => (x ++ y) :: zip_levels a' b'
  end.

(** The nodes below and including [n], grouped by depth. *)
Fixpoint levels (n : node) : list (list node) :=
  let fix forest (l : list node) : list (list node) :=
    match l with
    | [] => []
    | c :: l' => zip_levels (levels c) (forest l')
    end in
  [n] :: match n with
         | FunctionDef _ _ _ _ _ body => forest body
         | ClassDef _ _ _ body => forest body
         | If _ body orelse => zip_levels (forest body) (forest orelse)
         | Other children => forest children
         end.

Fixpoint forest_levels (l : list node) : list (list node) :=
  match l with
  | [] => []
  | c :: l' => zip_levels (levels c) (forest_levels l')
  end.

(** [ast.walk(tree)] for the module whose body is [body]: breadth
    first, the children of a node in field order (the module node
    itself, which comes first, is none of the nodes tested for). *)
Definition walk (body : list node) : list node :=
  List.concat (forest_levels body).

(** ** quality-gates/complexity/analyze_complexity.py *)

Module ComplexityAnalyzer.
Section WithRuntime.
Context {R : PyRuntime}.

Record thresholds_t := {
  cyclomatic : Z;
  lines_per_function : Z;
  lines_per_file : Z;
  nesting_depth : Z
}.

Record ComplexityAnalyzer := {
  project_root : project;
  thresholds : thresholds_t
}.

Definition __init__ (project_root : project) : ComplexityAnalyzer :=
  {| project_root := project_root;
     thresholds := {| cyclomatic := 10; lines_per_function := 50;
                      lines_per_file := 300; nesting_depth := 4 |} |}.

(** The metrics of one function. [fn_complexity] is absent for shell
    functions, [fn_args] for shell and JavaScript functions. *)
Record function_metrics := {
  fn_name : str;
  fn_line : Z;
  fn_lines : Z;
  fn_complexity : option Z;
  fn_args : option Z
}.

Record class_metrics := {
  cl_name : str;
  cl_line : Z;
  cl_methods : Z
}.

(** The result for one file. [classes] is present for Python only. *)
Record file_result := {
  fr_file : str;
  total_lines : Z;
  functions : list function_metrics;
  classes : option (list class_metrics)
}.

Record complex_entry := {
  ce_file : str; ce_function : str; ce_complexity : Z; ce_line : Z
}.

Record long_function_entry := {
  lf_file : str; lf_function : str; lf_lines : Z; lf_line : Z
}.

Record long_file_entry := { lfile_file : str; lfile_lines : Z }.

Record language_report := {
  file_count : Z;
  files : list file_result;
  complex_functions : list complex_entry;
  long_functions : list long_function_entry;
  long_files : list long_file_entry
}.

Definition branch_keywords : list string :=
  ["if "; "elif "; "for "; "while "; "case "; "&&"; "||"]%string.

(** One iteration of the loop of [_calculate_cyclomatic_complexity]. *)
Definition cyclomatic_step (complexity : Z) (line : str) : Z :=
  let line := strip line in
  let complexity :=
    if existsb (fun keyword => contains (py keyword) line) branch_keywords
    then complexity + 1 else complexity in
  let complexity :=
    if contains (py "except ") line then complexity + 1 else complexity in
  if count (py " and ") line + count (py " or ") line >? 0
  then complexity + (count (py " and ") line + count (py " or ") line)
  else complexity.

Definition _calculate_cyclomatic_complexity (lines : list str) : Z :=
  fold_left cyclomatic_step lines 1.

(** [_analyze_python_function], for a [FunctionDef] node given by its
    attributes; the default of [getattr] is taken where the node has no
    [end_lineno] attribute. *)
Definition _analyze_python_function (name : str) (lineno : Z)
    (end_lineno : option Z) (nargs : Z) (lines : list str)
    : function_metrics :=
  let start_line := lineno - 1 in
  let end_line :=
    match end_lineno with
    | Some l => l
    | None => start_line + 10
    end - 1 in
  let function_lines := slice lines start_line (end_line + 1) in
  let complexity := _calculate_cyclomatic_complexity function_lines in
  {| fn_name := name; fn_line := lineno; fn_lines := len function_lines;
     fn_complexity := Some complexity; fn_args := Some nargs |}.

Definition is_FunctionDef (n : node) : bool :=
  match n with
  | FunctionDef _ _ _ _ _ _ => true
  | _ => false
  end.

Definition _analyze_python_file (file : entry) : file_result + exn :=
  match e_read file with
  | inr e => inr (OtherException e)
  | inl content =>
      let lines := split newline content in
      match ast_parse content with
      | inr e => inr e
      | inl tree =>
          inl {| fr_file := e_path file;
                 total_lines := len lines;
                 functions :=
                   flat_map (fun n =>
                               match n with
                               | FunctionDef name lineno end_lineno nargs _ _ =>
                                   [_analyze_python_function name lineno
                                      end_lineno nargs lines]
                               | _ => []
                               end) (walk tree);
                 classes :=
                   Some (flat_map (fun n =>
                               match n with
                               | ClassDef name lineno _ body =>
                                   [{| cl_name := name; cl_line := lineno;
                                       cl_methods := len (filter is_FunctionDef body) |}]
                               | _ => []
                               end) (walk tree)) |}
      end
  end.

Definition get_complexity (func : function_metrics) : Z :=
  match fn_complexity func with
  | Some c => c
  | None => 0
  end.

Definition complex_entry_of (file : entry) (func : function_metrics) :=
  {| ce_file := e_path file; ce_function := fn_name func;
     ce_complexity := get_complexity func; ce_line := fn_line func |}.

Definition long_function_entry_of (file : entry) (func : function_metrics) :=
  {| lf_file := e_path file; lf_function := fn_name func;
     lf_lines := fn_lines func; lf_line := fn_line func |}.

Definition long_file_entry_of (file : entry) (file_result : file_result) :=
  {| lfile_file := e_path file; lfile_lines := total_lines file_result |}.

Definition empty_report (n : Z) : language_report :=
  {| file_count := n; files := []; complex_functions := [];
     long_functions := []; long_files := [] |}.

(** The body of the loop of [analyze_python_files] (and of
    [analyze_javascript_files], which has the same body): a file whose
    analysis raises leaves [results] as it is. *)
Definition analyze_step (self : ComplexityAnalyzer)
    (analyze : entry -> file_result + exn)
    (results : language_report) (file : entry) : language_report :=
  match analyze file with
  | inr _ => results
  | inl file_result =>
      {| file_count := file_count results;
         files := files results ++ [file_result];
         complex_functions :=
           complex_functions results
           ++ flat_map (fun func =>
                          if get_complexity func >? cyclomatic (thresholds self)
                          then [complex_entry_of file func] else [])
                       (functions file_result);
         long_functions :=
           long_functions results
           ++ flat_map (fun func =>
                          if fn_lines func >? lines_per_function (thresholds self)
                          then [long_function_entry_of file func] else [])
                       (functions file_result);
         long_files :=
           long_files results
           ++ (if total_lines file_result >? lines_per_file (thresholds self)
               then [long_file_entry_of file file_result] else []) |}
  end.

Definition analyze_python_files (self : ComplexityAnalyzer)
    : option language_report :=
  let python_files := glob_suffix ".py" (project_root self) in
  match python_files with
  | [] => None
  | _ => Some (fold_left (analyze_step self _analyze_python_file)
                         python_files (empty_report (len python_files)))
  end.

(** [_find_shell_function_end]: the loop from [start_idx] on, over the
    lines from there, with the running [brace_count]. *)
Fixpoint find_end_from (lines : list str) (i : Z) (brace_count : Z)
    : option Z :=
  match lines with
  | [] => None
  | l :: rest =>
      let line := strip l in
      let brace_count :=
        brace_count + (count (py "{") line - count (py "}") line) in
      if (brace_count =? 0) && contains (py "}") line then Some i
      else find_end_from rest (i + 1) brace_count
  end.

Definition _find_shell_function_end (lines : list str) (start_idx : Z)
    : option Z :=
  find_end_from (skipn (Z.to_nat start_idx) lines) start_idx 0.

Definition _analyze_shell_file (file : entry) : file_result + exn :=
  match e_read file with
  | inr e => inr (OtherException e)
  | inl content =>
      let lines := split newline content in
      inl {| fr_file := e_path file;
             total_lines := len lines;
             functions :=
               flat_map (fun '(i, line) =>
                           match re_match pat_shell_function (strip line) with
                           | Some func_name =>
                               let end_line := _find_shell_function_end lines i in
                               let func_lines :=
                                 match end_line with
                                 | Some e => if e =? 0 then 10 else e - i
                                 | None => 10
                                 end in
                               [{| fn_name := func_name; fn_line := i + 1;
                                   fn_lines := func_lines;
                                   fn_complexity := None; fn_args := None |}]
                           | None => []
                           end)
                        (enumerate 0 lines);
             classes := None |}
  end.

(** The body of the loop of [analyze_shell_files]. *)
Definition analyze_shell_step (self : ComplexityAnalyzer)
    (results : language_report) (file : entry) : language_report :=
  match _analyze_shell_file file with
  | inr _ => results
  | inl file_result =>
      {| file_count := file_count results;
         files := files results ++ [file_result];
         complex_functions := complex_functions results;
         long_functions :=
           long_functions results
           ++ flat_map (fun func =>
                          if fn_lines func >? lines_per_function (thresholds self)
                          then [long_function_entry_of file func] else [])
                       (functions file_result);
         long_files :=
           long_files results
           ++ (if total_lines file_result >? lines_per_file (thresholds self)
               then [long_file_entry_of file file_result] else []) |}
  end.

Definition analyze_shell_files (self : ComplexityAnalyzer)
    : option language_report :=
  let shell_files := glob_suffix ".sh" (project_root self) in
  match shell_files with
  | [] => None
  | _ => Some (fold_left (analyze_shell_step self) shell_files
                         (empty_report (len shell_files)))
  end.

(** [_estimate_js_function_length]: the loop over at most [fuel] lines
    from [start_idx] on; [None] when it ends without returning. *)
Fixpoint estimate_from (lines : list str) (fuel : nat) (offset : Z)
    (brace_count : Z) : option Z :=
  match fuel, lines with
  | O, _ | _, [] => None
  | S k, l :: rest =>
      let line := strip l in
      let brace_count :=
        brace_count + (count (py "{") line - count (py "}") line) in
      if (brace_count =? 0) && contains (py "}") line then Some (offset + 1)
      else estimate_from rest k (offset + 1) brace_count
  end.

Definition _estimate_js_function_length (lines : list str) (start_idx : Z)
    : Z :=
  match estimate_from (skipn (Z.to_nat start_idx) lines) 100 0 0 with
  | Some n => n
  | None => Z.min 50 (len lines - start_idx)
  end.

Definition js_keywords : list string :=
  ["if "; "for "; "while "; "switch "; "&&"; "||"; "?"]%string.

Definition js_step (complexity : Z) (line : str) : Z :=
  let line := strip line in
  let complexity :=
    if existsb (fun keyword => contains (py keyword) line) js_keywords
    then complexity + 1 else complexity in
  if contains (py "catch ") line then complexity + 1 else complexity.

Definition _calculate_js_complexity (lines : list str) : Z :=
  fold_left js_step lines 1.

Definition _analyze_javascript_file (file : entry) : file_result + exn :=
  match e_read file with
  | inr e => inr (OtherException e)
  | inl content =>
      let lines := split newline content in
      inl {| fr_file := e_path file;
             total_lines := len lines;
             functions :=
               flat_map (fun '(i, line) =>
                           match re_match pat_js_function (strip line) with
                           | Some group1 =>
                               let func_name :=
                                 match group1 with
                                 | [] => py "anonymous"
                                 | _ => group1
                                 end in
                               let func_lines :=
                                 _estimate_js_function_length lines i in
                               let complexity :=
                                 _calculate_js_complexity
                                   (slice lines i (i + func_lines)) in
                               [{| fn_name := func_name; fn_line := i + 1;
                                   fn_lines := func_lines;
                                   fn_complexity := Some complexity;
                                   fn_args := None |}]
                           | None => []
                           end)
                        (enumerate 0 lines);
             classes := None |}
  end.

Definition analyze_javascript_files (self : ComplexityAnalyzer)
    : option language_report :=
  let js_files :=
    glob_suffix ".js" (project_root self)
    ++ glob_suffix ".ts" (project_root self) in
  match js_files with
  | [] => None
  | _ => Some (fold_left (analyze_step self _analyze_javascript_file)
                         js_files (empty_report (len js_files)))
  end.

Record summary := {
  total_files : Z;
  complex_files : Z;
  high_complexity_functions : Z;
  long_functions_count : Z;
  long_files_count : Z
}.

Record languages := {
  lang_python : option language_report;
  lang_shell : option language_report;
  lang_javascript : option language_report
}.

Record report := {
  r_summary : summary;
  r_languages : languages
}.

Definition present (l : languages) : list language_report :=
  flat_map (fun o => match o with Some r => [r] | None => [] end)
           [lang_python l; lang_shell l; lang_javascript l].

(** [_calculate_summary_stats], starting from the summary in which only
    [total_files] has been counted. *)
Definition _calculate_summary_stats (total : Z) (l : languages) : summary :=
  fold_left (fun summary lang_results =>
               {| total_files := total_files summary;
                  complex_files :=
                    complex_files summary + len (complex_functions lang_results);
                  high_complexity_functions :=
                    high_complexity_functions summary
                    + len (complex_functions lang_results);
                  long_functions_count :=
                    long_functions_count summary + len (long_functions lang_results);
                  long_files_count :=
                    long_files_count summary + len (long_files lang_results) |})
            (present l)
            {| total_files := total; complex_files := 0;
               high_complexity_functions := 0; long_functions_count := 0;
               long_files_count := 0 |}.

Definition analyze_all_files (self : ComplexityAnalyzer) : report :=
  let l := {| lang_python := analyze_python_files self;
              lang_shell := analyze_shell_files self;
              lang_javascript := analyze_javascript_files self |} in
  let total :=
    fold_left (fun t r => t + file_count r) (present l) 0 in
  {| r_summary := _calculate_summary_stats total l; r_languages := l |}.

End WithRuntime.
End ComplexityAnalyzer.

(** ** quality-gates/review/automate_review.py *)

Module CodeReviewAutomator.
Section WithRuntime.
Context {R : PyRuntime}.

Record Finding := {
  f_file : str;
  f_line : Z;
  f_category : category;
  f_severity : severity;
  f_issue : str;
  f_recommendation : str
}.

(** [self.issues], the lists of findings by category. *)
Record issues_t := {
  i_style : list Finding;
  i_logic : list Finding;
  i_security : list Finding;
  i_performance : list Finding;
  i_maintainability : list Finding
}.

Definition issues_of (i : issues_t) (c : category) : list Finding :=
  match c with
  | Style => i_style i
  | Logic => i_logic i
  | Security => i_security i
  | Performance => i_performance i
  | Maintainability => i_maintainability i
  end.

Record CodeReviewAutomator := {
  project_root : project;
  issues : issues_t
}.

Definition __init__ (project_root : project) : CodeReviewAutomator :=
  {| project_root := project_root;
     issues := {| i_style := []; i_logic := []; i_security := [];
                  i_performance := []; i_maintainability := [] |} |}.

Definition finding (file : str) (line : Z) (c : category) (s : severity)
    (issue recommendation : str) : Finding :=
  {| f_file := file; f_line := line; f_category := c; f_severity := s;
     f_issue := issue; f_recommendation := recommendation |}.

(** [count_nested_ifs] of [visit_If]. The loop over
    [node.body + node.orelse] is run over [body], then over [orelse]. *)
Fixpoint count_nested_ifs (n : node) (depth : Z) : Z :=
  match n with
  | If _ body orelse =>
      let max_depth := Z.max depth (depth + 1) in
      let step := fun max_depth child =>
                    Z.max max_depth (count_nested_ifs child (depth + 1)) in
      fold_left step orelse (fold_left step body max_depth)
  | _ => depth
  end.

(** [CodeAnalyzer.visit]: the findings appended while visiting [n], in
    the order of the visit. *)
Fixpoint visit (file_path : str) (n : node) : list Finding :=
  let fix generic_visit (l : list node) : list Finding :=
    match l with
    | [] => []
    | child :: l' => visit file_path child ++ generic_visit l'
    end in
  match n with
  | FunctionDef name lineno _ nargs _ body =>
      (if len body >? 50
       then [finding file_path lineno Maintainability Medium
               (py "Function '" ++ name ++ py "' is too long ("
                ++ str_of_Z (len body) ++ py " lines)")
               (py "Break down into smaller functions (max 30 lines)")]
       else [])
      ++ (if nargs >? 5
          then [finding file_path lineno Maintainability Medium
                  (py "Function '" ++ name ++ py "' has too many parameters ("
                   ++ str_of_Z nargs ++ py ")")
                  (py "Use a configuration object or reduce parameters")]
          else [])
      ++ generic_visit body
  | ClassDef name lineno _ body =>
      (if len body >? 200
       then [finding file_path lineno Maintainability Medium
               (py "Class '" ++ name ++ py "' is too large ("
                ++ str_of_Z (len body) ++ py " lines)")
               (py "Split into smaller classes or modules")]
       else [])
      ++ generic_visit body
  | If lineno body orelse =>
      (let nested_depth := count_nested_ifs n 0 in
       if nested_depth >? 3
       then [finding file_path lineno Maintainability Medium
               (py "Deeply nested if statements (depth "
                ++ str_of_Z nested_depth ++ py ")")
               (py "Extract nested logic into separate functions")]
       else [])
      ++ generic_visit body ++ generic_visit orelse
  | Other children => generic_visit children
  end.

(** [_analyze_ast] for the module whose body is [tree]. *)
Definition _analyze_ast (tree : list node) (file_path : str) : list Finding :=
  flat_map (visit file_path) tree.

Definition _analyze_python_line (line : str) (line_num : Z) (file_path : str)
    : list Finding :=
  (if len line >? 88
   then [finding file_path line_num Style Low
           (py "Line too long (" ++ str_of_Z (len line) ++ py " characters)")
           (py "Break line to fit within 88 characters")]
   else [])
  ++ (if contains (py "TODO") (upper line)
      then [finding file_path line_num Maintainability Low
              (py "TODO comment found")
              (py "Address TODO or convert to proper issue tracking")]
      else [])
  ++ (if contains (py "print(") line && negb (endswith (py "test.py") file_path)
      then [finding file_path line_num Style Medium
              (py "Print statement in production code")
              (py "Use proper logging instead of print statements")]
      else [])
  ++ (if contains (py "except:") line && negb (contains (py "Exception") line)
      then [finding file_path line_num Logic Medium
              (py "Bare except clause")
              (py "Specify exception types to catch")]
      else [])
  ++ flat_map (fun num =>
                 if negb (existsb (str_eqb num) [py "0"; py "1"; py "100"])
                 then [finding file_path line_num Maintainability Low
                         (py "Magic number '" ++ num ++ py "' found")
                         (py "Replace with named constant")]
                 else [])
              (re_findall pat_magic_number line).

(** The line loop of [_review_python_file] and [_review_shell_file]:
    empty lines and comment lines are skipped. *)
Definition review_lines (analyze : str -> Z -> str -> list Finding)
    (file_path : str) (lines : list str) : list Finding :=
  flat_map (fun '(i, line) =>
              let line_clean := strip line in
              match line_clean with
              | [] => []
              | _ => if startswith (py "#") line_clean then []
                     else analyze line_clean i file_path
              end)
           (enumerate 1 lines).

Definition could_not_review (what recommendation : string)
    (file_path e : str) : Finding :=
  finding file_path 0 Logic Info (py what ++ e) (py recommendation).

Definition syntax_error_finding (file_path : str) (lineno : option Z)
    (msg : str) : Finding :=
  finding file_path
    (match lineno with
     | Some l => if l =? 0 then 0 else l
     | None => 0
     end)
    Logic High (py "Syntax error: " ++ msg)
    (py "Fix syntax error before proceeding").

Definition _review_python_file (file : entry) : list Finding :=
  match e_read file with
  | inr e =>
      [could_not_review "Could not review file: "
         "Check file permissions and encoding" (e_path file) e]
  | inl content =>
      let lines := split newline content in
      match ast_parse content with
      | inl tree =>
          _analyze_ast tree (e_path file)
          ++ review_lines _analyze_python_line (e_path file) lines
      | inr (SyntaxError lineno msg) =>
          [syntax_error_finding (e_path file) lineno msg]
          ++ review_lines _analyze_python_line (e_path file) lines
      | inr (OtherException e) =>
          [could_not_review "Could not review file: "
             "Check file permissions and encoding" (e_path file) e]
      end
  end.

(** The report of one pass. [files_reviewed] is absent from the report
    of the documentation pass. *)
Record pass_report := {
  files_reviewed : option Z;
  pass_issues : list Finding
}.

Definition review_python_files (self : CodeReviewAutomator)
    : option pass_report :=
  let python_files := glob_suffix ".py" (project_root self) in
  match python_files with
  | [] => None
  | _ => Some {| files_reviewed := Some (len python_files);
                 pass_issues := flat_map _review_python_file python_files |}
  end.

Definition _analyze_shell_line (line : str) (line_num : Z) (file_path : str)
    : list Finding :=
  (if re_search pat_unquoted_var NOFLAG line
   then [finding file_path line_num Logic Medium
           (py "Unquoted variable expansion")
           (py "Quote variable expansions to prevent word splitting")]
   else [])
  ++ (if (line_num =? 1) && negb (contains (py "set -e") line)
      then [finding file_path line_num Logic Medium
              (py "Missing 'set -e' for error handling")
              (py "Add 'set -e' at script beginning to exit on errors")]
      else [])
  ++ (if contains (py "/usr/local") line || contains (py "/opt/") line
      then [finding file_path line_num Maintainability Low
              (py "Hardcoded system path")
              (py "Use variables for configurable paths")]
      else []).

Definition _review_shell_file (file : entry) : list Finding :=
  match e_read file with
  | inr e =>
      [could_not_review "Could not review file: "
         "Check file permissions and encoding" (e_path file) e]
  | inl content =>
      review_lines _analyze_shell_line (e_path file) (split newline content)
  end.

Definition review_shell_scripts (self : CodeReviewAutomator)
    : option pass_report :=
  let shell_files := glob_suffix ".sh" (project_root self) in
  match shell_files with
  | [] => None
  | _ => Some {| files_reviewed := Some (len shell_files);
                 pass_issues := flat_map _review_shell_file shell_files |}
  end.

Definition _review_config_file (file : entry) : list Finding :=
  match e_read file with
  | inr e =>
      [could_not_review "Could not review config file: "
         "Check file permissions and format" (e_path file) e]
  | inl content =>
      flat_map (fun '(i, line) =>
                  let line_clean := strip line in
                  if startswith (py "#") line_clean
                     && (contains (py "=") line_clean
                         || contains (py ":") line_clean)
                  then [finding (e_path file) i Maintainability Low
                          (py "Commented out configuration")
                          (py "Remove commented configuration or document why it's disabled")]
                  else [])
               (enumerate 1 (split newline content))
  end.

Definition config_patterns : list string :=
  [".yml"; ".yaml"; ".json"; ".conf"; ".ini"]%string.

Definition review_config_files (self : CodeReviewAutomator)
    : option pass_report :=
  let config_files :=
    flat_map (fun pattern => glob_suffix pattern (project_root self))
             config_patterns in
  match config_files with
  | [] => None
  | _ => Some {| files_reviewed := Some (len config_files);
                 pass_issues := flat_map _review_config_file config_files |}
  end.

(** The functions and classes of one file that have no docstring; a
    file that cannot be read or parsed counts for nothing. *)
Definition undocumented_in (file : entry) : Z :=
  match e_read file with
  | inr _ => 0
  | inl content =>
      match ast_parse content with
      | inr _ => 0
      | inl tree =>
          len (filter (fun n =>
                         match n with
                         | FunctionDef _ _ _ _ docstring _ => negb docstring
                         | ClassDef _ _ docstring _ => negb docstring
                         | _ => false
                         end) (walk tree))
      end
  end.

Definition review_documentation (self : CodeReviewAutomator)
    : option pass_report :=
  let readme_files := glob_prefix "README" (project_root self) in
  let python_files := glob_suffix ".py" (project_root self) in
  let undocumented_functions :=
    fold_left (fun n py_file => n + undocumented_in py_file) python_files 0 in
  let found :=
    (match readme_files with
     | [] => [finding (py "project_root") 0 Maintainability Medium
                (py "Missing README file")
                (py "Add README.md with project description and setup instructions")]
     | _ => []
     end)
    ++ (if undocumented_functions >? 0
        then [finding (py "multiple_files") 0 Maintainability Low
                (str_of_Z undocumented_functions
                 ++ py " functions/classes missing docstrings")
                (py "Add docstrings to all public functions and classes")]
        else []) in
  match found with
  | [] => None
  | _ => Some {| files_reviewed := None; pass_issues := found |}
  end.

Record summary := {
  total_issues : Z;
  style_count : Z;
  logic_count : Z;
  security_count : Z;
  performance_count : Z;
  maintainability_count : Z
}.

Definition all_categories : list category :=
  [Style; Logic; Security; Performance; Maintainability].

Definition _calculate_summary (self : CodeReviewAutomator) : summary :=
  let count category := len (issues_of (issues self) category) in
  {| total_issues :=
       fold_left (fun total category => total + count category)
                 all_categories 0;
     style_count := count Style;
     logic_count := count Logic;
     security_count := count Security;
     performance_count := count Performance;
     maintainability_count := count Maintainability |}.

(** The summary entry named after the category, [category + "_count"]. *)
Definition category_count (s : summary) (c : category) : Z :=
  match c with
  | Style => style_count s
  | Logic => logic_count s
  | Security => security_count s
  | Performance => performance_count s
  | Maintainability => maintainability_count s
  end.

Definition deductions : list (category * Z) :=
  [(Style, 1); (Logic, 5); (Security, 10); (Performance, 3);
   (Maintainability, 2)].

Definition _calculate_score (self : CodeReviewAutomator) : Z :=
  let summary := _calculate_summary self in
  let score :=
    fold_left (fun score '(category, deduction) =>
                 score - Z.min (category_count summary category * deduction) 20)
              deductions 100 in
  Z.max 0 score.

Record languages := {
  lang_python : option pass_report;
  lang_shell : option pass_report;
  lang_config : option pass_report;
  lang_documentation : option pass_report
}.

Record report := {
  r_issues : issues_t;
  r_summary : summary;
  r_languages : languages;
  r_score : Z
}.

Definition run_full_review (self : CodeReviewAutomator) : report :=
  {| r_issues := issues self;
     r_languages :=
       {| lang_python := review_python_files self;
          lang_shell := review_shell_scripts self;
          lang_config := review_config_files self;
          lang_documentation := review_documentation self |};
     r_summary := _calculate_summary self;
     r_score := _calculate_score self |}.

Definition pass_findings (p : option pass_report) : list Finding :=
  match p with
  | Some r => pass_issues r
  | None => []
  end.

(** All the findings a review emits, in report order. *)
Definition emitted (r : report) : list Finding :=
  pass_findings (lang_python (r_languages r))
  ++ pass_findings (lang_shell (r_languages r))
  ++ pass_findings (lang_config (r_languages r))
  ++ pass_findings (lang_documentation (r_languages r)).

(** The score as the specification words it: from 100, for each
    category the deduction [min(count * weight, 20)] over the emitted
    findings, the result floored at 0. *)
Definition spec_count (found : list Finding) (c : category) : Z :=
  len (filter (fun f => category_eqb (f_category f) c) found).

Definition spec_score (found : list Finding) : Z :=
  Z.max 0
    (100 - Z.min (spec_count found Style * 1) 20
         - Z.min (spec_count found Logic * 5) 20
         - Z.min (spec_count found Security * 10) 20
         - Z.min (spec_count found Performance * 3) 20
         - Z.min (spec_count found Maintainability * 2) 20).

(** [self.issues] with one more finding filed under the category [c]. *)
Definition add_issue (c : category) (f : Finding) (i : issues_t) : issues_t :=
  match c with
  | Style => {| i_style := i_style i ++ [f]; i_logic := i_logic i;
                i_security := i_security i;
                i_performance := i_performance i;
                i_maintainability := i_maintainability i |}
  | Logic => {| i_style := i_style i; i_logic := i_logic i ++ [f];
                i_security := i_security i;
                i_performance := i_performance i;
                i_maintainability := i_maintainability i |}
  | Security => {| i_style := i_style i; i_logic := i_logic i;
                   i_security := i_security i ++ [f];
                   i_performance := i_performance i;
                   i_maintainability := i_maintainability i |}
  | Performance => {| i_style := i_style i; i_logic := i_logic i;
                      i_security := i_security i;
                      i_performance := i_performance i ++ [f];
                      i_maintainability := i_maintainability i |}
  | Maintainability => {| i_style := i_style i; i_logic := i_logic i;
                          i_security := i_security i;
                          i_performance := i_performance i;
                          i_maintainability := i_maintainability i ++ [f] |}
  end.

End WithRuntime.
End CodeReviewAutomator.

(** ** quality-gates/run_quality_gates.py *)

Module QualityGateManager.

(** What comes back from running one of the analyzer scripts as a
    subprocess and reading its latest report. *)
Inductive script_run (A : Type) :=
| Missing                       (* the script file does not exist *)
| Raised                        (* running it raised an exception *)
| Exited (returncode : Z) (latest : option A).
                                (* [latest]: the latest report, if one
                                   exists and loads as JSON *)
Arguments Missing {A}.
Arguments Raised {A}.
Arguments Exited {A} returncode latest.

(** An entry of the [vulnerabilities] lists of the security gate: an
    entry of the scanner's report, an issue reported by bandit, or one
    of the [file]/[issue] notes the fallback scan adds. *)
Inductive gate_finding :=
| Scanned (v : SecurityScanner.Vulnerability)
| Bandit (file : str) (line : Z) (issue confidence : str)
| Note (file issue : str).

Record gate_buckets := {
  g_critical : list gate_finding;
  g_high : list gate_finding;
  g_medium : list gate_finding;
  g_low : list gate_finding;
  g_info : list gate_finding
}.

Definition no_vulnerabilities : gate_buckets :=
  {| g_critical := []; g_high := []; g_medium := []; g_low := [];
     g_info := [] |}.

(** The report of the security scanner as loaded back from JSON:
    [security_data.get("vulnerabilities")]. *)
Record security_data := { sd_vulnerabilities : option gate_buckets }.

(** The report of the review script as loaded back from JSON. *)
Record review_data := {
  rd_score : option Q;
  rd_recommendations : option (list str)
}.

(** The result of one language's linting. *)
Record lang_lint := { errors : Z; warnings : Z; details : list str }.

(** An entry of [complex_functions]: Python entries carry [function]
    and [complexity], shell entries [file] and [functions]. *)
Record complex_function := {
  cf_function : option str;
  cf_file : option str;
  cf_complexity : option Z;
  cf_functions : option Z
}.

Record long_function := { lfn_file : str; lfn_lines : Z }.

Record complexity_part := {
  cp_files_analyzed : Z;
  cp_complex_functions : list complex_function;
  cp_long_functions : list long_function
}.

Record check_result := {
  ck_status : status;
  ck_score : Z;
  ck_issues : list str
}.

(** The results of the helpers that run external tools (flake8,
    shellcheck, PyYAML, radon, bandit, the analyzer scripts) or inspect
    the tree for the fallback review: given by the host. *)
Class Host := {
  python_linting : lang_lint;            (* _run_python_linting() *)
  shell_linting : lang_lint;             (* _run_shell_linting() *)
  yaml_linting : lang_lint;              (* _run_yaml_linting() *)
  python_complexity : complexity_part;   (* _run_python_complexity() *)
  bandit_scan : gate_buckets;            (* the bandit part of _run_security_scan() *)
  security_script : script_run security_data;
  review_script : script_run review_data;
  check_documentation : check_result;    (* _check_documentation() *)
  check_naming : check_result;           (* _check_naming_conventions() *)
  check_structure : check_result;        (* _check_code_structure() *)
  check_best_practices : check_result    (* _check_best_practices() *)
}.

Section WithHost.
Context {R : PyRuntime} {H : Host}.

Record thresholds_t := {
  linting_max_errors : Z;
  linting_max_warnings : Z;
  complexity_max_complexity : Z;
  complexity_max_lines : Z;
  security_max_critical : Z;
  security_max_high : Z;
  security_max_medium : Z;
  coverage_min_coverage : Q
}.

Record QualityGateManager := {
  project_root : project;
  thresholds : thresholds_t
}.

Definition __init__ (project_root : project) : QualityGateManager :=
  {| project_root := project_root;
     thresholds :=
       {| linting_max_errors := 0; linting_max_warnings := 10;
          complexity_max_complexity := 10; complexity_max_lines := 100;
          security_max_critical := 0; security_max_high := 0;
          security_max_medium := 5; coverage_min_coverage := 80 # 1 |} |}.

Definition _has_python_files (self : QualityGateManager) : bool :=
  len (glob_suffix ".py" (project_root self)) >? 0.

Definition _has_shell_files (self : QualityGateManager) : bool :=
  len (glob_suffix ".sh" (project_root self)) >? 0.

Definition _has_yaml_files (self : QualityGateManager) : bool :=
  len (glob_suffix ".yml" (project_root self))
  + len (glob_suffix ".yaml" (project_root self)) >? 0.

Record linting_result := {
  l_status : status;
  l_languages : list (string * lang_lint);
  total_errors : Z;
  total_warnings : Z
}.

Definition run_linting_checks (self : QualityGateManager) : linting_result :=
  let languages :=
    (if _has_python_files self then [("python"%string, python_linting)] else [])
    ++ (if _has_shell_files self then [("shell"%string, shell_linting)] else [])
    ++ (if _has_yaml_files self then [("yaml"%string, yaml_linting)] else []) in
  let total_errors :=
    fold_left (fun total lang_result => total + errors (snd lang_result))
              languages 0 in
  let total_warnings :=
    fold_left (fun total lang_result => total + warnings (snd lang_result))
              languages 0 in
  {| l_status :=
       if total_errors >? linting_max_errors (thresholds self) then Failed
       else if total_warnings >? linting_max_warnings (thresholds self)
       then Warning
       else Passed;
     l_languages := languages;
     total_errors := total_errors;
     total_warnings := total_warnings |}.

(** The body of the loop of [_run_shell_complexity]; a file that cannot
    be read is passed over. ([read_text()] decodes with the default
    encoding of the host, taken to be UTF-8 as in the analyzers.) *)
Definition shell_complexity_step (self : QualityGateManager)
    (result : complexity_part) (sh_file : entry) : complexity_part :=
  match e_read sh_file with
  | inr _ => result
  | inl content =>
      let lines := len (split newline content) in
      let functions :=
        count (py "function ") content + count (py "() {") content in
      {| cp_files_analyzed := cp_files_analyzed result;
         cp_complex_functions :=
           cp_complex_functions result
           ++ (if functions >? 20
               then [{| cf_function := None; cf_file := Some (e_path sh_file);
                        cf_complexity := None; cf_functions := Some functions |}]
               else []);
         cp_long_functions :=
           cp_long_functions result
           ++ (if lines >? complexity_max_lines (thresholds self)
               then [{| lfn_file := e_path sh_file; lfn_lines := lines |}]
               else []) |}
  end.

Definition _run_shell_complexity (self : QualityGateManager)
    : complexity_part :=
  let shell_files := glob_suffix ".sh" (project_root self) in
  let result :=
    fold_left (shell_complexity_step self) shell_files
      {| cp_files_analyzed := 0; cp_complex_functions := [];
         cp_long_functions := [] |} in
  {| cp_files_analyzed := len shell_files;
     cp_complex_functions := cp_complex_functions result;
     cp_long_functions := cp_long_functions result |}.

Record complexity_summary := {
  total_complex_functions : Z;
  total_long_functions : Z;
  max_complexity : Z;
  max_lines : Z
}.

Record complexity_result := {
  c_status : status;
  files_analyzed : Z;
  complex_functions : list complex_function;
  long_functions : list long_function;
  c_summary : complexity_summary
}.

(** [max(l, default=0)] *)
Definition max_default (l : list Z) : Z :=
  match l with
  | [] => 0
  | x :: l' => fold_left Z.max l' x
  end.

Definition run_complexity_analysis (self : QualityGateManager)
    : complexity_result :=
  let parts :=
    (if _has_python_files self then [python_complexity] else [])
    ++ (if _has_shell_files self then [_run_shell_complexity self] else []) in
  let files_analyzed :=
    fold_left (fun n part => n + cp_files_analyzed part) parts 0 in
  let complex_functions := flat_map cp_complex_functions parts in
  let long_functions := flat_map cp_long_functions parts in
  let max_complexity :=
    max_default (map (fun f => match cf_complexity f with
                               | Some c => c
                               | None => 0
                               end) complex_functions) in
  let max_lines := max_default (map lfn_lines long_functions) in
  {| c_status :=
       if max_complexity >? complexity_max_complexity (thresholds self)
       then Failed
       else if max_lines >? complexity_max_lines (thresholds self)
       then Warning
       else Passed;
     files_analyzed := files_analyzed;
     complex_functions := complex_functions;
     long_functions := long_functions;
     c_summary :=
       {| total_complex_functions := len complex_functions;
          total_long_functions := len long_functions;
          max_complexity := max_complexity;
          max_lines := max_lines |} |}.

(** The shell checks of [_run_security_scan] for one file; a file that
    cannot be read is passed over. *)
Definition shell_issues (sh_file : entry) : list gate_finding :=
  match e_read sh_file with
  | inr _ => []
  | inl content =>
      map (Note (e_path sh_file))
        ((if contains (py "rm -rf /") content
          then [py "Dangerous: rm -rf /"] else [])
         ++ (if contains (py "chmod 777") content
             then [py "Dangerous: chmod 777"] else [])
         ++ (if contains (py "sudo") content
                && contains (py "password") (lower content)
             then [py "Potential password exposure"] else []))
  end.

Definition _run_security_scan (self : QualityGateManager) : gate_buckets :=
  {| g_critical := g_critical bandit_scan;
     g_high :=
       g_high bandit_scan
       ++ flat_map shell_issues (glob_suffix ".sh" (project_root self));
     g_medium := g_medium bandit_scan;
     g_low := g_low bandit_scan;
     g_info := g_info bandit_scan |}.

Record security_summary := {
  critical_count : Z;
  high_count : Z;
  medium_count : Z;
  low_count : Z;
  info_count : Z
}.

Record security_result := {
  s_status : status;
  vulnerabilities : gate_buckets;
  s_summary : security_summary
}.

Definition run_security_scanning (self : QualityGateManager)
    : security_result :=
  let vulnerabilities :=
    match security_script with
    | Exited returncode latest =>
        if returncode =? 0 then
          match latest with
          | Some security_data =>
              match sd_vulnerabilities security_data with
              | Some v => v
              | None => no_vulnerabilities
              end
          | None => no_vulnerabilities
          end
        else _run_security_scan self
    | Missing => _run_security_scan self
    | Raised => _run_security_scan self
    end in
  let summary :=
    {| critical_count := len (g_critical vulnerabilities);
       high_count := len (g_high vulnerabilities);
       medium_count := len (g_medium vulnerabilities);
       low_count := len (g_low vulnerabilities);
       info_count := len (g_info vulnerabilities) |} in
  {| s_status :=
       if critical_count summary >? security_max_critical (thresholds self)
       then Failed
       else if high_count summary >? security_max_high (thresholds self)
       then Failed
       else if medium_count summary >? security_max_medium (thresholds self)
       then Warning
       else Passed;
     vulnerabilities := vulnerabilities;
     s_summary := summary |}.

Record review_result := {
  r_status : status;
  checks : list (string * check_result);
  recommendations : list str;
  score : Q
}.

(** The four checks run when the review script cannot be used. *)
Definition fallback_checks : list (string * check_result) :=
  [("documentation", check_documentation); ("naming", check_naming);
   ("structure", check_structure);
   ("best_practices", check_best_practices)]%string.

Definition run_code_review_checks (self : QualityGateManager)
    : review_result :=
  let '(checks, recommendations, score) :=
    match review_script with
    | Exited returncode latest =>
        if returncode =? 0 then
          match latest with
          | Some review_data =>
              ([],
               match rd_recommendations review_data with
               | Some r => r
               | None => []
               end,
               match rd_score review_data with
               | Some s => s
               | None => 0%Q
               end)
          | None => ([], [], 0%Q)
          end
        else (fallback_checks, [], 0%Q)
    | Missing => (fallback_checks, [], 0%Q)
    | Raised => (fallback_checks, [], 0%Q)
    end in
  let score :=
    if Qeq_bool score 0
       && match checks with [] => false | _ => true end
    then
      let passed_checks :=
        len (filter (fun check => status_eqb (ck_status (snd check)) Passed)
                    checks) in
      let total_checks := len checks in
      if total_checks >? 0
      then (inject_Z passed_checks / inject_Z total_checks * inject_Z 100)%Q
      else 0%Q
    else score in
  {| r_status :=
       if Qle_bool (inject_Z 90) score then Passed
       else if Qle_bool (inject_Z 75) score then Warning
       else Failed;
     checks := checks;
     recommendations := recommendations;
     score := score |}.

(** A result in the [gates] dictionary. [OtherResult] is any other
    dictionary, with or without a [status] entry. *)
Inductive gate_result :=
| LintingResult (r : linting_result)
| ComplexityResult (r : complexity_result)
| SecurityResult (r : security_result)
| ReviewResult (r : review_result)
| OtherResult (status : option status).

(** [result.get("status", "unknown")] *)
Definition get_status (result : gate_result) : status :=
  match result with
  | LintingResult r => l_status r
  | ComplexityResult r => c_status r
  | SecurityResult r => s_status r
  | ReviewResult r => r_status r
  | OtherResult (Some s) => s
  | OtherResult None => Unknown
  end.

Definition _calculate_overall_status
    (gate_results : list (string * gate_result)) : status :=
  let statuses := map (fun result => get_status (snd result)) gate_results in
  if existsb (status_eqb Failed) statuses then Failed
  else if existsb (status_eqb Warning) statuses then Warning
  else if forallb (fun status => status_eqb status Passed) statuses
  then Passed
  else Unknown.

(** The summary; [critical_issues] holds the names of the failed gates,
    one message each in the source. *)
Record gates_summary := {
  total_gates : Z;
  passed_gates : Z;
  warning_gates : Z;
  failed_gates : Z;
  critical_issues : list string
}.

Definition _generate_summary (gate_results : list (string * gate_result))
    : gates_summary :=
  fold_left
    (fun summary '(gate_name, result) =>
       let status := get_status result in
       {| total_gates := total_gates summary;
          passed_gates :=
            if status_eqb status Passed then passed_gates summary + 1
            else passed_gates summary;
          warning_gates :=
            if status_eqb status Warning then warning_gates summary + 1
            else warning_gates summary;
          failed_gates :=
            if status_eqb status Failed then failed_gates summary + 1
            else failed_gates summary;
          critical_issues :=
            if status_eqb status Failed
            then critical_issues summary ++ [gate_name]
            else critical_issues summary |})
    gate_results
    {| total_gates := len gate_results; passed_gates := 0;
       warning_gates := 0; failed_gates := 0; critical_issues := [] |}.

(** The dictionary [run_all_quality_gates] returns and saves, without
    its timestamp. *)
Record results := {
  gates : list (string * gate_result);
  overall_status : status;
  summary : gates_summary
}.

Definition run_all_quality_gates (self : QualityGateManager) : results :=
  let gates :=
    [("linting", LintingResult (run_linting_checks self));
     ("complexity", ComplexityResult (run_complexity_analysis self));
     ("security", SecurityResult (run_security_scanning self));
     ("review", ReviewResult (run_code_review_checks self))]%string in
  {| gates := gates;
     overall_status := _calculate_overall_status gates;
     summary := _generate_summary gates |}.

(** The exit code [main] ends with. *)
Definition exit_code (r : results) : Z :=
  match overall_status r with
  | Passed => 0
  | Warning => 0
  | _ => 1
  end.

End WithHost.

(** The scanner's report as the gate reads it back from the JSON file
    the scanner's [main] wrote. *)
Definition load_report (r : SecurityScanner.report) : security_data :=
  let b := SecurityScanner.r_vulnerabilities r in
  {| sd_vulnerabilities :=
       Some {| g_critical := map Scanned (SecurityScanner.b_critical b);
               g_high := map Scanned (SecurityScanner.b_high b);
               g_medium := map Scanned (SecurityScanner.b_medium b);
               g_low := map Scanned (SecurityScanner.b_low b);
               g_info := map Scanned (SecurityScanner.b_info b) |} |}.

End QualityGateManager.

(** ** The cyclomatic score in closed form *)

Module ComplexitySpec.
Import ComplexityAnalyzer.

Definition sum_Z (l : list Z) : Z := fold_right Z.add 0 l.

(** The score as the specification words it: one for each occurrence
    of a branching keyword or operator, one for each occurrence of the
    handler keyword, over the stripped lines. *)
Definition claimed_keywords : list string :=
  ["if "; "elif "; "for "; "while "; "case "; "&&"; "||"; " and "; " or "]%string.

Definition spec_line_score (line : str) : Z :=
  sum_Z (map (fun keyword => count (py keyword) line) claimed_keywords)
  + count (py "except ") line.

Definition spec_cyclomatic_complexity (lines : list str) : Z :=
  1 + sum_Z (map (fun line => spec_line_score (strip line)) lines).

(** What one stripped line adds in the source: one if it holds any of
    the seven keywords and operators of [branch_keywords], one if it
    holds the handler keyword, and the number of occurrences of the two
    boolean operators. *)
Definition line_score (line : str) : Z :=
  (if existsb (fun keyword => contains (py keyword) line) branch_keywords
   then 1 else 0)
  + (if contains (py "except ") line then 1 else 0)
  + (count (py " and ") line + count (py " or ") line).

(** The entries of a language report all exceed their thresholds. *)
Definition strict (self : ComplexityAnalyzer) (r : language_report) : Prop :=
  (forall e, In e (complex_functions r) ->
             ce_complexity e > cyclomatic (thresholds self))
  /\ (forall e, In e (long_functions r) ->
                lf_lines e > lines_per_function (thresholds self))
  /\ (forall e, In e (long_files r) ->
                lfile_lines e > lines_per_file (thresholds self)).

End ComplexitySpec.

(** ** The checks of the Python scan as one ordered list *)

Module SecuritySpec.
Import SecurityScanner.
Section WithRuntime.
Context {R : PyRuntime}.

(** One check of [_check_python_vulnerability]: a dangerous call with
    its table entry, a secret or an injection pattern, or a traversal
    sequence. *)
Inductive check :=
| DangerousCall (call : string) (info : vuln_info)
| HardcodedSecret (p : pattern)
| SqlInjection (p : pattern)
| PathTraversal (sequence : string).

(** The checks in the fixed order of the source. *)
Definition python_checks : list check :=
  map (fun entry => DangerousCall (fst entry) (snd entry)) dangerous_functions
  ++ map HardcodedSecret secret_patterns
  ++ map SqlInjection sql_patterns
  ++ [PathTraversal "../"; PathTraversal "..\"].

Definition check_matches (line : str) (c : check) : bool :=
  match c with
  | DangerousCall call _ => contains (py call) line
  | HardcodedSecret p => re_search p IGNORECASE line
  | SqlInjection p => re_search p NOFLAG line
  | PathTraversal sequence => contains (py sequence) line
  end.

Definition check_finding (line : str) (line_num : Z) (file_path : str)
    (c : check) : Vulnerability :=
  match c with
  | DangerousCall _ info => table_finding info line line_num file_path
  | HardcodedSecret _ => secret_finding line line_num file_path
  | SqlInjection _ => sql_finding line line_num file_path
  | PathTraversal _ => traversal_finding line line_num file_path
  end.

(** The findings of a scan that carry the line number [i]. *)
Definition on_line (i : Z) (found : list Vulnerability) : list Vulnerability :=
  filter (fun v => v_line v =? i) found.

(** The finding of the scanner for a line that deletes the root
    filesystem. *)
Definition rm_finding (line : str) (line_num : Z) (file_path : str)
    : Vulnerability :=
  {| v_file := file_path; v_line := line_num; v_severity := Critical;
     v_issue := py "Dangerous rm command"; v_code := Some line;
     v_recommendation := py "Never use rm -rf / - specify exact paths" |}.

End WithRuntime.
End SecuritySpec.

(** ** What a scan can depend on *)

Module TreeSpec.

(** An entry with its metadata forgotten: the path and what reading it
    gives. *)
Definition forget_metadata (e : entry) : entry :=
  {| e_path := e_path e; e_is_file := true; e_read := e_read e;
     e_stat := None |}.

(** An entry with its content forgotten: the path, whether it is a
    regular file, and its [stat]. *)
Definition forget_content (e : entry) : entry :=
  {| e_path := e_path e; e_is_file := e_is_file e; e_read := inl [];
     e_stat := e_stat e |}.

(** Two trees that map the same paths, in the same order, to the same
    contents. *)
Definition same_content (fs1 fs2 : project) : Prop :=
  map forget_metadata fs1 = map forget_metadata fs2.

(** Two trees with the same paths, in the same order, and the same
    metadata. *)
Definition same_metadata (fs1 fs2 : project) : Prop :=
  map forget_content fs1 = map forget_content fs2.

End TreeSpec.

(** ** Inputs of the examples *)

Module Examples.

(** ASCII case mapping, which is what [str.lower] and [str.upper] do on
    text made of ASCII characters. *)
Definition ascii_lower (s : str) : str :=
  map (fun c => if (65 <=? c)%N && (c <=? 90)%N then (c + 32)%N else c) s.

Definition ascii_upper (s : str) : str :=
  map (fun c => if (97 <=? c)%N && (c <=? 122)%N then (c - 32)%N else c) s.

(** The runtime's answers on the texts of the examples below: none of
    their lines matches a regular expression of the source (they hold
    no equals sign, no dollar sign, no digit, no brace and not the word
    execute), and [parse] gives what [ast.parse] gives on the one
    Python source an example holds. *)
Definition runtime (parse : str -> list node + exn) : PyRuntime :=
  {| re_search := fun _ _ _ => false;
     re_match := fun _ _ => None;
     re_findall := fun _ _ => [];
     ast_parse := parse;
     lower := ascii_lower;
     upper := ascii_upper |}.

(** A project whose only file is the shell script [deploy.sh], with the
    one line [echo hi]. *)
Definition greeting_project : project :=
  [text_file (py "deploy.sh") (py "echo hi")].

(** The lines of a text joined by newlines. *)
Definition join_lines (ls : list str) : str :=
  match ls with
  | [] => []
  | l :: rest => l ++ flat_map (fun x => newline :: x) rest
  end.

(** A Python source that the analyzer counts as exactly 300 lines
    (300 pieces joined by 299 newlines, none after the last): a
    function of exactly 50 lines, nine of them [if] statements, then
    250 empty lines. *)
Definition sized_source : str :=
  join_lines ([py "def f(x):"] ++ repeat (py "    if x: pass") 9
              ++ repeat (py "    pass") 40 ++ repeat [] 250).




(** A host on which no external tool reports anything and the four
    fallback checks pass, with the given outcomes of the two analyzer
    scripts. *)
Definition host (security : QualityGateManager.script_run
                              QualityGateManager.security_data)
    (review : QualityGateManager.script_run QualityGateManager.review_data)
    : QualityGateManager.Host :=
  let clean :=
    {| QualityGateManager.errors := 0; QualityGateManager.warnings := 0;
       QualityGateManager.details := [] |} in
  let ok :=
    {| QualityGateManager.ck_status := Passed;
       QualityGateManager.ck_score := 100;
       QualityGateManager.ck_issues := [] |} in
  {| QualityGateManager.python_linting := clean;
     QualityGateManager.shell_linting := clean;
     QualityGateManager.yaml_linting := clean;
     QualityGateManager.python_complexity :=
       {| QualityGateManager.cp_files_analyzed := 0;
          QualityGateManager.cp_complex_functions := [];
          QualityGateManager.cp_long_functions := [] |};
     QualityGateManager.bandit_scan := QualityGateManager.no_vulnerabilities;
     QualityGateManager.security_script := security;
     QualityGateManager.review_script := review;
     QualityGateManager.check_documentation := ok;
     QualityGateManager.check_naming := ok;
     QualityGateManager.check_structure := ok;
     QualityGateManager.check_best_practices := ok |}.

(** A project whose only file is the shell script [clean.sh], whose
    first line deletes the root filesystem. *)
Definition wipe_script : str :=
  join_lines [py "rm -rf /"; py "echo done"].

Definition wipe_project : project := [text_file (py "clean.sh") wipe_script].

(** A project whose only file is a Python source that does not parse,
    and what [ast.parse] raises on it. *)
Definition broken_source : str := py "def f(:".

Definition broken_file : entry := text_file (py "broken.py") broken_source.

Definition broken_project : project := [broken_file].

Definition broken_parse (content : str) : list node + exn :=
  inr (SyntaxError (Some 1) (py "invalid syntax")).

(** One text file, first with the default permissions (octal 100644),
    then writable by everyone (octal 100666). *)
Definition notes : entry := text_file (py "notes.txt") (py "hello").

Definition notes_writable : entry :=
  {| e_path := e_path notes; e_is_file := true; e_read := e_read notes;
     e_stat := Some {| st_mode := 33206; st_size := 5 |} |}.

(** [notes] with another text of the same size. *)
Definition notes_reworded : entry :=
  {| e_path := e_path notes; e_is_file := true; e_read := inl (py "HELLO");
     e_stat := e_stat notes |}.

(** A Python source of exactly 300 lines, each the statement [pass]
    followed by a newline, and what [ast.parse] gives on it: a module
    of 300 statements. *)
Definition full_source : str :=
  flat_map (fun line => line ++ [newline]) (repeat (py "pass") 300).
Definition full_tree : list node := repeat (Other []) 300.
Definition full_file : entry := text_file (py "full.py") full_source.
Definition full_project : project := [full_file].
End Examples.

(** ** The recommendations of the analyzers *)

(** The messages of the source that start with a symbol outside ASCII
    are written as the code points of the symbol followed by the
    text. *)

Module ComplexityRecommendations.
Import ComplexityAnalyzer.

Definition acceptable : str :=
  [9989%N] ++ py " Code complexity is within acceptable limits".

Definition _generate_recommendations (summary : summary) : list str :=
  let recommendations :=
    (if high_complexity_functions summary >? 0
     then [[128295%N] ++ py " Refactor "
           ++ str_of_Z (high_complexity_functions summary)
           ++ py " high-complexity functions (break into smaller functions)"]
     else [])
    ++ (if long_functions_count summary >? 0
        then [[128207%N] ++ py " Split "
              ++ str_of_Z (long_functions_count summary)
              ++ py " long functions into smaller, focused functions"]
        else [])
    ++ (if long_files_count summary >? 0
        then [[128194%N] ++ py " Break down "
              ++ str_of_Z (long_files_count summary)
              ++ py " long files into multiple modules"]
        else [])
    ++ (if complex_files summary >? 0
        then [[127959%N; 65039%N]
              ++ py " Consider architectural improvements for "
              ++ str_of_Z (complex_files summary) ++ py " complex files"]
        else []) in
  match recommendations with
  | [] => [acceptable]
  | _ => recommendations
  end.

End ComplexityRecommendations.

Module SecurityRecommendations.
Import SecurityScanner.

Definition none_found : str :=
  [9989%N] ++ py " No security vulnerabilities found".

Definition standing_advice : list str :=
  [[128272%N] ++ py " Use environment variables for sensitive configuration";
   [128737%N; 65039%N] ++ py " Implement input validation and sanitization";
   [128221%N] ++ py " Use parameterized queries to prevent SQL injection";
   [128274%N] ++ py " Apply principle of least privilege for file permissions";
   [128269%N] ++ py " Regularly scan for vulnerabilities in dependencies"].

Definition _generate_recommendations (self : SecurityScanner) : list str :=
  let summary := _calculate_summary self in
  (if critical_count summary >? 0
   then [[128680%N] ++ py " Address " ++ str_of_Z (critical_count summary)
         ++ py " critical vulnerabilities immediately"]
   else [])
  ++ (if high_count summary >? 0
      then [[9888%N; 65039%N] ++ py " Fix " ++ str_of_Z (high_count summary)
            ++ py " high-severity issues before deployment"]
      else [])
  ++ (if medium_count summary >? 0
      then [[128203%N] ++ py " Review " ++ str_of_Z (medium_count summary)
            ++ py " medium-severity issues"]
      else [])
  ++ (if total_vulnerabilities summary =? 0 then [none_found] else [])
  ++ standing_advice.

End SecurityRecommendations.

Module ReviewRecommendations.
Import CodeReviewAutomator.

Definition excellent : str := [9989%N] ++ py " Excellent code quality!".

Definition good : str :=
  [128077%N] ++ py " Good code quality with minor improvements needed".

Definition needs_attention : str :=
  [9888%N; 65039%N] ++ py " Code quality needs attention".

Definition requires_improvements : str :=
  [128680%N] ++ py " Code quality requires significant improvements".

Definition standing_advice : list str :=
  [[128214%N] ++ py " Add comprehensive docstrings to all public functions";
   [129514%N] ++ py " Ensure all code is covered by unit tests";
   [128260%N] ++ py " Run automated tests before committing changes";
   [128101%N] ++ py " Consider code reviews for complex changes"].

Definition _generate_recommendations (self : CodeReviewAutomator)
    : list str :=
  let summary := _calculate_summary self in
  let score := _calculate_score self in
  [if score >=? 90 then excellent
   else if score >=? 75 then good
   else if score >=? 60 then needs_attention
   else requires_improvements]
  ++ (if logic_count summary >? 0
      then [[128295%N] ++ py " Fix " ++ str_of_Z (logic_count summary)
            ++ py " logic issues for better reliability"]
      else [])
  ++ (if security_count summary >? 0
      then [[128274%N] ++ py " Address " ++ str_of_Z (security_count summary)
            ++ py " security concerns"]
      else [])
  ++ (if maintainability_count summary >? 0
      then [[128218%N] ++ py " Improve "
            ++ str_of_Z (maintainability_count summary)
            ++ py " maintainability issues"]
      else [])
  ++ standing_advice.

End ReviewRecommendations.

(** ** The helpers of the orchestrator *)

Module GateHelpers.
Import QualityGateManager.

(** What [subprocess.run] gives: [FileNotFoundError] when the
    executable is missing, another exception, or the completed process
    with its return code and its output as text. *)
Inductive run_result :=
| NotFound
| RunError
| Completed (returncode : Z) (stdout stderr : str).

(** What [compile(source, filename, 'exec')] gives: a code object, a
    [SyntaxError] with its [str(e)], or another exception. *)
Inductive compile_outcome :=
| Compiles
| CompileSyntaxError (text : str)
| CompileRaises.

(** What opening a file and [yaml.safe_load] give: a document, a
    [YAMLError] with its [str(e)], or another exception. *)
Inductive yaml_outcome :=
| ValidYaml
| YAMLError (text : str)
| LoadRaises.

(** The external tools the linting helpers call. *)
Class Tools := {
  (** [python3 -m flake8 ...] on the project: [NotFound] when the
      [python3] executable itself is not found; a [python3] without
      the flake8 module completes with a return code other than 0 *)
  flake8 : run_result;
  (** [shellcheck --severity=warning] on the project *)
  shellcheck : run_result;
  (** [compile(source, filename, 'exec')] *)
  py_compile : str -> str -> compile_outcome;
  (** [bash -n] on the script at a path *)
  bash_n : str -> run_result;
  (** whether [import yaml] succeeds *)
  yaml_available : bool;
  (** [yaml.safe_load] on the open file *)
  yaml_safe_load : entry -> yaml_outcome
}.

Section WithTools.
Context {R : PyRuntime} {T : Tools}.

Definition no_issues : lang_lint :=
  {| errors := 0; warnings := 0; details := [] |}.

Definition add_detail (result : lang_lint) (detail : str) : lang_lint :=
  {| errors := errors result; warnings := warnings result;
     details := details result ++ [detail] |}.

Definition add_error (result : lang_lint) (detail : str) : lang_lint :=
  {| errors := errors result + 1; warnings := warnings result;
     details := details result ++ [detail] |}.

Definition add_warning (result : lang_lint) (detail : str) : lang_lint :=
  {| errors := errors result; warnings := warnings result + 1;
     details := details result ++ [detail] |}.

(** The loop over the output lines of a linter: a line that is not
    blank counts as an error or as a warning and is kept. *)
Definition count_output (is_error : str -> bool) (lines : list str)
    (result : lang_lint) : lang_lint :=
  fold_left (fun result line =>
               match strip line with
               | [] => result
               | _ => if is_error line then add_error result line
                      else add_warning result line
               end)
            lines result.

(** A loop over files whose body may raise: [None] once it has. *)
Definition for_files (body : lang_lint -> entry -> option lang_lint)
    (files : list entry) (result : lang_lint) : option lang_lint :=
  fold_left (fun acc file =>
               match acc with
               | Some result => body result file
               | None => None
               end)
            files (Some result).

Definition cross : list N := [10060%N].
Definition tick : list N := [9989%N].
Definition caution : list N := [9888%N; 65039%N].

(** [_run_python_linting]; [None] when an exception leaves it. *)
Definition _run_python_linting (self : QualityGateManager)
    : option lang_lint :=
  match flake8 with
  | Completed returncode stdout stderr =>
      if returncode =? 0
      then Some (add_detail no_issues (tick ++ py " flake8: No issues found"))
      else Some (count_output
                   (fun line => contains (py "error") (lower line))
                   (split newline stdout ++ split newline stderr) no_issues)
  | NotFound =>
      for_files
        (fun result py_file =>
           match e_read py_file with
           | inr _ => None
           | inl text =>
               match py_compile text (e_path py_file) with
               | Compiles => Some result
               | CompileSyntaxError e =>
                   Some (add_error result
                           (cross ++ py " " ++ e_path py_file ++ py ": " ++ e))
               | CompileRaises => None
               end
           end)
        (glob_suffix ".py" (project_root self))
        (add_detail no_issues
           (caution ++ py " flake8 not available, using basic syntax check"))
  | RunError => None
  end.

(** [_run_shell_linting]; [None] when an exception leaves it. *)
Definition _run_shell_linting (self : QualityGateManager)
    : option lang_lint :=
  match shellcheck with
  | Completed returncode stdout stderr =>
      if returncode =? 0
      then Some (add_detail no_issues
                   (tick ++ py " shellcheck: No issues found"))
      else Some (count_output
                   (fun line => contains (py "error") (lower line)
                                || contains (py "critical") (lower line))
                   (split newline stdout ++ split newline stderr) no_issues)
  | NotFound =>
      for_files
        (fun result sh_file =>
           match bash_n (e_path sh_file) with
           | Completed returncode _ _ =>
               if returncode =? 0
               then Some (add_detail result
                            (tick ++ py " " ++ e_path sh_file
                             ++ py ": Syntax OK"))
               else Some (add_error result
                            (cross ++ py " " ++ e_path sh_file
                             ++ py ": Syntax error"))
           | NotFound => None
           | RunError => None
           end)
        (glob_suffix ".sh" (project_root self))
        (add_detail no_issues
           (caution
            ++ py " shellcheck not available, using basic syntax check"))
  | RunError => None
  end.

(** The body of the two loops of [_run_yaml_linting]. *)
Definition yaml_step (result : lang_lint) (yaml_file : entry)
    : option lang_lint :=
  match yaml_safe_load yaml_file with
  | ValidYaml =>
      Some (add_detail result
              (tick ++ py " " ++ e_path yaml_file ++ py ": Valid YAML"))
  | YAMLError e =>
      Some (add_error result
              (cross ++ py " " ++ e_path yaml_file ++ py ": " ++ e))
  | LoadRaises => None
  end.

(** [_run_yaml_linting]; [None] when an exception leaves it. *)
Definition _run_yaml_linting (self : QualityGateManager)
    : option lang_lint :=
  if yaml_available then
    match for_files yaml_step (glob_suffix ".yml" (project_root self))
                    no_issues with
    | Some result =>
        for_files yaml_step (glob_suffix ".yaml" (project_root self)) result
    | None => None
    end
  else Some (add_detail no_issues
               (caution ++ py " PyYAML not available for YAML validation")).

(** The state of the first loop of [_check_best_practices]. *)
Record practice_state := { ps_score : Z; ps_issues : list str }.

Definition secret_words : list string :=
  ["password"; "secret"; "key"; "token"]%string.

Definition skipped_names : list string :=
  [".pyc"; ".pyo"; "__pycache__"]%string.

(** The body of the first loop of [_check_best_practices]: the first
    word of [secret_words] found in the lowered content of a file that
    also holds an equals sign or the word hardcoded; a file that cannot
    be read is passed over. *)
Definition secret_step (state : practice_state) (file : entry)
    : practice_state :=
  if e_is_file file
     && negb (existsb (fun suffix =>
                         endswith (py suffix) (basename (e_path file)))
                      skipped_names)
  then
    match e_read file with
    | inr _ => state
    | inl text =>
        let content := lower text in
        match find (fun pattern =>
                      contains (py pattern) content
                      && (contains (py "hardcoded") content
                          || contains (py "=") content))
                   secret_words with
        | Some pattern =>
            {| ps_score := ps_score state - 15;
               ps_issues :=
                 ps_issues state
                 ++ [py "Potential hardcoded " ++ py pattern ++ py " in "
                     ++ e_path file] |}
        | None => state
        end
    end
  else state.

(** The body of the second loop: the running [todo_count]. *)
Definition todo_step (todo_count : Z) (file : entry) : Z :=
  if e_is_file file then
    match e_read file with
    | inr _ => todo_count
    | inl content => todo_count + count (py "TODO") (upper content)
    end
  else todo_count.

(** The last two lines of each fallback check: the score clamped to
    0..100 and the status read off it. *)
Definition graded (score : Z) (issues : list str) : check_result :=
  let score := Z.max 0 (Z.min 100 (100 + score)) in
  {| ck_status := if score >=? 80 then Passed
                  else if score >=? 60 then Warning else Failed;
     ck_score := score;
     ck_issues := issues |}.

Definition _check_best_practices (self : QualityGateManager)
    : check_result :=
  let state :=
    fold_left secret_step (glob_all (project_root self))
              {| ps_score := 0; ps_issues := [] |} in
  let todo_count :=
    fold_left todo_step (glob_all (project_root self)) 0 in
  if todo_count >? 20
  then graded (ps_score state - 10)
              (ps_issues state
               ++ [py "High TODO count: " ++ str_of_Z todo_count
                   ++ py " items need attention"])
  else graded (ps_score state) (ps_issues state).

End WithTools.
End GateHelpers.

(** ** Further inputs and notions for the properties *)

Module MoreSpec.

(** An [if] statement at line [lineno] followed by [k] [elif] branches:
    each [elif] is the single statement of the [orelse] of the test
    before it. *)
Fixpoint elif_chain (lineno : Z) (k : nat) : node :=
  match k with
  | O => If lineno [Other []] []
  | S k' => If lineno [Other []] [elif_chain (lineno + 2) k']
  end.

(** What every finding of a line check of the security scan carries. *)
Definition well_formed (line : str) (line_num : Z) (file_path : str)
    (v : SecurityScanner.Vulnerability) : Prop :=
  SecurityScanner.v_file v = file_path
  /\ SecurityScanner.v_line v = line_num
  /\ SecurityScanner.v_code v = Some line
  /\ In (SecurityScanner.v_severity v) [Critical; High; Medium].

(** The issue text of the [set -e] check of the shell review. *)
Definition missing_set_e : str := py "Missing 'set -e' for error handling".

(** The issue text of the print check of the Python review. *)
Definition print_issue : str := py "Print statement in production code".

(** The files of a tree that the general pass of the security scan
    flags: regular files with a [stat] that are writable by everyone or
    larger than 100 MiB. *)
Definition flagged_by_metadata (file : entry) : bool :=
  e_is_file file
  && match e_stat file with
     | Some st => negb (N.land (st_mode st) 2 =? 0)%N
                  || (104857600 <? st_size st)%N
     | None => false
     end.

(** A language report without complex functions whose listed functions
    carry no complexity. *)
Definition plain (r : ComplexityAnalyzer.language_report) : Prop :=
  ComplexityAnalyzer.complex_functions r = []
  /\ forall fr func,
       In fr (ComplexityAnalyzer.files r) ->
       In func (ComplexityAnalyzer.functions fr) ->
       ComplexityAnalyzer.fn_complexity func = None.

(** Whether the analysis of a Python file succeeds. *)
Definition analysable {R : PyRuntime} (file : entry) : bool :=
  match ComplexityAnalyzer._analyze_python_file file with
  | inl _ => true
  | inr _ => false
  end.

(** The review report as the orchestrator reads it back from the JSON
    file the review's [main] wrote, for any recommendations. *)
Definition load_review (r : CodeReviewAutomator.report)
    (recommendations : list str) : QualityGateManager.review_data :=
  {| QualityGateManager.rd_score :=
       Some (inject_Z (CodeReviewAutomator.r_score r));
     QualityGateManager.rd_recommendations := Some recommendations |}.

(** The number of the four fallback checks of the review gate that
    passed. *)
Definition passed_checks {H : QualityGateManager.Host} : Z :=
  len (filter (fun check =>
                 status_eqb (QualityGateManager.ck_status (snd check)) Passed)
              QualityGateManager.fallback_checks).

(** A line of output a linter loop counts: one that is not blank. *)
Definition nonblank (line : str) : bool :=
  match strip line with
  | [] => false
  | _ => true
  end.

(** The files the first loop of [_check_best_practices] reports: the
    readable regular files, compiled files apart, whose lowered content
    holds one of the four words and an equals sign or the word
    hardcoded. *)
Definition holds_secret_word {R : PyRuntime} (file : entry) : bool :=
  e_is_file file
  && negb (existsb (fun suffix =>
                      endswith (py suffix) (basename (e_path file)))
                   GateHelpers.skipped_names)
  && match e_read file with
     | inr _ => false
     | inl text =>
         existsb (fun pattern => contains (py pattern) (lower text))
                 GateHelpers.secret_words
         && (contains (py "hardcoded") (lower text)
             || contains (py "=") (lower text))
     end.

End MoreSpec.

(** ** Further inputs of the examples *)

Module MoreExamples.

(** A Python source of twelve lines: a function with eleven [if]
    statements, and what [ast.parse] gives on it. *)
Definition tangled_source : str :=
  Examples.join_lines ([py "def g(x):"] ++ repeat (py "    if x: pass") 11).

Definition tangled_tree : list node :=
  [FunctionDef (py "g") 1 (Some 12) 1 false
     (map (fun k => If (Z.of_nat k) [Other []] []) (seq 2 11))].

Definition tangled_file : entry := text_file (py "tangled.py") tangled_source.

(** A JavaScript source of three lines holding one function, and the
    runtime's answers on its lines: the function pattern matches the
    first line only, with the name of the function as its group. *)
Definition greet_lines : list str :=
  [py "function greet(name) {"; py "  return name;"; py "}"].

Definition greet_file : entry :=
  text_file (py "greet.js") (Examples.join_lines greet_lines).

Definition js_runtime : PyRuntime :=
  {| re_search := fun _ _ _ => false;
     re_match := fun p line =>
       match p with
       | pat_js_function =>
           if startswith (py "function greet(") line
           then Some (py "greet") else None
       | _ => None
       end;
     re_findall := fun _ _ => [];
     ast_parse := fun _ => inl [];
     lower := Examples.ascii_lower;
     upper := Examples.ascii_upper |}.

(** A shell function of three lines. *)
Definition shell_function_lines : list str :=
  [py "deploy() {"; py "  echo hi"; py "}"].

(** Tools with the given outcomes of the two linter commands, on which
    every file compiles, every script passes [bash -n] and every YAML
    file loads. *)
Definition tools (flake8 shellcheck : GateHelpers.run_result)
    : GateHelpers.Tools :=
  {| GateHelpers.flake8 := flake8;
     GateHelpers.shellcheck := shellcheck;
     GateHelpers.py_compile := fun _ _ => GateHelpers.Compiles;
     GateHelpers.bash_n := fun _ => GateHelpers.Completed 0 [] [];
     GateHelpers.yaml_available := true;
     GateHelpers.yaml_safe_load := fun _ => GateHelpers.ValidYaml |}.

(** The host whose linting results are those of the helpers on a
    project, with [Examples.host] for the rest. *)
Definition linted_host {R : PyRuntime} {T : GateHelpers.Tools}
    (fs : project) : QualityGateManager.Host :=
  let self := QualityGateManager.__init__ fs in
  let base := Examples.host QualityGateManager.Missing
                            QualityGateManager.Missing in
  let get := fun r : option QualityGateManager.lang_lint =>
               match r with
               | Some result => result
               | None => GateHelpers.no_issues
               end in
  {| QualityGateManager.python_linting :=
       get (GateHelpers._run_python_linting self);
     QualityGateManager.shell_linting :=
       get (GateHelpers._run_shell_linting self);
     QualityGateManager.yaml_linting :=
       get (GateHelpers._run_yaml_linting self);
     QualityGateManager.python_complexity :=
       @QualityGateManager.python_complexity base;
     QualityGateManager.bandit_scan := @QualityGateManager.bandit_scan base;
     QualityGateManager.security_script :=
       @QualityGateManager.security_script base;
     QualityGateManager.review_script :=
       @QualityGateManager.review_script base;
     QualityGateManager.check_documentation :=
       @QualityGateManager.check_documentation base;
     QualityGateManager.check_naming := @QualityGateManager.check_naming base;
     QualityGateManager.check_structure :=
       @QualityGateManager.check_structure base;
     QualityGateManager.check_best_practices :=
       @QualityGateManager.check_best_practices base |}.

(** What flake8 prints on a file with a trailing blank and a syntax
    error: two findings, a blank line, and nothing on the error
    stream. *)
Definition flake8_output : str :=
  Examples.join_lines
    [py "a.py:1:5: W291 trailing whitespace";
     py "a.py:2:1: E999 SyntaxError: invalid syntax"; []].

(** A shell script of exactly 100 lines, each the command [echo hi]
    followed by a newline, and the project that holds only it. *)
Definition hundred_lines : str :=
  flat_map (fun line => line ++ [newline]) (repeat (py "echo hi") 100).

Definition hundred_lines_project : project :=
  [text_file (py "long.sh") hundred_lines].

End MoreExamples.

(* ===================================================================== *)
(** * Part II: properties                                                 *)
(* ===================================================================== *)

Unset Implicit Arguments.

(** ** The overall status of the gates *)

Module GateProperties.
Import QualityGateManager.

Lemma status_eqb_eq (a b : status) : status_eqb a b = true <-> a = b.
Proof. destruct a, b; simpl; split; intro; congruence. Qed.

Lemma existsb_status (s : status) (l : list status) :
  existsb (status_eqb s) l = true <-> In s l.
Proof.
  rewrite existsb_exists. split.
  - intros [x [Hin Heq]]. apply status_eqb_eq in Heq. now subst.
  - intro Hin. exists s. split; [assumption | now apply status_eqb_eq].
Qed.

Lemma forallb_passed (l : list status) :
  forallb (fun s => status_eqb s Passed) l = true <-> Forall (eq Passed) l.
Proof.
  rewrite forallb_forall, Forall_forall. split; intros Hall x Hin.
  - symmetry. now apply status_eqb_eq, Hall.
  - apply status_eqb_eq. symmetry. now apply Hall.
Qed.

(** The aggregation rule on any dictionary of gate results, through the
    statuses of its values. *)
Lemma overall_status_cases (gate_results : list (string * gate_result)) :
  let statuses := map (fun g => get_status (snd g)) gate_results in
  (In Failed statuses /\ _calculate_overall_status gate_results = Failed)
  \/ (~ In Failed statuses /\ In Warning statuses
      /\ _calculate_overall_status gate_results = Warning)
  \/ (~ In Failed statuses /\ ~ In Warning statuses
      /\ Forall (eq Passed) statuses
      /\ _calculate_overall_status gate_results = Passed)
  \/ (~ In Failed statuses /\ ~ In Warning statuses
      /\ ~ Forall (eq Passed) statuses
      /\ _calculate_overall_status gate_results = Unknown).
Proof.
  intro statuses. unfold _calculate_overall_status. fold statuses.
  destruct (existsb (status_eqb Failed) statuses) eqn:Hf.
  { left. split; [now apply existsb_status | reflexivity]. }
  assert (Hnf : ~ In Failed statuses).
  { intro Hin. apply existsb_status in Hin. congruence. }
  destruct (existsb (status_eqb Warning) statuses) eqn:Hw.
  { right; left. repeat split; [assumption | now apply existsb_status]. }
  assert (Hnw : ~ In Warning statuses).
  { intro Hin. apply existsb_status in Hin. congruence. }
  destruct (forallb (fun s => status_eqb s Passed) statuses) eqn:Hp.
  { right; right; left. repeat split; try assumption.
    now apply forallb_passed. }
  right; right; right. repeat split; try assumption.
  intro Hall. apply forallb_passed in Hall. congruence.
Qed.

(** A dictionary of results none of which is unknown never aggregates
    to unknown. *)
Lemma overall_status_known (gate_results : list (string * gate_result)) :
  Forall (fun g => get_status (snd g) <> Unknown) gate_results ->
  _calculate_overall_status gate_results <> Unknown.
Proof.
  intros Hall Hu.
  destruct (overall_status_cases gate_results)
    as [[_ E] | [[_ [_ E]] | [[_ [_ [_ E]]] | [Hnf [Hnw [Hnp _]]]]]];
    try congruence.
  apply Hnp. apply Forall_forall. intros s Hin.
  apply in_map_iff in Hin. destruct Hin as [g [Hs Hg]].
  rewrite Forall_forall in Hall. specialize (Hall g Hg).
  destruct s; try reflexivity.
  - exfalso. apply Hnw. apply in_map_iff. now exists g.
  - exfalso. apply Hnf. apply in_map_iff. now exists g.
  - congruence.
Qed.

(** C1. For every assignment of statuses to the four gates, the overall
    status is failed exactly when some gate failed; warning exactly
    when none failed and some gate warned; passed exactly when all four
    passed; and unknown exactly in the remaining cases. In particular
    one failed gate makes the overall status failed whatever the
    others are. *)
Theorem overall_status_precedence
    (linting complexity security review : gate_result) :
  let gate_results :=
    [("linting", linting); ("complexity", complexity);
     ("security", security); ("review", review)]%string in
  let statuses :=
    [get_status linting; get_status complexity; get_status security;
     get_status review] in
  (_calculate_overall_status gate_results = Failed
   <-> In Failed statuses)
  /\ (_calculate_overall_status gate_results = Warning
      <-> ~ In Failed statuses /\ In Warning statuses)
  /\ (_calculate_overall_status gate_results = Passed
      <-> Forall (eq Passed) statuses)
  /\ (_calculate_overall_status gate_results = Unknown
      <-> ~ In Failed statuses /\ ~ In Warning statuses
          /\ ~ Forall (eq Passed) statuses).
Proof.
  intros gate_results statuses.
  pose proof (overall_status_cases gate_results) as Hc.
  change (map (fun g => get_status (snd g)) gate_results)
    with statuses in Hc.
  assert (Hexcl : Forall (eq Passed) statuses ->
                  ~ In Failed statuses /\ ~ In Warning statuses).
  { intro Hall. rewrite Forall_forall in Hall.
    split; intro Hin; apply Hall in Hin; discriminate. }
  destruct Hc as [[Hf E] | [[Hnf [Hw E]] | [[Hnf [Hnw [Hp E]]]
                                           | [Hnf [Hnw [Hnp E]]]]]];
    rewrite E; repeat split; intros; try discriminate; try tauto.
Qed.

(** The rule at work on one assignment of each kind. *)
Lemma overall_status_precedence_witness :
  _calculate_overall_status
    [("linting", OtherResult (Some Passed));
     ("complexity", OtherResult (Some Failed));
     ("security", OtherResult (Some Warning));
     ("review", OtherResult None)]%string = Failed
  /\ _calculate_overall_status
       [("linting", OtherResult (Some Passed));
        ("complexity", OtherResult (Some Passed));
        ("security", OtherResult (Some Passed));
        ("review", OtherResult (Some Passed))]%string = Passed.
Proof.
  split.
  - apply (proj1 (overall_status_precedence
                    (OtherResult (Some Passed)) (OtherResult (Some Failed))
                    (OtherResult (Some Warning)) (OtherResult None))).
    simpl. auto.
  - apply (proj1 (proj2 (proj2 (overall_status_precedence
                    (OtherResult (Some Passed)) (OtherResult (Some Passed))
                    (OtherResult (Some Passed)) (OtherResult (Some Passed)))))).
    simpl. repeat constructor.
Defined.

(** C10. After [run_all_quality_gates] the four gates are there under
    their names, each with a status among passed, warning and failed,
    and the overall status is not unknown. *)
Theorem run_all_quality_gates_status_known
    {R : PyRuntime} {H : Host} (self : QualityGateManager) :
  let r := run_all_quality_gates self in
  map fst (gates r) = ["linting"; "complexity"; "security"; "review"]%string
  /\ Forall (fun g => In (get_status (snd g)) [Passed; Warning; Failed])
            (gates r)
  /\ overall_status r <> Unknown.
Proof.
  intro r.
  assert (Hl : In (l_status (run_linting_checks self))
                  [Passed; Warning; Failed]).
  { unfold run_linting_checks; simpl.
    repeat match goal with |- context [if ?c then _ else _] =>
      destruct c end; simpl; auto. }
  assert (Hc : In (c_status (run_complexity_analysis self))
                  [Passed; Warning; Failed]).
  { unfold run_complexity_analysis; simpl.
    match goal with |- context [if ?c >? ?d then Failed else _] =>
      destruct (c >? d) end; simpl; auto.
    match goal with |- context [if ?c >? ?d then Warning else _] =>
      destruct (c >? d) end; simpl; auto. }
  assert (Hs : In (s_status (run_security_scanning self))
                  [Passed; Warning; Failed]).
  { unfold run_security_scanning; simpl.
    repeat match goal with |- context [if ?c >? ?d then _ else _] =>
      destruct (c >? d) end; simpl; auto. }
  assert (Hr : In (r_status (run_code_review_checks self))
                  [Passed; Warning; Failed]).
  { unfold run_code_review_checks.
    destruct (match review_script with
              | Exited _ _ => _ | _ => _ end) as [[ck rec] sc]; simpl.
    repeat match goal with |- context [if Qle_bool ?c ?d then _ else _] =>
      destruct (Qle_bool c d) end; simpl; auto. }
  assert (Hall : Forall (fun g => In (get_status (snd g))
                                     [Passed; Warning; Failed]) (gates r)).
  { subst r; unfold run_all_quality_gates; cbn [gates].
    apply Forall_cons; [exact Hl |].
    apply Forall_cons; [exact Hc |].
    apply Forall_cons; [exact Hs |].
    apply Forall_cons; [exact Hr | apply Forall_nil]. }
  split; [reflexivity | split; [exact Hall |]].
  subst r; unfold run_all_quality_gates in *; cbn [overall_status gates] in *.
  apply overall_status_known.
  eapply Forall_impl; [| exact Hall].
  intros g Hin Hu. cbv beta in Hin. rewrite Hu in Hin. simpl in Hin.
  intuition discriminate.
Qed.

End GateProperties.

(** ** The review score *)

Module ScoreProperties.
Import CodeReviewAutomator.

Lemma len_app_one {A} (l : list A) (x : A) : len (l ++ [x]) = len l + 1.
Proof. unfold len. rewrite length_app. simpl. lia. Qed.

Lemma len_nonneg {A} (l : list A) : 0 <= len l.
Proof. unfold len. lia. Qed.

(** The scorer in closed form, over the counts of [self.issues]. *)
Lemma calculate_score_formula (self : CodeReviewAutomator) :
  let n c := len (issues_of (issues self) c) in
  _calculate_score self =
  Z.max 0 (100 - Z.min (n Style * 1) 20 - Z.min (n Logic * 5) 20
               - Z.min (n Security * 10) 20
               - Z.min (n Performance * 3) 20
               - Z.min (n Maintainability * 2) 20).
Proof. reflexivity. Qed.

Lemma calculate_score_range (self : CodeReviewAutomator) :
  0 <= _calculate_score self <= 100.
Proof.
  rewrite calculate_score_formula. cbv zeta.
  pose proof (len_nonneg (issues_of (issues self) Style)).
  pose proof (len_nonneg (issues_of (issues self) Logic)).
  pose proof (len_nonneg (issues_of (issues self) Security)).
  pose proof (len_nonneg (issues_of (issues self) Performance)).
  pose proof (len_nonneg (issues_of (issues self) Maintainability)).
  lia.
Qed.

(** C4. Filing one more finding under any category never raises the
    score. *)
Theorem calculate_score_monotone
    (root : project) (i : issues_t) (c : category) (f : Finding) :
  _calculate_score {| project_root := root; issues := add_issue c f i |}
  <= _calculate_score {| project_root := root; issues := i |}.
Proof.
  rewrite !calculate_score_formula. cbv zeta.
  destruct c; cbn [issues add_issue issues_of i_style i_logic i_security
                   i_performance i_maintainability];
    rewrite len_app_one; lia.
Qed.

(** No method files a finding under [self.issues]: whatever the project
    holds, the review returns the issue lists it was created with, all
    counts zero, and the score 100. *)
Lemma run_full_review_score {R : PyRuntime} (fs : project) :
  let r := run_full_review (__init__ fs) in
  r_issues r = issues (__init__ fs)
  /\ total_issues (r_summary r) = 0
  /\ r_score r = 100.
Proof. repeat split. Qed.

Lemma greeting_project_emitted {R : PyRuntime} :
  emitted (run_full_review (__init__ Examples.greeting_project)) =
  (if re_search pat_unquoted_var NOFLAG (py "echo hi")
   then [finding (py "deploy.sh") 1 Logic Medium
           (py "Unquoted variable expansion")
           (py "Quote variable expansions to prevent word splitting")]
   else [])
  ++ [finding (py "deploy.sh") 1 Logic Medium
        (py "Missing 'set -e' for error handling")
        (py "Add 'set -e' at script beginning to exit on errors");
      finding (py "project_root") 0 Maintainability Medium
        (py "Missing README file")
        (py "Add README.md with project description and setup instructions")].
Proof.
  destruct R as [search mtch findall parse lo up].
  vm_compute. destruct (search _ _ _); reflexivity.
Qed.

(** C3, at the project that holds the one shell script [deploy.sh]
    with the line [echo hi]. The review emits a logic finding (no
    [set -e] on the first line) and a maintainability finding (no
    README), so the score worded by the specification is at most 93;
    the score returned is 100. *)
Theorem run_full_review_score_ignores_findings {R : PyRuntime} :
  let r := run_full_review (__init__ Examples.greeting_project) in
  1 <= spec_count (emitted r) Logic
  /\ spec_count (emitted r) Maintainability = 1
  /\ spec_score (emitted r) <= 93
  /\ r_score r = 100
  /\ r_score r <> spec_score (emitted r).
Proof.
  intro r. subst r. rewrite greeting_project_emitted.
  destruct (re_search pat_unquoted_var NOFLAG (py "echo hi"));
    vm_compute; repeat split; intro; discriminate.
Qed.

End ScoreProperties.

(** ** The complexity analyzer *)

Module ComplexityProperties.
Import ComplexityAnalyzer ComplexitySpec.

Lemma count_from_nonneg (sub : str) (s : str) :
  forall skip, 0 <= count_from sub skip s.
Proof.
  induction s as [| c s IH]; intro skip; cbn [count_from].
  - destruct skip, sub; lia.
  - destruct skip as [| k].
    + destruct (startswith sub (c :: s)).
      * specialize (IH (Nat.pred (List.length sub))). lia.
      * apply IH.
    + apply IH.
Qed.

Lemma count_nonneg (sub s : str) : 0 <= count sub s.
Proof. apply count_from_nonneg. Qed.

Lemma cyclomatic_step_score (complexity : Z) (line : str) :
  cyclomatic_step complexity line = complexity + line_score (strip line).
Proof.
  unfold cyclomatic_step, line_score.
  pose proof (count_nonneg (py " and ") (strip line)) as Ha.
  pose proof (count_nonneg (py " or ") (strip line)) as Ho.
  destruct (existsb _ branch_keywords);
    destruct (contains (py "except ") (strip line));
    destruct (count (py " and ") (strip line)
              + count (py " or ") (strip line) >? 0) eqn:E;
    lia.
Qed.

Lemma fold_cyclomatic (lines : list str) :
  forall acc,
    fold_left cyclomatic_step lines acc =
    acc + sum_Z (map (fun line => line_score (strip line)) lines).
Proof.
  induction lines as [| l lines IH]; intro acc; cbn [fold_left map sum_Z fold_right].
  - lia.
  - rewrite IH, cyclomatic_step_score. fold (sum_Z (map (fun line => line_score (strip line)) lines)). lia.
Qed.

(** C6, as the source has it. The cyclomatic score of a list of lines
    is 1, plus 1 for each line that holds at least one of the seven
    branching keywords and operators (however many it holds), plus 1
    for each line that holds the handler keyword, plus the number of
    occurrences of the two boolean operators in each line; every line
    is stripped first. *)
Theorem cyclomatic_complexity_by_line (lines : list str) :
  _calculate_cyclomatic_complexity lines =
  1 + sum_Z (map (fun line => line_score (strip line)) lines).
Proof. unfold _calculate_cyclomatic_complexity. apply fold_cyclomatic. Qed.

(** C6 as stated fails: a line with one occurrence each of two distinct
    branching keywords adds 1 to the score, not 2. *)
Lemma cyclomatic_two_keywords_counterexample :
  let line := py "y = [x for x in xs if x]" in
  count (py "for ") line = 1
  /\ count (py "if ") line = 1
  /\ spec_cyclomatic_complexity [line] = 3
  /\ _calculate_cyclomatic_complexity [line] = 2
  /\ _calculate_cyclomatic_complexity [line]
     <> spec_cyclomatic_complexity [line].
Proof. vm_compute. repeat split; intro; discriminate. Qed.

Lemma in_flat_map_if {A B} (c : A -> bool) (f : A -> B) (l : list A) (y : B) :
  In y (flat_map (fun x => if c x then [f x] else []) l) ->
  exists x, In x l /\ c x = true /\ y = f x.
Proof.
  intro Hin. apply in_flat_map in Hin. destruct Hin as [x [Hx Hy]].
  exists x. destruct (c x); simpl in Hy; [| contradiction].
  destruct Hy as [Hy | []]. auto.
Qed.

Lemma analyze_step_strict (self : ComplexityAnalyzer)
    (analyze : entry -> file_result + exn)
    (results : language_report) (file : entry) :
  strict self results -> strict self (analyze_step self analyze results file).
Proof.
  intros [Hc [Hl Hf]]. unfold analyze_step.
  destruct (analyze file) as [fr | e]; [| now repeat split].
  repeat split; cbn [complex_functions long_functions long_files];
    intros e Hin; apply in_app_or in Hin; destruct Hin as [Hin | Hin]; auto.
  - apply in_flat_map_if in Hin. destruct Hin as [func [_ [Hgt ->]]].
    simpl. lia.
  - apply in_flat_map_if in Hin. destruct Hin as [func [_ [Hgt ->]]].
    simpl. lia.
  - destruct (total_lines fr >? lines_per_file (thresholds self)) eqn:Hgt;
      simpl in Hin; [| contradiction].
    destruct Hin as [<- | []]. simpl. lia.
Qed.

Lemma fold_analyze_strict (self : ComplexityAnalyzer)
    (analyze : entry -> file_result + exn) (l : list entry) :
  forall results,
    strict self results ->
    strict self (fold_left (analyze_step self analyze) l results).
Proof.
  induction l as [| file l IH]; intros results Hs; simpl.
  - exact Hs.
  - apply IH. now apply analyze_step_strict.
Qed.


Lemma analyze_shell_step_strict {R : PyRuntime} (self : ComplexityAnalyzer)
    (results : language_report) (file : entry) :
  strict self results -> strict self (analyze_shell_step self results file).
Proof.
  intros [Hc [Hl Hf]]. unfold analyze_shell_step.
  destruct (_analyze_shell_file file) as [fr | e]; [| now repeat split].
  repeat split; cbn [complex_functions long_functions long_files];
    intros e Hin; auto;
    apply in_app_or in Hin; destruct Hin as [Hin | Hin]; auto.
  - apply in_flat_map_if in Hin. destruct Hin as [func [_ [Hgt ->]]].
    simpl. lia.
  - destruct (total_lines fr >? lines_per_file (thresholds self)) eqn:Hgt;
      simpl in Hin; [| contradiction].
    destruct Hin as [<- | []]. simpl. lia.
Qed.

Lemma fold_shell_strict {R : PyRuntime} (self : ComplexityAnalyzer)
    (l : list entry) :
  forall results,
    strict self results ->
    strict self (fold_left (analyze_shell_step self) l results).
Proof.
  induction l as [| file l IH]; intros results Hs; simpl.
  - exact Hs.
  - apply IH. now apply analyze_shell_step_strict.
Qed.

Lemma empty_report_strict (self : ComplexityAnalyzer) (n : Z) :
  strict self (empty_report n).
Proof. split; [| split]; intros e Hin; simpl in Hin; contradiction. Qed.

(** The shell and JavaScript passes flag on the same strict
    comparisons. *)
Lemma other_passes_strict {R : PyRuntime}
    (fs : project) (report : language_report) :
  analyze_shell_files (__init__ fs) = Some report
  \/ analyze_javascript_files (__init__ fs) = Some report ->
  strict (__init__ fs) report.
Proof.
  intros [Hrep | Hrep].
  - unfold analyze_shell_files in Hrep.
    destruct (glob_suffix ".sh" (project_root (__init__ fs)))
      as [| f l] eqn:E; [discriminate |].
    injection Hrep as <-.
    apply (fold_shell_strict _ (f :: l)), empty_report_strict.
  - unfold analyze_javascript_files in Hrep.
    destruct (glob_suffix ".js" (project_root (__init__ fs))
              ++ glob_suffix ".ts" (project_root (__init__ fs)))
      as [| f l] eqn:E; [discriminate |].
    injection Hrep as <-.
    apply (fold_analyze_strict _ _ (f :: l)), empty_report_strict.
Qed.








End ComplexityProperties.

(** ** Strings *)

Module StrProperties.

(** The string functions on literals of the source. *)
Example py_examples :
  strip (py "  if x:  ") = py "if x:"
  /\ contains (py "rm -rf /") (py "sudo rm -rf / --no-preserve-root") = true
  /\ count (py " and ") (py "a and b and c") = 2
  /\ count (py "aa") (py "aaaaa") = 2
  /\ count [] (py "abc") = 4
  /\ split newline (py "a
b
") = [py "a"; py "b"; []]
  /\ str_of_Z 1203 = py "1203" /\ str_of_Z 0 = py "0" /\ str_of_Z (-45) = py "-45"
  /\ oct 33206 = py "0o100666"
  /\ slice [1;2;3;4;5]%Z 1 3 = [2;3]%Z
  /\ slice [1;2;3;4;5]%Z 3 100 = [4;5]%Z
  /\ slice [1;2;3;4;5]%Z (-2) 4 = [4]%Z
  /\ slice [1;2;3;4;5]%Z (-10) 2 = [1;2]%Z
  /\ slice [1;2;3;4;5]%Z 4 2 = []
  /\ map isspace [9; 13; 28; 32; 133; 160; 8203; 65; 0]%N
     = [true; true; true; true; true; true; false; false; false].
Proof. vm_compute. repeat split. Qed.

Lemma startswith_iff (sub s : str) :
  startswith sub s = true <-> exists post, s = sub ++ post.
Proof.
  revert s. induction sub as [| a sub IH]; intro s; simpl.
  - split; [intros _; now exists s | reflexivity].
  - destruct s as [| b s].
    + split; [discriminate | intros [post Hp]; discriminate].
    + rewrite andb_true_iff, N.eqb_eq, IH. split.
      * intros [-> [post ->]]. now exists post.
      * intros [post Hp]. injection Hp as -> ->. split; [reflexivity |].
        now exists post.
Qed.

Lemma contains_iff (sub s : str) :
  contains sub s = true <-> exists pre post, s = pre ++ sub ++ post.
Proof.
  induction s as [| c s IH].
  - simpl. rewrite orb_false_r, startswith_iff. split.
    + intros [post Hp]. now exists [], post.
    + intros [pre [post Hp]]. destruct pre; simpl in Hp.
      * now exists post.
      * discriminate.
  - cbn [contains]. rewrite orb_true_iff, startswith_iff, IH. split.
    + intros [[post Hp] | [pre [post Hp]]].
      * now exists [], post.
      * exists (c :: pre), post. simpl. now rewrite Hp.
    + intros [pre [post Hp]]. destruct pre as [| c' pre]; simpl in Hp.
      * left. now exists post.
      * right. injection Hp as _ ->. now exists pre, post.
Qed.

Lemma lstrip_keeps (pre sub post : str) (a : char) (sub' : str) :
  sub = a :: sub' -> isspace a = false ->
  exists pre', lstrip (pre ++ sub ++ post) = pre' ++ sub ++ post.
Proof.
  intros -> Ha. induction pre as [| c pre IH]; simpl.
  - rewrite Ha. now exists [].
  - destruct (isspace c).
    + exact IH.
    + now exists (c :: pre).
Qed.

(** Stripping a line keeps every occurrence of a text that neither
    starts nor ends with white space. *)
Lemma contains_strip (sub s : str) (a b : char) (sub' sub'' : str) :
  sub = a :: sub' -> isspace a = false ->
  rev sub = b :: sub'' -> isspace b = false ->
  contains sub s = true -> contains sub (strip s) = true.
Proof.
  intros Hsub Ha Hrev Hb Hc.
  apply contains_iff in Hc. destruct Hc as [pre [post ->]].
  destruct (lstrip_keeps pre sub post a sub' Hsub Ha) as [pre' Hl].
  unfold strip, rstrip. rewrite Hl.
  rewrite !rev_app_distr, <- app_assoc.
  destruct (lstrip_keeps (rev post) (rev sub) (rev pre') b sub'' Hrev Hb)
    as [post' Hr].
  rewrite Hr. rewrite !rev_app_distr, !rev_involutive, <- app_assoc.
  apply contains_iff. now exists pre', (rev post').
Qed.

End StrProperties.

(** ** The security scanner *)

Module SecurityProperties.
Import SecurityScanner SecuritySpec StrProperties.

Section WithRuntime.
Context {R : PyRuntime}.

Lemma find_app {A} (f : A -> bool) (l1 l2 : list A) :
  find f (l1 ++ l2) =
  match find f l1 with
  | Some x => Some x
  | None => find f l2
  end.
Proof.
  induction l1 as [| x l1 IH]; simpl; [reflexivity |].
  destruct (f x); [reflexivity | exact IH].
Qed.

Lemma scan_table_find (table : list (string * vuln_info)) (line : str)
    (line_num : Z) (file_path : str) :
  scan_table table line line_num file_path =
  option_map (check_finding line line_num file_path)
    (find (check_matches line)
          (map (fun entry => DangerousCall (fst entry) (snd entry)) table)).
Proof.
  induction table as [| [call info] table IH]; simpl; [reflexivity |].
  destruct (contains (py call) line); [reflexivity | exact IH].
Qed.

Lemma search_any_find (wrap : pattern -> check) (flags : re_flag)
    (patterns : list pattern) (line : str) :
  (forall p, check_matches line (wrap p) = re_search p flags line) ->
  (search_any patterns flags line = true
   /\ exists p, find (check_matches line) (map wrap patterns) = Some (wrap p))
  \/ (search_any patterns flags line = false
      /\ find (check_matches line) (map wrap patterns) = None).
Proof.
  intro Hm. induction patterns as [| p patterns IH]; simpl.
  - right. split; reflexivity.
  - rewrite Hm. destruct (re_search p flags line); [| exact IH].
    left. split; [reflexivity | now exists p].
Qed.

(** First match wins: the finding returned for a line is that of the
    first check, in the fixed order, that matches the line. *)
Lemma check_python_first_match (line : str) (line_num : Z) (file_path : str) :
  _check_python_vulnerability line line_num file_path =
  option_map (check_finding line line_num file_path)
    (find (check_matches line) python_checks).
Proof.
  unfold _check_python_vulnerability, python_checks.
  rewrite find_app, scan_table_find.
  destruct (find (check_matches line)
              (map (fun entry => DangerousCall (fst entry) (snd entry))
                   dangerous_functions)) as [c |]; [reflexivity |].
  cbn [option_map].
  rewrite find_app.
  destruct (search_any_find HardcodedSecret IGNORECASE secret_patterns line
              (fun p => eq_refl)) as [[-> [p ->]] | [-> ->]];
    [reflexivity |].
  rewrite find_app.
  destruct (search_any_find SqlInjection NOFLAG sql_patterns line
              (fun p => eq_refl)) as [[-> [p ->]] | [-> ->]];
    [reflexivity |].
  cbn [option_map find check_matches].
  destruct (contains (py "../") line); [reflexivity |].
  destruct (contains (py "..\") line); reflexivity.
Qed.

Lemma scan_table_line (table : list (string * vuln_info)) (line : str)
    (line_num : Z) (file_path : str) (v : Vulnerability) :
  scan_table table line line_num file_path = Some v -> v_line v = line_num.
Proof.
  induction table as [| [call info] table IH]; simpl; [discriminate |].
  destruct (contains (py call) line); [| exact IH].
  intro Hv. injection Hv as <-. reflexivity.
Qed.

Lemma check_python_line (line : str) (line_num : Z) (file_path : str)
    (v : Vulnerability) :
  _check_python_vulnerability line line_num file_path = Some v ->
  v_line v = line_num.
Proof.
  unfold _check_python_vulnerability.
  destruct (scan_table dangerous_functions line line_num file_path)
    as [w |] eqn:E.
  - intro Hv. injection Hv as <-. eapply scan_table_line; eassumption.
  - repeat match goal with |- context [if ?c then _ else _] =>
      destruct c end;
      intro Hv; try discriminate; injection Hv as <-; reflexivity.
Qed.

Lemma check_shell_line (line : str) (line_num : Z) (file_path : str)
    (v : Vulnerability) :
  _check_shell_vulnerability line line_num file_path = Some v ->
  v_line v = line_num.
Proof.
  unfold _check_shell_vulnerability.
  destruct (scan_table dangerous_commands line line_num file_path)
    as [w |] eqn:E.
  - intro Hv. injection Hv as <-. eapply scan_table_line; eassumption.
  - repeat match goal with |- context [if ?c then _ else _] =>
      destruct c end;
      intro Hv; try discriminate; injection Hv as <-; reflexivity.
Qed.

(** A loop over numbered lines whose check reports the number it is
    given: no finding below the first number, and at most one finding
    for any number. *)
Lemma scan_lines_from
    (check : str -> Z -> str -> option Vulnerability) (file_path : str)
    (Hcheck : forall line i v, check line i file_path = Some v -> v_line v = i)
    (lines : list str) :
  forall start i,
    let found :=
      flat_map (fun '(i, line) =>
                  match check (strip line) i file_path with
                  | Some vuln => [vuln]
                  | None => []
                  end)
               (enumerate start lines) in
    (i < start -> on_line i found = [])
    /\ (List.length (on_line i found) <= 1)%nat.
Proof.
  induction lines as [| l lines IH]; intros start i; cbn zeta.
  - simpl. split; [reflexivity | lia].
  - cbn [enumerate flat_map]. unfold on_line. rewrite filter_app.
    destruct (IH (start + 1) i) as [Hlow Hone]. unfold on_line in Hlow, Hone.
    destruct (check (strip l) start file_path) as [v |] eqn:E.
    + apply Hcheck in E. cbn [filter]. rewrite E.
      destruct (start =? i) eqn:Hi.
      * apply Z.eqb_eq in Hi. rewrite Hlow by lia. split; [lia | simpl; lia].
      * apply Z.eqb_neq in Hi. cbn [app]. split; [| exact Hone].
        intro Hlt. apply Hlow. lia.
    + cbn [filter app]. split; [| exact Hone]. intro Hlt. apply Hlow. lia.
Qed.

Lemma scan_python_file_one_per_line (file : entry) (i : Z) :
  (List.length (on_line i (_scan_python_file file)) <= 1)%nat.
Proof.
  unfold _scan_python_file. destruct (e_read file) as [content | e].
  - apply (scan_lines_from _check_python_vulnerability (e_path file)
             (fun line i v => check_python_line line i (e_path file) v)).
  - unfold on_line, unreadable_finding. cbn [filter v_line].
    destruct (0 =? i); simpl; lia.
Qed.

End WithRuntime.

(** C7. [_check_python_vulnerability] returns the finding of the first
    check that matches the line, in the fixed order (dangerous calls,
    then secret patterns, then injection patterns, then traversal
    sequences), and nothing when none matches; the checks that match
    later leave no trace. A scanned file gets at most one finding per
    line. *)
Theorem check_python_vulnerability_first_match {R : PyRuntime} :
  (forall (line : str) (line_num : Z) (file_path : str),
     _check_python_vulnerability line line_num file_path =
     option_map (check_finding line line_num file_path)
       (find (check_matches line) python_checks))
  /\ (forall (file : entry) (i : Z),
        (List.length (on_line i (_scan_python_file file)) <= 1)%nat).
Proof.
  split.
  - apply check_python_first_match.
  - apply scan_python_file_one_per_line.
Qed.

(** A line on which three checks match (two dangerous calls and a
    traversal sequence) gets the finding of the first of them only. *)
Example three_matches_one_finding {R : PyRuntime} :
  let line := py "os.system(input('../'))" in
  let matching := filter (check_matches line) python_checks in
  (3 <= List.length matching)%nat
  /\ exists info,
       hd_error matching = Some (DangerousCall "os.system(" info)
       /\ _check_python_vulnerability line 7 (py "run.py") =
          Some (table_finding info line 7 (py "run.py"))
       /\ vi_severity info = High.
Proof.
  destruct R as [search mtch findall parse lo up].
  cbv zeta. split.
  - vm_compute.
    repeat match goal with |- context [search ?p ?f ?l] =>
      destruct (search p f l) end; lia.
  - eexists. vm_compute. repeat split.
Qed.

End SecurityProperties.

(** ** The security gate on the scanner's report *)

Module SecurityGateProperties.
Import SecurityScanner SecuritySpec StrProperties SecurityProperties.

Lemma glob_single (suffix : string) (file : entry) :
  endswith (py suffix) (basename (e_path file)) = true ->
  glob_suffix suffix [file] = [file].
Proof. intro Hs. unfold glob_suffix. simpl. now rewrite Hs. Qed.

Lemma check_shell_rm {R : PyRuntime} (line : str) (line_num : Z)
    (file_path : str) :
  contains (py "rm -rf /") line = true ->
  _check_shell_vulnerability (strip line) line_num file_path =
  Some (rm_finding (strip line) line_num file_path).
Proof.
  intro Hc.
  assert (Hs : contains (py "rm -rf /") (strip line) = true).
  { eapply contains_strip; try eassumption; reflexivity. }
  unfold _check_shell_vulnerability, dangerous_commands. cbn [scan_table].
  now rewrite Hs.
Qed.

Lemma scan_shell_file_rm {R : PyRuntime} (path content first : str)
    (rest : list str) :
  split newline content = first :: rest ->
  contains (py "rm -rf /") first = true ->
  on_line 1 (_scan_shell_file (text_file path content)) =
  [rm_finding (strip first) 1 path].
Proof.
  intros Hsplit Hc. unfold _scan_shell_file, text_file. cbn [e_read e_path].
  rewrite Hsplit. unfold scan_lines. cbn [enumerate flat_map].
  rewrite (check_shell_rm first 1 path Hc).
  unfold on_line. cbn [app filter rm_finding v_line Z.eqb Pos.eqb].
  f_equal.
  apply (scan_lines_from _check_shell_vulnerability path
           (fun line i v => check_shell_line line i path v) rest 2 1).
  lia.
Qed.

(** C2, on the source as it is. For a project whose only file is a
    shell script whose first line holds the root-deleting command, the
    scanner emits exactly one finding for that line, of critical
    severity; but the scanner files no finding under the severity lists
    of its report, so its critical count is 0, and the security gate
    that reads that report back counts no vulnerability and passes. *)
Theorem critical_finding_not_counted
    {R : PyRuntime} {H : QualityGateManager.Host}
    (path content first : str) (rest : list str) :
  endswith (py ".sh") (basename path) = true ->
  split newline content = first :: rest ->
  contains (py "rm -rf /") first = true ->
  let fs := [text_file path content] in
  let report := scan_all_files (__init__ fs) in
  QualityGateManager.security_script =
    QualityGateManager.Exited 0
      (Some (QualityGateManager.load_report report)) ->
  let gate :=
    QualityGateManager.run_security_scanning
      (QualityGateManager.__init__ fs) in
  on_line 1 (pass_findings (lang_shell (r_languages report))) =
    [rm_finding (strip first) 1 path]
  /\ bucket (r_vulnerabilities report) Critical = []
  /\ critical_count (r_summary report) = 0
  /\ QualityGateManager.critical_count (QualityGateManager.s_summary gate) = 0
  /\ QualityGateManager.s_status gate = Passed.
Proof.
  intros Hsh Hsplit Hc fs report Hscript gate.
  split; [| split; [reflexivity | split; [reflexivity |]]].
  - subst report fs. unfold scan_all_files, scan_shell_scripts.
    cbn [r_languages lang_shell project_root __init__].
    rewrite (glob_single ".sh" (text_file path content) Hsh).
    cbn [pass_findings pass_vulnerabilities flat_map]. rewrite app_nil_r.
    now apply scan_shell_file_rm with (rest := rest).
  - subst gate. unfold QualityGateManager.run_security_scanning.
    rewrite Hscript. split; reflexivity.
Qed.

(** The same at the project that holds the one script [clean.sh]. *)
Lemma critical_finding_not_counted_witness :
  let R := Examples.runtime (fun _ => inl []) in
  let report := scan_all_files (__init__ Examples.wipe_project) in
  let H := Examples.host
             (QualityGateManager.Exited 0
                (Some (QualityGateManager.load_report report)))
             QualityGateManager.Missing in
  let gate :=
    QualityGateManager.run_security_scanning
      (QualityGateManager.__init__ Examples.wipe_project) in
  on_line 1 (pass_findings (lang_shell (r_languages report))) =
    [rm_finding (py "rm -rf /") 1 (py "clean.sh")]
  /\ bucket (r_vulnerabilities report) Critical = []
  /\ critical_count (r_summary report) = 0
  /\ QualityGateManager.critical_count (QualityGateManager.s_summary gate) = 0
  /\ QualityGateManager.s_status gate = Passed.
Proof.
  intros R report H gate.
  exact (@critical_finding_not_counted R H
           (py "clean.sh") Examples.wipe_script (py "rm -rf /")
           [py "echo done"] eq_refl eq_refl eq_refl eq_refl).
Defined.

(** The fallback scan of the gate, which runs when the scanner script
    is missing, does fail the gate on the same project. *)
Example fallback_scan_fails :
  let R := Examples.runtime (fun _ => inl []) in
  let H := Examples.host QualityGateManager.Missing
                         QualityGateManager.Missing in
  let gate :=
    QualityGateManager.run_security_scanning
      (QualityGateManager.__init__ Examples.wipe_project) in
  QualityGateManager.high_count (QualityGateManager.s_summary gate) = 1
  /\ QualityGateManager.s_status gate = Failed.
Proof. vm_compute. split; reflexivity. Qed.

End SecurityGateProperties.

(** ** Sources that do not parse *)

Module ParseErrorProperties.

Section WithRuntime.
Context {R : PyRuntime}.

Lemma review_python_file_syntax_error (file : entry) (content : str)
    (lineno : option Z) (msg : str) :
  e_read file = inl content ->
  ast_parse content = inr (SyntaxError lineno msg) ->
  CodeReviewAutomator._review_python_file file =
  CodeReviewAutomator.syntax_error_finding (e_path file) lineno msg
  :: CodeReviewAutomator.review_lines
       CodeReviewAutomator._analyze_python_line (e_path file)
       (split newline content).
Proof.
  intros Hread Hparse. unfold CodeReviewAutomator._review_python_file.
  now rewrite Hread, Hparse.
Qed.

Lemma analyze_python_file_syntax_error (file : entry) (content : str)
    (lineno : option Z) (msg : str) :
  e_read file = inl content ->
  ast_parse content = inr (SyntaxError lineno msg) ->
  ComplexityAnalyzer._analyze_python_file file =
  inr (SyntaxError lineno msg).
Proof.
  intros Hread Hparse. unfold ComplexityAnalyzer._analyze_python_file.
  now rewrite Hread, Hparse.
Qed.

Lemma analyze_step_raises (self : ComplexityAnalyzer.ComplexityAnalyzer)
    (analyze : entry -> ComplexityAnalyzer.file_result + exn)
    (results : ComplexityAnalyzer.language_report) (file : entry) (e : exn) :
  analyze file = inr e ->
  ComplexityAnalyzer.analyze_step self analyze results file = results.
Proof.
  intro Hraise. unfold ComplexityAnalyzer.analyze_step. now rewrite Hraise.
Qed.

Lemma nonempty_middle {A B} (before after : list A) (x : A) (none some : B) :
  match before ++ x :: after with
  | [] => none
  | _ :: _ => some
  end = some.
Proof. destruct before; reflexivity. Qed.

End WithRuntime.

(** C8, as the source has it. When a Python file does not parse
    (SyntaxError), the review records for that file a finding of
    category logic and severity high, still runs its line checks on the
    file, and goes on with the files before and after it; the
    complexity analysis records nothing for the file and goes on with
    the other files, so that but for [file_count] its report is that of
    the project without the file. *)
Theorem syntax_errors_handled_per_file {R : PyRuntime}
    (fs : project) (before after : list entry) (file : entry)
    (content : str) (lineno : option Z) (msg : str) :
  glob_suffix ".py" fs = before ++ file :: after ->
  e_read file = inl content ->
  ast_parse content = inr (SyntaxError lineno msg) ->
  let found :=
    CodeReviewAutomator.syntax_error_finding (e_path file) lineno msg in
  (CodeReviewAutomator.f_file found = e_path file
   /\ CodeReviewAutomator.f_category found = Logic
   /\ CodeReviewAutomator.f_severity found = High)
  /\ CodeReviewAutomator._review_python_file file =
     found :: CodeReviewAutomator.review_lines
                CodeReviewAutomator._analyze_python_line (e_path file)
                (split newline content)
  /\ (exists r,
        CodeReviewAutomator.review_python_files
          (CodeReviewAutomator.__init__ fs) = Some r
        /\ CodeReviewAutomator.pass_issues r =
           flat_map CodeReviewAutomator._review_python_file before
           ++ CodeReviewAutomator._review_python_file file
           ++ flat_map CodeReviewAutomator._review_python_file after)
  /\ ComplexityAnalyzer.analyze_python_files
       (ComplexityAnalyzer.__init__ fs) =
     Some (fold_left
             (ComplexityAnalyzer.analyze_step
                (ComplexityAnalyzer.__init__ fs)
                ComplexityAnalyzer._analyze_python_file)
             (before ++ after)
             (ComplexityAnalyzer.empty_report
                (len (before ++ file :: after)))).
Proof.
  intros Hglob Hread Hparse found.
  split; [repeat split |].
  split; [now apply review_python_file_syntax_error |].
  split.
  - unfold CodeReviewAutomator.review_python_files.
    cbn [CodeReviewAutomator.project_root CodeReviewAutomator.__init__].
    rewrite Hglob, nonempty_middle. eexists. split; [reflexivity |].
    cbn [CodeReviewAutomator.pass_issues].
    rewrite flat_map_app. reflexivity.
  - unfold ComplexityAnalyzer.analyze_python_files.
    cbn [ComplexityAnalyzer.project_root ComplexityAnalyzer.__init__].
    rewrite Hglob, nonempty_middle. f_equal.
    rewrite !fold_left_app. cbn [fold_left]. f_equal.
    apply analyze_step_raises with (e := SyntaxError lineno msg).
    now apply analyze_python_file_syntax_error with (content := content).
Qed.

(** The same at the project that holds the one file [broken.py]. *)
Lemma syntax_errors_handled_per_file_witness :
  let R := Examples.runtime Examples.broken_parse in
  (exists r,
     CodeReviewAutomator.review_python_files
       (CodeReviewAutomator.__init__ Examples.broken_project) = Some r
     /\ CodeReviewAutomator.pass_issues r =
        [CodeReviewAutomator.syntax_error_finding (py "broken.py") (Some 1)
           (py "invalid syntax")])
  /\ ComplexityAnalyzer.analyze_python_files
       (ComplexityAnalyzer.__init__ Examples.broken_project) =
     Some (ComplexityAnalyzer.empty_report 1).
Proof.
  intro R.
  destruct (@syntax_errors_handled_per_file R Examples.broken_project
              [] [] Examples.broken_file Examples.broken_source
              (Some 1) (py "invalid syntax") eq_refl eq_refl eq_refl)
    as [_ [_ [[r [Hr Hissues]] Hcomplexity]]].
  split; [exists r; split; [exact Hr | exact Hissues] | exact Hcomplexity].
Defined.

(** C8 as stated fails for the complexity analysis: on a project whose
    only Python file does not parse, its report names no file, no
    function and no finding, where the review records one finding of
    category logic and severity high. *)
Lemma complexity_records_no_parse_finding :
  let R := Examples.runtime Examples.broken_parse in
  let report :=
    ComplexityAnalyzer.analyze_all_files
      (ComplexityAnalyzer.__init__ Examples.broken_project) in
  ast_parse Examples.broken_source
  = inr (SyntaxError (Some 1) (py "invalid syntax"))
  /\ ComplexityAnalyzer.r_languages report =
     {| ComplexityAnalyzer.lang_python :=
          Some (ComplexityAnalyzer.empty_report 1);
        ComplexityAnalyzer.lang_shell := None;
        ComplexityAnalyzer.lang_javascript := None |}
  /\ map (fun f => (CodeReviewAutomator.f_category f,
                    CodeReviewAutomator.f_severity f))
         (CodeReviewAutomator._review_python_file Examples.broken_file)
     = [(Logic, High)].
Proof. vm_compute. repeat split. Qed.

End ParseErrorProperties.

(** ** What the scans depend on *)

Module DeterminismProperties.
Import TreeSpec.

Section Lists.
Context (g : entry -> entry) (Hpath : forall e, e_path (g e) = e_path e).

Lemma glob_suffix_map (suffix : string) (fs : project) :
  glob_suffix suffix (map g fs) = map g (glob_suffix suffix fs).
Proof.
  unfold glob_suffix. induction fs as [| e fs IH]; simpl; [reflexivity |].
  rewrite Hpath. destruct (endswith _ _); simpl; now rewrite IH.
Qed.

Lemma glob_prefix_map (prefix : string) (fs : project) :
  glob_prefix prefix (map g fs) = map g (glob_prefix prefix fs).
Proof.
  unfold glob_prefix. induction fs as [| e fs IH]; simpl; [reflexivity |].
  rewrite Hpath. destruct (startswith _ _); simpl; now rewrite IH.
Qed.

Lemma flat_map_map {B} (F : entry -> list B) (l : list entry) :
  (forall e, F (g e) = F e) -> flat_map F (map g l) = flat_map F l.
Proof.
  intro HF. induction l as [| e l IH]; simpl; [reflexivity |].
  now rewrite HF, IH.
Qed.

Lemma fold_left_map {B} (step : B -> entry -> B) (l : list entry) :
  (forall b e, step b (g e) = step b e) ->
  forall init, fold_left step (map g l) init = fold_left step l init.
Proof.
  intro Hstep. induction l as [| e l IH]; intro init; simpl; [reflexivity |].
  now rewrite Hstep, IH.
Qed.

Lemma len_map (l : list entry) : len (map g l) = len l.
Proof. unfold len. now rewrite length_map. Qed.

Lemma match_map {B} (l : list entry) (none : B) (some some' : B) :
  some = some' ->
  match map g l with [] => none | _ :: _ => some end =
  match l with [] => none | _ :: _ => some' end.
Proof. intros ->. destruct l; reflexivity. Qed.

(** A pass of the shape shared by the analyzers: nothing when the
    glob is empty, else a report built from the files. *)
Lemma pass_map {B} (build : list entry -> B) (l : list entry) :
  build (map g l) = build l ->
  match map g l with [] => None | _ :: _ => Some (build (map g l)) end =
  match l with [] => None | _ :: _ => Some (build l) end.
Proof. intro Hb. apply match_map. now rewrite Hb. Qed.

End Lists.

Section WithRuntime.
Context {R : PyRuntime}.

Lemma complexity_forgets_metadata (fs : project) :
  ComplexityAnalyzer.analyze_all_files
    (ComplexityAnalyzer.__init__ (map forget_metadata fs)) =
  ComplexityAnalyzer.analyze_all_files (ComplexityAnalyzer.__init__ fs).
Proof.
  assert (Hpy : ComplexityAnalyzer.analyze_python_files
                  (ComplexityAnalyzer.__init__ (map forget_metadata fs)) =
                ComplexityAnalyzer.analyze_python_files
                  (ComplexityAnalyzer.__init__ fs)).
  { unfold ComplexityAnalyzer.analyze_python_files.
    cbn [ComplexityAnalyzer.project_root ComplexityAnalyzer.__init__].
    rewrite glob_suffix_map by reflexivity.
    apply (pass_map forget_metadata
             (fun l => fold_left _ l (ComplexityAnalyzer.empty_report (len l)))).
    rewrite len_map. now apply fold_left_map. }
  assert (Hsh : ComplexityAnalyzer.analyze_shell_files
                  (ComplexityAnalyzer.__init__ (map forget_metadata fs)) =
                ComplexityAnalyzer.analyze_shell_files
                  (ComplexityAnalyzer.__init__ fs)).
  { unfold ComplexityAnalyzer.analyze_shell_files.
    cbn [ComplexityAnalyzer.project_root ComplexityAnalyzer.__init__].
    rewrite glob_suffix_map by reflexivity.
    apply (pass_map forget_metadata
             (fun l => fold_left _ l (ComplexityAnalyzer.empty_report (len l)))).
    rewrite len_map. now apply fold_left_map. }
  assert (Hjs : ComplexityAnalyzer.analyze_javascript_files
                  (ComplexityAnalyzer.__init__ (map forget_metadata fs)) =
                ComplexityAnalyzer.analyze_javascript_files
                  (ComplexityAnalyzer.__init__ fs)).
  { unfold ComplexityAnalyzer.analyze_javascript_files.
    cbn [ComplexityAnalyzer.project_root ComplexityAnalyzer.__init__].
    rewrite !glob_suffix_map by reflexivity. rewrite <- map_app.
    apply (pass_map forget_metadata
             (fun l => fold_left _ l (ComplexityAnalyzer.empty_report (len l)))).
    rewrite len_map. now apply fold_left_map. }
  unfold ComplexityAnalyzer.analyze_all_files. now rewrite Hpy, Hsh, Hjs.
Qed.

Lemma review_forgets_metadata (fs : project) :
  CodeReviewAutomator.run_full_review
    (CodeReviewAutomator.__init__ (map forget_metadata fs)) =
  CodeReviewAutomator.run_full_review (CodeReviewAutomator.__init__ fs).
Proof.
  assert (Hpy : CodeReviewAutomator.review_python_files
                  (CodeReviewAutomator.__init__ (map forget_metadata fs)) =
                CodeReviewAutomator.review_python_files
                  (CodeReviewAutomator.__init__ fs)).
  { unfold CodeReviewAutomator.review_python_files.
    cbn [CodeReviewAutomator.project_root CodeReviewAutomator.__init__].
    rewrite glob_suffix_map by reflexivity.
    apply (pass_map forget_metadata
             (fun l => {| CodeReviewAutomator.files_reviewed := Some (len l);
                          CodeReviewAutomator.pass_issues := flat_map _ l |})).
    rewrite len_map. f_equal. now apply flat_map_map. }
  assert (Hsh : CodeReviewAutomator.review_shell_scripts
                  (CodeReviewAutomator.__init__ (map forget_metadata fs)) =
                CodeReviewAutomator.review_shell_scripts
                  (CodeReviewAutomator.__init__ fs)).
  { unfold CodeReviewAutomator.review_shell_scripts.
    cbn [CodeReviewAutomator.project_root CodeReviewAutomator.__init__].
    rewrite glob_suffix_map by reflexivity.
    apply (pass_map forget_metadata
             (fun l => {| CodeReviewAutomator.files_reviewed := Some (len l);
                          CodeReviewAutomator.pass_issues := flat_map _ l |})).
    rewrite len_map. f_equal. now apply flat_map_map. }
  assert (Hglobs : forall patterns,
             flat_map (fun pattern =>
                         glob_suffix pattern (map forget_metadata fs))
                      patterns =
             map forget_metadata
                 (flat_map (fun pattern => glob_suffix pattern fs) patterns)).
  { induction patterns as [| p ps IH]; simpl; [reflexivity |].
    rewrite glob_suffix_map by reflexivity. now rewrite IH, map_app. }
  assert (Hcf : CodeReviewAutomator.review_config_files
                  (CodeReviewAutomator.__init__ (map forget_metadata fs)) =
                CodeReviewAutomator.review_config_files
                  (CodeReviewAutomator.__init__ fs)).
  { unfold CodeReviewAutomator.review_config_files.
    cbn [CodeReviewAutomator.project_root CodeReviewAutomator.__init__].
    rewrite Hglobs.
    apply (pass_map forget_metadata
             (fun l => {| CodeReviewAutomator.files_reviewed := Some (len l);
                          CodeReviewAutomator.pass_issues := flat_map _ l |})).
    rewrite len_map. f_equal. now apply flat_map_map. }
  assert (Hdoc : CodeReviewAutomator.review_documentation
                   (CodeReviewAutomator.__init__ (map forget_metadata fs)) =
                 CodeReviewAutomator.review_documentation
                   (CodeReviewAutomator.__init__ fs)).
  { unfold CodeReviewAutomator.review_documentation.
    cbn [CodeReviewAutomator.project_root CodeReviewAutomator.__init__].
    rewrite glob_suffix_map, glob_prefix_map by reflexivity.
    rewrite fold_left_map by reflexivity.
    now rewrite (match_map forget_metadata (glob_prefix "README" fs)
                   _ [] [] eq_refl). }
  unfold CodeReviewAutomator.run_full_review.
  now rewrite Hpy, Hsh, Hcf, Hdoc.
Qed.

Lemma security_content_forgets_metadata (fs : project) :
  SecurityScanner.scan_python_files
    (SecurityScanner.__init__ (map forget_metadata fs)) =
  SecurityScanner.scan_python_files (SecurityScanner.__init__ fs)
  /\ SecurityScanner.scan_shell_scripts
       (SecurityScanner.__init__ (map forget_metadata fs)) =
     SecurityScanner.scan_shell_scripts (SecurityScanner.__init__ fs)
  /\ SecurityScanner.scan_config_files
       (SecurityScanner.__init__ (map forget_metadata fs)) =
     SecurityScanner.scan_config_files (SecurityScanner.__init__ fs).
Proof.
  assert (Hglobs : forall patterns,
             flat_map (fun pattern =>
                         glob_suffix pattern (map forget_metadata fs))
                      patterns =
             map forget_metadata
                 (flat_map (fun pattern => glob_suffix pattern fs) patterns)).
  { induction patterns as [| p ps IH]; simpl; [reflexivity |].
    rewrite glob_suffix_map by reflexivity. now rewrite IH, map_app. }
  repeat split.
  - unfold SecurityScanner.scan_python_files.
    cbn [SecurityScanner.project_root SecurityScanner.__init__].
    rewrite glob_suffix_map by reflexivity.
    apply (pass_map forget_metadata
             (fun l => {| SecurityScanner.files_scanned := Some (len l);
                          SecurityScanner.pass_vulnerabilities := flat_map _ l |})).
    rewrite len_map. f_equal. now apply flat_map_map.
  - unfold SecurityScanner.scan_shell_scripts.
    cbn [SecurityScanner.project_root SecurityScanner.__init__].
    rewrite glob_suffix_map by reflexivity.
    apply (pass_map forget_metadata
             (fun l => {| SecurityScanner.files_scanned := Some (len l);
                          SecurityScanner.pass_vulnerabilities := flat_map _ l |})).
    rewrite len_map. f_equal. now apply flat_map_map.
  - unfold SecurityScanner.scan_config_files.
    cbn [SecurityScanner.project_root SecurityScanner.__init__].
    rewrite Hglobs.
    apply (pass_map forget_metadata
             (fun l => {| SecurityScanner.files_scanned := Some (len l);
                          SecurityScanner.pass_vulnerabilities := flat_map _ l |})).
    rewrite len_map. f_equal. now apply flat_map_map.
Qed.

Lemma security_general_forgets_content (fs : project) :
  SecurityScanner.scan_general_security
    (SecurityScanner.__init__ (map forget_content fs)) =
  SecurityScanner.scan_general_security (SecurityScanner.__init__ fs).
Proof.
  unfold SecurityScanner.scan_general_security, glob_all.
  cbn [SecurityScanner.project_root SecurityScanner.__init__].
  now rewrite !(flat_map_map forget_content) by reflexivity.
Qed.

End WithRuntime.

(** C9, as the source has it. The scans use no clock, no randomness
    and no state of their own, so a scan is a function of the project
    tree. Of that tree the complexity analysis, the review and the
    Python, shell and configuration passes of the security scan read
    only the paths, in enumeration order, and the contents: on two
    trees that agree on these they return the same reports, finding for
    finding. The general pass of the security scan reads the metadata
    instead (whether a path is a regular file, its permission bits and
    its size): it returns the same report on two trees that agree on
    paths and metadata. *)
Theorem scans_depend_on_tree_only {R : PyRuntime} (fs1 fs2 fs3 : project) :
  (same_content fs1 fs2 ->
   ComplexityAnalyzer.analyze_all_files (ComplexityAnalyzer.__init__ fs1) =
   ComplexityAnalyzer.analyze_all_files (ComplexityAnalyzer.__init__ fs2)
   /\ CodeReviewAutomator.run_full_review (CodeReviewAutomator.__init__ fs1) =
      CodeReviewAutomator.run_full_review (CodeReviewAutomator.__init__ fs2)
   /\ SecurityScanner.scan_python_files (SecurityScanner.__init__ fs1) =
      SecurityScanner.scan_python_files (SecurityScanner.__init__ fs2)
   /\ SecurityScanner.scan_shell_scripts (SecurityScanner.__init__ fs1) =
      SecurityScanner.scan_shell_scripts (SecurityScanner.__init__ fs2)
   /\ SecurityScanner.scan_config_files (SecurityScanner.__init__ fs1) =
      SecurityScanner.scan_config_files (SecurityScanner.__init__ fs2))
  /\ (same_metadata fs1 fs3 ->
      SecurityScanner.scan_general_security (SecurityScanner.__init__ fs1) =
      SecurityScanner.scan_general_security (SecurityScanner.__init__ fs3)).
Proof.
  split.
  - intro Hsame. unfold same_content in Hsame.
    rewrite <- (complexity_forgets_metadata fs1),
            <- (complexity_forgets_metadata fs2).
    rewrite <- (review_forgets_metadata fs1), <- (review_forgets_metadata fs2).
    destruct (security_content_forgets_metadata fs1) as [<- [<- <-]].
    destruct (security_content_forgets_metadata fs2) as [<- [<- <-]].
    rewrite Hsame. repeat split.
  - intro Hsame. unfold same_metadata in Hsame.
    rewrite <- (security_general_forgets_content fs1),
            <- (security_general_forgets_content fs3).
    now rewrite Hsame.
Qed.

(** The same on one file, once made writable by everyone and once
    reworded. *)
Lemma scans_depend_on_tree_only_witness :
  let R := Examples.runtime (fun _ => inl []) in
  (ComplexityAnalyzer.analyze_all_files
     (ComplexityAnalyzer.__init__ [Examples.notes]) =
   ComplexityAnalyzer.analyze_all_files
     (ComplexityAnalyzer.__init__ [Examples.notes_writable])
   /\ CodeReviewAutomator.run_full_review
        (CodeReviewAutomator.__init__ [Examples.notes]) =
      CodeReviewAutomator.run_full_review
        (CodeReviewAutomator.__init__ [Examples.notes_writable]))
  /\ SecurityScanner.scan_general_security
       (SecurityScanner.__init__ [Examples.notes]) =
     SecurityScanner.scan_general_security
       (SecurityScanner.__init__ [Examples.notes_reworded]).
Proof.
  intro R.
  destruct (@scans_depend_on_tree_only R [Examples.notes]
              [Examples.notes_writable] [Examples.notes_reworded])
    as [Hcontent Hmetadata].
  destruct (Hcontent eq_refl) as [Hc [Hr _]].
  split; [split; [exact Hc | exact Hr] | exact (Hmetadata eq_refl)].
Defined.

(** C9 as stated fails: two trees that map the same path to the same
    content, the file being writable by everyone in the second, get
    different findings from the security scan. *)
Lemma scan_depends_on_permissions :
  let R := Examples.runtime (fun _ => inl []) in
  let first :=
    SecurityScanner.scan_all_files
      (SecurityScanner.__init__ [Examples.notes]) in
  let second :=
    SecurityScanner.scan_all_files
      (SecurityScanner.__init__ [Examples.notes_writable]) in
  same_content [Examples.notes] [Examples.notes_writable]
  /\ SecurityScanner.emitted first = []
  /\ SecurityScanner.emitted second =
     [{| SecurityScanner.v_file := py "notes.txt";
         SecurityScanner.v_line := 0;
         SecurityScanner.v_severity := Medium;
         SecurityScanner.v_issue := py "World-writable file";
         SecurityScanner.v_code := Some (py "Permissions: 0o100666");
         SecurityScanner.v_recommendation :=
           py "Remove world-write permissions: chmod o-w" |}]
  /\ SecurityScanner.emitted first <> SecurityScanner.emitted second.
Proof. vm_compute. repeat split. intro; discriminate. Qed.

End DeterminismProperties.

(** ** The tree walk and the loops over [body + orelse] *)

Module TreeProperties.

Lemma zip_levels_nil_r (a : list (list node)) : zip_levels a [] = a.
Proof. destruct a; reflexivity. Qed.

Lemma zip_levels_assoc (a b c : list (list node)) :
  zip_levels (zip_levels a b) c = zip_levels a (zip_levels b c).
Proof.
  revert b c. induction a as [| x a IH]; intros b c; [reflexivity |].
  destruct b as [| y b]; [reflexivity |].
  destruct c as [| z c]; [reflexivity |].
  simpl. now rewrite IH, app_assoc.
Qed.

Lemma forest_levels_app (l1 l2 : list node) :
  forest_levels (l1 ++ l2) =
  zip_levels (forest_levels l1) (forest_levels l2).
Proof.
  induction l1 as [| c l1 IH]; simpl; [reflexivity |].
  now rewrite IH, zip_levels_assoc.
Qed.

(** The levels below a node are those of the forest of its children,
    the children of an [If] being its [body] followed by its [orelse]. *)
Lemma levels_children (n : node) :
  levels n = [n] :: forest_levels (children n).
Proof.
  assert (Hforest : forall l,
             (fix forest (l : list node) : list (list node) :=
                match l with
                | [] => []
                | c :: l' => zip_levels (levels c) (forest l')
                end) l = forest_levels l).
  { induction l as [| c l IH]; simpl; [reflexivity | now rewrite IH]. }
  destruct n; simpl; rewrite ?forest_levels_app, ?Hforest; reflexivity.
Qed.

(** [count_nested_ifs] as one loop over [body + orelse]. *)
Lemma count_nested_ifs_children (lineno : Z) (body orelse : list node)
    (depth : Z) :
  CodeReviewAutomator.count_nested_ifs (If lineno body orelse) depth =
  fold_left (fun max_depth child =>
               Z.max max_depth
                 (CodeReviewAutomator.count_nested_ifs child (depth + 1)))
            (body ++ orelse) (Z.max depth (depth + 1)).
Proof. cbn [CodeReviewAutomator.count_nested_ifs]. now rewrite fold_left_app. Qed.

(** A chain of four [if] statements, each in the body of the one
    before, walked and visited. *)
Example nested_ifs_walked :
  let inner := If 4 [Other []] [] in
  let tree := [If 1 [If 2 [If 3 [inner] []] []] [FunctionDef (py "g") 9 (Some 9) 0 false []]] in
  map (fun n => match n with
                | If l _ _ => l
                | FunctionDef _ l _ _ _ _ => l
                | _ => 0
                end) (walk tree) = [1; 2; 9; 3; 4; 0]
  /\ map CodeReviewAutomator.f_line
         (CodeReviewAutomator._analyze_ast tree (py "a.py")) = [1].
Proof. vm_compute. split; reflexivity. Qed.

End TreeProperties.

(** ** Further properties of the security scanner *)

Module ScannerProperties.
Import SecurityScanner SecuritySpec SecurityProperties MoreSpec.

Section WithRuntime.
Context {R : PyRuntime}.

Lemma scan_table_well_formed (table : list (string * vuln_info))
    (line : str) (line_num : Z) (file_path : str) (v : Vulnerability) :
  Forall (fun e => In (vi_severity (snd e)) [Critical; High; Medium]) table ->
  scan_table table line line_num file_path = Some v ->
  well_formed line line_num file_path v.
Proof.
  induction table as [| [call info] table IH]; intros Hall; simpl;
    [discriminate |].
  inversion Hall as [| e l Hsev Hrest]; subst.
  destruct (contains (py call) line); [| now apply IH].
  intro Hv. injection Hv as <-. repeat split. exact Hsev.
Qed.

Lemma dangerous_functions_severities :
  Forall (fun e => In (vi_severity (snd e)) [Critical; High; Medium])
         dangerous_functions.
Proof.
  repeat (apply Forall_cons; [simpl; tauto |]). apply Forall_nil.
Qed.

Lemma dangerous_commands_severities :
  Forall (fun e => In (vi_severity (snd e)) [Critical; High; Medium])
         dangerous_commands.
Proof.
  repeat (apply Forall_cons; [simpl; tauto |]). apply Forall_nil.
Qed.

Lemma check_python_well_formed (line : str) (line_num : Z) (file_path : str)
    (v : Vulnerability) :
  _check_python_vulnerability line line_num file_path = Some v ->
  well_formed line line_num file_path v.
Proof.
  unfold _check_python_vulnerability.
  destruct (scan_table dangerous_functions line line_num file_path)
    as [w |] eqn:E.
  - intro Hv. injection Hv as <-.
    eapply scan_table_well_formed; [apply dangerous_functions_severities |].
    exact E.
  - repeat match goal with |- context [if ?c then _ else _] =>
      destruct c end;
      intro Hv; try discriminate; injection Hv as <-;
      repeat split; simpl; auto.
Qed.

Lemma check_shell_well_formed (line : str) (line_num : Z) (file_path : str)
    (v : Vulnerability) :
  _check_shell_vulnerability line line_num file_path = Some v ->
  well_formed line line_num file_path v.
Proof.
  unfold _check_shell_vulnerability.
  destruct (scan_table dangerous_commands line line_num file_path)
    as [w |] eqn:E.
  - intro Hv. injection Hv as <-.
    eapply scan_table_well_formed; [apply dangerous_commands_severities |].
    exact E.
  - repeat match goal with |- context [if ?c then _ else _] =>
      destruct c end;
      intro Hv; try discriminate; injection Hv as <-;
      repeat split; simpl; auto.
Qed.

(** Membership in a list built from numbered lines. *)
Lemma in_enumerate {A} (lines : list A) :
  forall (start i : Z) (x : A),
    In (i, x) (enumerate start lines) ->
    start <= i < start + len lines
    /\ nth_error lines (Z.to_nat (i - start)) = Some x.
Proof.
  unfold len.
  induction lines as [| l lines IH]; intros start i x Hin; simpl in Hin;
    [contradiction |].
  destruct Hin as [Heq | Hin].
  - injection Heq as <- <-. split; [cbn [List.length]; lia |].
    now replace (start - start) with 0 by lia.
  - apply IH in Hin. destruct Hin as [Hrange Hnth].
    split; [cbn [List.length]; lia |].
    replace (Z.to_nat (i - start)) with (S (Z.to_nat (i - (start + 1))))
      by lia.
    exact Hnth.
Qed.

Lemma scan_lines_well_formed
    (check : str -> Z -> str -> option Vulnerability) (file_path : str)
    (lines : list str) (v : Vulnerability) :
  (forall line i w, check line i file_path = Some w ->
                    well_formed line i file_path w) ->
  In v (scan_lines check file_path lines) ->
  1 <= v_line v <= len lines
  /\ well_formed (strip (nth (Z.to_nat (v_line v - 1)) lines []))
                 (v_line v) file_path v.
Proof.
  intros Hcheck Hin. unfold scan_lines in Hin.
  apply in_flat_map in Hin. destruct Hin as [[i line] [Hpos Hv]].
  apply in_enumerate in Hpos. destruct Hpos as [Hrange Hnth].
  destruct (check (strip line) i file_path) as [w |] eqn:E;
    [| contradiction].
  destruct Hv as [<- | []].
  pose proof (Hcheck _ _ _ E) as Hw.
  destruct Hw as [Hf [Hl [Hc Hs]]].
  rewrite Hl. split; [lia |].
  rewrite (nth_error_nth lines _ [] Hnth).
  repeat split; assumption.
Qed.

Lemma scan_lines_length
    (check : str -> Z -> str -> option Vulnerability) (file_path : str)
    (lines : list str) :
  forall start,
    (List.length
       (flat_map (fun '(i, line) =>
                    match check (strip line) i file_path with
                    | Some vuln => [vuln]
                    | None => []
                    end)
                 (enumerate start lines))
     <= List.length lines)%nat.
Proof.
  induction lines as [| l lines IH]; intro start; simpl; [lia |].
  rewrite length_app. specialize (IH (start + 1)).
  destruct (check (strip l) start file_path); simpl; lia.
Qed.

End WithRuntime.

Lemma readable_findings {R : PyRuntime}
    (file : entry) (content : str) (v : Vulnerability) :
  e_read file = inl content ->
  In v (_scan_python_file file) \/ In v (_scan_shell_file file) ->
  1 <= v_line v <= len (split newline content)
  /\ well_formed
       (strip (nth (Z.to_nat (v_line v - 1)) (split newline content) []))
       (v_line v) (e_path file) v.
Proof.
  intros Hread Hin.
  unfold _scan_python_file, _scan_shell_file in Hin. rewrite Hread in Hin.
  destruct Hin as [Hin | Hin].
  - apply scan_lines_well_formed in Hin;
      [exact Hin | intros; now apply check_python_well_formed].
  - apply scan_lines_well_formed in Hin;
      [exact Hin | intros; now apply check_shell_well_formed].
Qed.

(** X1. Every finding of the Python and shell scans of a readable file
    names that file, carries the number of one of its lines (counted
    from 1), quotes that line stripped of white space, and is of
    severity critical, high or medium. *)
Theorem scan_findings_located {R : PyRuntime}
    (file : entry) (content : str) (v : Vulnerability) :
  e_read file = inl content ->
  In v (_scan_python_file file) \/ In v (_scan_shell_file file) ->
  let lines := split newline content in
  v_file v = e_path file
  /\ 1 <= v_line v <= len lines
  /\ v_code v = Some (strip (nth (Z.to_nat (v_line v - 1)) lines []))
  /\ In (v_severity v) [Critical; High; Medium].
Proof.
  intros Hread Hin lines.
  destruct (readable_findings file content v Hread Hin)
    as [Hrange [Hf [_ [Hc Hs]]]].
  now repeat split.
Qed.

Lemma scan_findings_located_witness :
  let R := Examples.runtime (fun _ => inl []) in
  let v := rm_finding (py "rm -rf /") 1 (py "clean.sh") in
  v_file v = py "clean.sh"
  /\ 1 <= v_line v <= 2
  /\ v_code v = Some (py "rm -rf /")
  /\ In (v_severity v) [Critical; High; Medium].
Proof.
  intros R v.
  exact (@scan_findings_located R
           (text_file (py "clean.sh") Examples.wipe_script)
           Examples.wipe_script v eq_refl (or_intror (or_introl eq_refl))).
Defined.

(** X2. A scanned Python or shell file never gets more findings than
    it has lines, and the shell scan, like the Python scan, reports at
    most one finding for any line number. *)
Theorem scan_findings_bounded {R : PyRuntime} (file : entry) (content : str) :
  e_read file = inl content ->
  (List.length (_scan_python_file file)
   <= List.length (split newline content))%nat
  /\ (List.length (_scan_shell_file file)
      <= List.length (split newline content))%nat
  /\ forall i, (List.length (on_line i (_scan_shell_file file)) <= 1)%nat.
Proof.
  intro Hread. unfold _scan_python_file, _scan_shell_file. rewrite Hread.
  split; [apply scan_lines_length | split; [apply scan_lines_length |]].
  intro i.
  apply (scan_lines_from _check_shell_vulnerability (e_path file)
           (fun line i v => check_shell_line line i (e_path file) v)).
Qed.

Lemma scan_findings_bounded_witness :
  let R := Examples.runtime (fun _ => inl []) in
  let file := text_file (py "clean.sh") Examples.wipe_script in
  (List.length (_scan_python_file file) <= 2)%nat
  /\ (List.length (_scan_shell_file file) <= 2)%nat
  /\ forall i, (List.length (on_line i (_scan_shell_file file)) <= 1)%nat.
Proof.
  intros R file.
  exact (@scan_findings_bounded R file Examples.wipe_script eq_refl).
Defined.

Section WithRuntime2.
Context {R : PyRuntime}.

Lemma config_findings (file : entry) (content : str) (v : Vulnerability) :
  e_read file = inl content ->
  In v (_scan_config_file file) ->
  v_severity v = Medium /\ 1 <= v_line v.
Proof.
  intros Hread Hin. unfold _scan_config_file in Hin. rewrite Hread in Hin.
  apply in_flat_map in Hin. destruct Hin as [[i line] [Hpos Hv]].
  apply in_enumerate in Hpos. destruct Hpos as [Hrange _].
  destruct (existsb _ config_keywords); [| contradiction].
  destruct (contains (py "=") (strip line) || contains (py ":") (strip line));
    [| contradiction].
  destruct Hv as [<- | []]. simpl. split; [reflexivity | lia].
Qed.

End WithRuntime2.

(** X3. In the Python, shell and configuration scans of a file, a
    finding has severity info exactly when the file could not be read,
    and line number 0 exactly then too; a file that cannot be read gets
    that one finding and no other. *)
Theorem info_finding_means_unreadable {R : PyRuntime}
    (file : entry) (v : Vulnerability) :
  In v (_scan_python_file file) \/ In v (_scan_shell_file file)
  \/ In v (_scan_config_file file) ->
  (v_severity v = Info <-> exists e, e_read file = inr e)
  /\ (v_line v = 0 <-> exists e, e_read file = inr e)
  /\ ((exists e, e_read file = inr e) ->
      List.length (_scan_python_file file) = 1%nat
      /\ List.length (_scan_shell_file file) = 1%nat
      /\ List.length (_scan_config_file file) = 1%nat).
Proof.
  intro Hin. destruct (e_read file) as [content | e] eqn:Hread.
  - assert (Hfacts : v_severity v <> Info /\ v_line v <> 0).
    { destruct Hin as [Hin | [Hin | Hin]].
      - destruct (readable_findings file content v Hread (or_introl Hin))
          as [Hl [_ [_ [_ Hs]]]].
        split; [| lia]. intro Hi. rewrite Hi in Hs. simpl in Hs.
        intuition discriminate.
      - destruct (readable_findings file content v Hread (or_intror Hin))
          as [Hl [_ [_ [_ Hs]]]].
        split; [| lia]. intro Hi. rewrite Hi in Hs. simpl in Hs.
        intuition discriminate.
      - destruct (config_findings file content v Hread Hin) as [Hs Hl].
        split; [congruence | lia]. }
    destruct Hfacts as [Hs Hl].
    split; [| split].
    + split; [intro; contradiction | intros [e' He']; discriminate].
    + split; [intro; contradiction | intros [e' He']; discriminate].
    + intros [e' He']; discriminate.
  - unfold _scan_python_file, _scan_shell_file, _scan_config_file in *.
    rewrite Hread in *.
    assert (Hv : v_severity v = Info /\ v_line v = 0).
    { destruct Hin as [[<- | []] | [[<- | []] | [<- | []]]];
        split; reflexivity. }
    destruct Hv as [Hs Hl].
    split; [| split].
    + split; [intros _; now exists e | intros _; exact Hs].
    + split; [intros _; now exists e | intros _; exact Hl].
    + intros _. repeat split.
Qed.

Lemma info_finding_means_unreadable_witness :
  let R := Examples.runtime (fun _ => inl []) in
  let file :=
    {| e_path := py "locked.py"; e_is_file := true;
       e_read := inr (py "[Errno 13] Permission denied: 'locked.py'");
       e_stat := None |} in
  let v := unreadable_finding "Could not scan file: "
             "Check file permissions and encoding" (py "locked.py")
             (py "[Errno 13] Permission denied: 'locked.py'") in
  (v_severity v = Info <-> exists e, e_read file = inr e)
  /\ (v_line v = 0 <-> exists e, e_read file = inr e)
  /\ ((exists e, e_read file = inr e) ->
      List.length (_scan_python_file file) = 1%nat
      /\ List.length (_scan_shell_file file) = 1%nat
      /\ List.length (_scan_config_file file) = 1%nat).
Proof.
  intros R file v.
  exact (@info_finding_means_unreadable R file v (or_introl (or_introl eq_refl))).
Defined.

Lemma flat_map_nil {A B} (f : A -> list B) (l : list A) :
  flat_map f l = [] <-> forall x, In x l -> f x = [].
Proof.
  induction l as [| a l IH]; simpl.
  - split; [intros _ x Hin; contradiction | reflexivity].
  - split.
    + intros Happ x [<- | Hin].
      * now destruct (app_eq_nil _ _ Happ).
      * apply IH; [now destruct (app_eq_nil _ _ Happ) | exact Hin].
    + intro Hall. rewrite (Hall a (or_introl eq_refl)). simpl.
      apply IH. intros x Hin. apply Hall. now right.
Qed.

(** X4. The general pass of the security scan returns nothing exactly
    when no regular file of the tree is writable by everyone or larger
    than 100 MiB (a file of exactly 100 MiB is not flagged, and a path
    that is no regular file or has no [stat] never is); each of its
    findings has line number 0, severity medium or low, and names a
    flagged file. *)
Theorem general_pass_flags_metadata (fs : project) :
  (scan_general_security (__init__ fs) = None
   <-> forall file, In file fs -> flagged_by_metadata file = false)
  /\ forall report v,
       scan_general_security (__init__ fs) = Some report ->
       In v (pass_vulnerabilities report) ->
       v_line v = 0
       /\ (v_severity v = Medium \/ v_severity v = Low)
       /\ exists file,
            In file fs /\ flagged_by_metadata file = true
            /\ v_file v = e_path file.
Proof.
  unfold scan_general_security, glob_all.
  cbn [project_root __init__].
  set (writable := fun file_path : entry => _).
  set (large := fun file_path : entry => _).
  assert (Hboth : forall file,
             (writable file = [] /\ large file = [])
             <-> flagged_by_metadata file = false).
  { intro file. unfold writable, large, flagged_by_metadata.
    destruct (e_is_file file); [| now repeat split].
    destruct (e_stat file) as [st |]; [| now repeat split].
    cbn [andb].
    replace (100 * 1024 * 1024)%N with 104857600%N by reflexivity.
    destruct (N.land (st_mode st) 2 =? 0)%N;
      destruct (104857600 <? st_size st)%N; cbn;
      (split;
       [intros [Hw Hl]; try discriminate; reflexivity
       | intro Hf; try discriminate; split; reflexivity]). }
  split.
  - destruct (flat_map writable fs ++ flat_map large fs) as [| x l] eqn:E.
    + split; [intros _ | reflexivity].
      apply app_eq_nil in E. destruct E as [Hw Hl].
      intros file Hin. apply Hboth. split.
      * exact (proj1 (flat_map_nil writable fs) Hw file Hin).
      * exact (proj1 (flat_map_nil large fs) Hl file Hin).
    + split; [discriminate |]. intro Hall. exfalso.
      assert (Hnil : flat_map writable fs ++ flat_map large fs = []).
      { rewrite (proj2 (flat_map_nil writable fs)),
                (proj2 (flat_map_nil large fs)); [reflexivity | |];
          intros file Hin; now apply Hboth, Hall. }
      congruence.
  - intros report v Hrep Hin.
    assert (Hv : In v (flat_map writable fs ++ flat_map large fs)).
    { destruct (flat_map writable fs ++ flat_map large fs) as [| x l];
        [discriminate |].
      injection Hrep as <-. exact Hin. }
    apply in_app_or in Hv.
    destruct Hv as [Hv | Hv]; apply in_flat_map in Hv;
      destruct Hv as [file [Hfile Hv]];
      assert (Hflag : flagged_by_metadata file = true)
        by (destruct (flagged_by_metadata file) eqn:Ef; [reflexivity |];
            apply Hboth in Ef; destruct Ef as [Ew El];
            rewrite ?Ew, ?El in Hv; contradiction).
    + unfold writable in Hv.
      destruct (e_is_file file); [| contradiction].
      destruct (e_stat file) as [st |]; [| contradiction].
      destruct (negb _); [| contradiction].
      destruct Hv as [<- | []].
      split; [reflexivity | split; [now left |]].
      exists file. now repeat split.
    + unfold large in Hv.
      destruct (e_is_file file); [| contradiction].
      destruct (e_stat file) as [st |]; [| contradiction].
      destruct (_ <? _)%N; [| contradiction].
      destruct Hv as [<- | []].
      split; [reflexivity | split; [now right |]].
      exists file. now repeat split.
Qed.

Lemma general_pass_flags_metadata_witness :
  scan_general_security (__init__ [Examples.notes]) = None
  /\ exists report,
       scan_general_security (__init__ [Examples.notes_writable])
       = Some report
       /\ map v_severity (pass_vulnerabilities report) = [Medium].
Proof.
  split.
  - apply (proj1 (general_pass_flags_metadata [Examples.notes])).
    intros file [<- | []]. reflexivity.
  - eexists. split; reflexivity.
Defined.

End ScannerProperties.

(** ** The analyzer scripts as the orchestrator uses them *)

Module ScriptPathProperties.
Import MoreSpec.

(** X5. Whatever tree the security scanner scanned, its summary counts
    no vulnerability, its recommendations are the all-clear followed by
    the standing advice, and the security gate that reads its report
    back passes. *)
Theorem scanner_report_always_passes
    {R : PyRuntime} {H : QualityGateManager.Host} (tree fs : project) :
  let report :=
    SecurityScanner.scan_all_files (SecurityScanner.__init__ tree) in
  QualityGateManager.security_script =
    QualityGateManager.Exited 0
      (Some (QualityGateManager.load_report report)) ->
  SecurityScanner.total_vulnerabilities (SecurityScanner.r_summary report) = 0
  /\ SecurityRecommendations._generate_recommendations
       (SecurityScanner.__init__ tree) =
     SecurityRecommendations.none_found
     :: SecurityRecommendations.standing_advice
  /\ QualityGateManager.s_status
       (QualityGateManager.run_security_scanning
          (QualityGateManager.__init__ fs)) = Passed.
Proof.
  intros report Hscript.
  split; [reflexivity | split; [reflexivity |]].
  unfold QualityGateManager.run_security_scanning.
  rewrite Hscript. reflexivity.
Qed.

Lemma scanner_report_always_passes_witness :
  let R := Examples.runtime (fun _ => inl []) in
  let report :=
    SecurityScanner.scan_all_files
      (SecurityScanner.__init__ Examples.wipe_project) in
  let H := Examples.host
             (QualityGateManager.Exited 0
                (Some (QualityGateManager.load_report report)))
             QualityGateManager.Missing in
  QualityGateManager.s_status
    (QualityGateManager.run_security_scanning
       (QualityGateManager.__init__ Examples.wipe_project)) = Passed.
Proof.
  intros R report H.
  exact (proj2 (proj2 (@scanner_report_always_passes R H
                         Examples.wipe_project Examples.wipe_project
                         eq_refl))).
Defined.

(** X6. Whatever tree the review looked at, its score is 100, its
    first recommendation is the praise for excellent code, followed
    only by the standing advice, and the review gate that reads its
    report back passes with that score. *)
Theorem review_report_always_passes
    {R : PyRuntime} {H : QualityGateManager.Host} (tree fs : project)
    (recommendations : list str) :
  let report :=
    CodeReviewAutomator.run_full_review (CodeReviewAutomator.__init__ tree) in
  QualityGateManager.review_script =
    QualityGateManager.Exited 0 (Some (load_review report recommendations)) ->
  CodeReviewAutomator.r_score report = 100
  /\ ReviewRecommendations._generate_recommendations
       (CodeReviewAutomator.__init__ tree) =
     ReviewRecommendations.excellent
     :: ReviewRecommendations.standing_advice
  /\ QualityGateManager.r_status
       (QualityGateManager.run_code_review_checks
          (QualityGateManager.__init__ fs)) = Passed.
Proof.
  intros report Hscript.
  split; [reflexivity | split; [reflexivity |]].
  unfold QualityGateManager.run_code_review_checks.
  rewrite Hscript. reflexivity.
Qed.

Lemma review_report_always_passes_witness :
  let R := Examples.runtime (fun _ => inl []) in
  let report :=
    CodeReviewAutomator.run_full_review
      (CodeReviewAutomator.__init__ Examples.greeting_project) in
  let H := Examples.host QualityGateManager.Missing
             (QualityGateManager.Exited 0 (Some (load_review report []))) in
  QualityGateManager.r_status
    (QualityGateManager.run_code_review_checks
       (QualityGateManager.__init__ Examples.greeting_project)) = Passed.
Proof.
  intros R report H.
  exact (proj2 (proj2 (@review_report_always_passes R H
                         Examples.greeting_project Examples.greeting_project
                         [] eq_refl))).
Defined.

End ScriptPathProperties.

(** ** Further properties of the review score *)

Module ScoreBandProperties.
Import CodeReviewAutomator ReviewRecommendations.

Lemma len_zero_nil {A} (l : list A) : len l = 0 <-> l = [].
Proof.
  unfold len. destruct l; simpl; split; intro Hl;
    try reflexivity; try discriminate; lia.
Qed.

(** X7. The floor at 0 never binds: the score is 100 minus the capped
    deductions. It is 0 exactly when every category has reached its cap
    (20 style, 4 logic, 2 security, 7 performance, 10 maintainability
    findings), and 100 exactly when [self.issues] holds no finding. *)
Theorem score_floor_never_binds (self : CodeReviewAutomator) :
  let n c := len (issues_of (issues self) c) in
  _calculate_score self =
    100 - Z.min (n Style * 1) 20 - Z.min (n Logic * 5) 20
        - Z.min (n Security * 10) 20 - Z.min (n Performance * 3) 20
        - Z.min (n Maintainability * 2) 20
  /\ (_calculate_score self = 0
      <-> 20 <= n Style /\ 4 <= n Logic /\ 2 <= n Security
          /\ 7 <= n Performance /\ 10 <= n Maintainability)
  /\ (_calculate_score self = 100
      <-> forall c, issues_of (issues self) c = []).
Proof.
  intro n.
  assert (Hform : _calculate_score self =
            Z.max 0 (100 - Z.min (n Style * 1) 20 - Z.min (n Logic * 5) 20
                     - Z.min (n Security * 10) 20
                     - Z.min (n Performance * 3) 20
                     - Z.min (n Maintainability * 2) 20)) by reflexivity.
  assert (Hpos : forall c, 0 <= n c) by (intro c; unfold n, len; lia).
  pose proof (Hpos Style). pose proof (Hpos Logic). pose proof (Hpos Security).
  pose proof (Hpos Performance). pose proof (Hpos Maintainability).
  split; [lia | split].
  - lia.
  - split.
    + intros Hs c. apply len_zero_nil. fold (n c). destruct c; lia.
    + intro Hall.
      assert (Hz : forall c, n c = 0)
        by (intro c; unfold n; now rewrite Hall).
      rewrite Hform, !Hz. reflexivity.
Qed.

Lemma Qle_bool_inject (a b : Z) :
  Qle_bool (inject_Z a) (inject_Z b) = (a <=? b).
Proof. unfold Qle_bool, inject_Z. simpl. now rewrite !Z.mul_1_r. Qed.

Lemma verdicts_differ :
  excellent <> good /\ excellent <> needs_attention
  /\ excellent <> requires_improvements /\ good <> needs_attention
  /\ good <> requires_improvements
  /\ needs_attention <> requires_improvements.
Proof.
  repeat split; intro Hq;
    apply (f_equal (fun s : str => hd 0%N s)) in Hq;
    vm_compute in Hq; discriminate.
Qed.

(** X8. The bands of the review's verdict and the thresholds of the
    review gate agree: when the gate reads back a report that carries
    the score of [_calculate_score], it passes exactly when the first
    recommendation praises excellent code (score 90 or more), warns
    exactly when it calls the code good (75 to 89), and fails exactly
    when it asks for attention or for significant improvements. *)
Theorem review_bands_match_gate
    {R : PyRuntime} {H : QualityGateManager.Host}
    (self : CodeReviewAutomator) (fs : project) (recommendations : list str) :
  QualityGateManager.review_script =
    QualityGateManager.Exited 0
      (Some {| QualityGateManager.rd_score :=
                 Some (inject_Z (_calculate_score self));
               QualityGateManager.rd_recommendations :=
                 Some recommendations |}) ->
  let status :=
    QualityGateManager.r_status
      (QualityGateManager.run_code_review_checks
         (QualityGateManager.__init__ fs)) in
  let verdict := hd_error (_generate_recommendations self) in
  (status = Passed <-> verdict = Some excellent)
  /\ (status = Warning <-> verdict = Some good)
  /\ (status = Failed
      <-> verdict = Some needs_attention
          \/ verdict = Some requires_improvements).
Proof.
  intros Hscript status verdict.
  assert (Hstatus : status =
            if 90 <=? _calculate_score self then Passed
            else if 75 <=? _calculate_score self then Warning else Failed).
  { subst status. unfold QualityGateManager.run_code_review_checks.
    rewrite Hscript. cbn [Z.eqb QualityGateManager.rd_score
                          QualityGateManager.rd_recommendations].
    cbv iota beta. rewrite andb_false_r.
    cbn [QualityGateManager.r_status]. now rewrite !Qle_bool_inject. }
  assert (Hverdict : verdict = Some
            (if _calculate_score self >=? 90 then excellent
             else if _calculate_score self >=? 75 then good
             else if _calculate_score self >=? 60 then needs_attention
             else requires_improvements)) by reflexivity.
  rewrite Hstatus, Hverdict. rewrite !Z.geb_leb.
  destruct verdicts_differ as [D1 [D2 [D3 [D4 [D5 D6]]]]].
  destruct (90 <=? _calculate_score self);
    [| destruct (75 <=? _calculate_score self);
       [| destruct (60 <=? _calculate_score self)]];
    repeat split; intro Hq; try reflexivity; try discriminate;
    try (injection Hq as Hq; congruence);
    try (destruct Hq as [Hq | Hq]; injection Hq as Hq; congruence);
    auto.
Qed.

Lemma review_bands_match_gate_witness :
  let R := Examples.runtime (fun _ => inl []) in
  let f := finding (py "a.sh") 1 Logic Medium (py "x") (py "y") in
  let self :=
    {| project_root := [];
       issues := add_issue Logic f
                   (add_issue Logic f
                      (add_issue Logic f (issues (__init__ [])))) |} in
  let H := Examples.host QualityGateManager.Missing
             (QualityGateManager.Exited 0
                (Some {| QualityGateManager.rd_score :=
                           Some (inject_Z (_calculate_score self));
                         QualityGateManager.rd_recommendations :=
                           Some [] |})) in
  _calculate_score self = 85
  /\ QualityGateManager.r_status
       (QualityGateManager.run_code_review_checks
          (QualityGateManager.__init__ [])) = Warning
  /\ hd_error (_generate_recommendations self) = Some good.
Proof.
  intros R f self H.
  split; [reflexivity |].
  pose proof (@review_bands_match_gate R H self [] [] eq_refl)
    as [_ [Hwarn _]].
  split; [reflexivity | apply Hwarn; reflexivity].
Defined.

End ScoreBandProperties.

(** ** Further properties of the complexity analyzer *)

Module AnalyzerProperties.
Import ComplexityAnalyzer ComplexitySpec ComplexityProperties MoreSpec.

Lemma line_score_nonneg (line : str) : 0 <= line_score line.
Proof.
  unfold line_score.
  pose proof (count_nonneg (py " and ") line).
  pose proof (count_nonneg (py " or ") line).
  destruct (existsb _ branch_keywords); destruct (contains _ line); lia.
Qed.

Lemma sum_scores_nonneg (lines : list str) :
  0 <= sum_Z (map (fun line => line_score (strip line)) lines).
Proof.
  unfold sum_Z.
  induction lines as [| l lines IH]; cbn [map fold_right]; [lia |].
  pose proof (line_score_nonneg (strip l)). lia.
Qed.

Lemma sum_scores_app (l1 l2 : list str) :
  sum_Z (map (fun line => line_score (strip line)) (l1 ++ l2)) =
  sum_Z (map (fun line => line_score (strip line)) l1)
  + sum_Z (map (fun line => line_score (strip line)) l2).
Proof.
  unfold sum_Z.
  induction l1 as [| l l1 IH]; cbn [app map fold_right]; lia.
Qed.

Lemma complexity_sum (lines : list str) :
  _calculate_cyclomatic_complexity lines =
  1 + sum_Z (map (fun line => line_score (strip line)) lines).
Proof. unfold _calculate_cyclomatic_complexity. apply fold_cyclomatic. Qed.

(** X9. The cyclomatic score of no lines is 1 and no score is less; the
    score of two runs of lines put together is the sum of their scores
    less 1; lines that are blank once stripped add nothing. *)
Theorem cyclomatic_complexity_additive (l1 l2 : list str) :
  _calculate_cyclomatic_complexity [] = 1
  /\ 1 <= _calculate_cyclomatic_complexity l1
  /\ _calculate_cyclomatic_complexity (l1 ++ l2) =
     _calculate_cyclomatic_complexity l1
     + _calculate_cyclomatic_complexity l2 - 1
  /\ (Forall (fun line => strip line = []) l2 ->
      _calculate_cyclomatic_complexity (l1 ++ l2) =
      _calculate_cyclomatic_complexity l1).
Proof.
  rewrite !complexity_sum, sum_scores_app.
  pose proof (sum_scores_nonneg l1).
  split; [reflexivity | split; [lia | split; [lia |]]].
  intro Hblank.
  assert (Hz : sum_Z (map (fun line => line_score (strip line)) l2) = 0).
  { unfold sum_Z.
    induction Hblank as [| l l2 Hl Hrest IH]; cbn [map fold_right];
      [reflexivity |].
    rewrite Hl, IH. reflexivity. }
  lia.
Qed.

Lemma cyclomatic_complexity_additive_witness :
  _calculate_cyclomatic_complexity
    ([py "if a and b:"; py "    pass"] ++ [py "   "; []]) =
  _calculate_cyclomatic_complexity [py "if a and b:"; py "    pass"].
Proof.
  apply (cyclomatic_complexity_additive
           [py "if a and b:"; py "    pass"] [py "   "; []]).
  repeat constructor.
Defined.

Lemma len_slice {A} (l : list A) (a b : Z) :
  len (slice l a b) =
  Z.max 0 (clamp_index (len l) b - clamp_index (len l) a).
Proof.
  unfold slice, len.
  rewrite length_firstn, length_skipn.
  fold (len l). unfold clamp_index.
  assert (0 <= len l) by (unfold len; lia).
  unfold len in *.
  destruct (a <? 0) eqn:Ea; destruct (b <? 0) eqn:Eb; lia.
Qed.

(** X10. The metrics [_analyze_python_function] gives for a function
    whose node carries its end line: the length is never negative nor
    more than the file has lines; it is the span of the node, end line
    less first line plus 1, when the span lies within the file; and
    the complexity is 1 or more. *)
Theorem function_metrics_bounds (name : str) (lineno end_lineno nargs : Z)
    (lines : list str) :
  let m :=
    _analyze_python_function name lineno (Some end_lineno) nargs lines in
  0 <= fn_lines m <= len lines
  /\ (1 <= lineno <= end_lineno -> end_lineno <= len lines ->
      fn_lines m = end_lineno - lineno + 1)
  /\ 1 <= get_complexity m.
Proof.
  intro m. subst m. unfold _analyze_python_function.
  cbn [fn_lines get_complexity fn_complexity].
  assert (Hn : 0 <= len lines) by (unfold len; lia).
  split; [| split].
  - rewrite len_slice. unfold clamp_index.
    repeat match goal with |- context [if ?c then _ else _] =>
      destruct c end; lia.
  - intros Hspan Hend. rewrite len_slice. unfold clamp_index.
    repeat match goal with |- context [if ?c then _ else _] =>
      destruct c eqn:? end; lia.
  - rewrite complexity_sum.
    match goal with |- context [sum_Z (map ?f ?l)] =>
      pose proof (sum_scores_nonneg l) end.
    lia.
Qed.

Lemma function_metrics_bounds_witness :
  let lines := split newline Examples.sized_source in
  fn_lines (_analyze_python_function (py "f") 1 (Some 50) 1 lines) = 50.
Proof.
  intro lines.
  pose proof (function_metrics_bounds (py "f") 1 50 1 lines)
    as [_ [Hspan _]].
  apply Hspan; [lia | vm_compute; discriminate].
Defined.

Section WithRuntime.
Context {R : PyRuntime}.

(** What one file adds to the report of the Python pass. *)
Lemma fold_analyze_lists (self : ComplexityAnalyzer)
    (analyze : entry -> file_result + exn) (l : list entry) :
  forall results,
    let r := fold_left (analyze_step self analyze) l results in
    file_count r = file_count results
    /\ files r =
       files results
       ++ flat_map (fun file => match analyze file with
                                | inl fr => [fr]
                                | inr _ => []
                                end) l
    /\ complex_functions r =
       complex_functions results
       ++ flat_map (fun file =>
             match analyze file with
             | inl fr =>
                 flat_map (fun func =>
                             if get_complexity func >? cyclomatic (thresholds self)
                             then [complex_entry_of file func] else [])
                          (functions fr)
             | inr _ => []
             end) l
    /\ long_functions r =
       long_functions results
       ++ flat_map (fun file =>
             match analyze file with
             | inl fr =>
                 flat_map (fun func =>
                             if fn_lines func >? lines_per_function (thresholds self)
                             then [long_function_entry_of file func] else [])
                          (functions fr)
             | inr _ => []
             end) l
    /\ long_files r =
       long_files results
       ++ flat_map (fun file =>
             match analyze file with
             | inl fr =>
                 if total_lines fr >? lines_per_file (thresholds self)
                 then [long_file_entry_of file fr] else []
             | inr _ => []
             end) l.
Proof.
  induction l as [| file l IH]; intro results; cbn zeta.
  - cbn [fold_left flat_map]. now rewrite !app_nil_r.
  - cbn [fold_left flat_map].
    destruct (IH (analyze_step self analyze results file))
      as [Hc [Hf [Hx [Hl Hg]]]].
    rewrite Hc, Hf, Hx, Hl, Hg. unfold analyze_step.
    destruct (analyze file) as [fr | e];
      cbn [file_count files complex_functions long_functions long_files];
      now rewrite ?app_nil_l, <- ?app_assoc.
Qed.

Lemma in_flat_map_intro {A B} (f : A -> list B) (l : list A) (x : A) (y : B) :
  In x l -> In y (f x) -> In y (flat_map f l).
Proof. intros Hx Hy. apply in_flat_map. now exists x. Qed.

End WithRuntime.

(** X11. The sizing checks of the Python pass miss nothing: every file
    that is analysed is listed, with a [long_files] entry when its
    [total_lines] (the pieces of its content split at newlines) are
    more than 300, whether or not it holds a function; and each of its
    functions has a [complex_functions] entry when its score is above
    10 and a [long_functions] entry when it is longer than 50 lines. *)
Theorem sizing_checks_complete {R : PyRuntime}
    (fs : project) (report : language_report)
    (file : entry) (fr : file_result) :
  analyze_python_files (__init__ fs) = Some report ->
  In file (glob_suffix ".py" fs) ->
  _analyze_python_file file = inl fr ->
  In fr (files report)
  /\ (total_lines fr > 300 ->
      In (long_file_entry_of file fr) (long_files report))
  /\ forall func : function_metrics,
       In func (functions fr) ->
       (get_complexity func > 10 ->
        In (complex_entry_of file func) (complex_functions report))
       /\ (fn_lines func > 50 ->
           In (long_function_entry_of file func) (long_functions report)).
Proof.
  intros Hrep Hfile Hfr.
  unfold analyze_python_files in Hrep.
  change (project_root (__init__ fs)) with fs in Hrep.
  destruct (glob_suffix ".py" fs) as [| f l] eqn:E; [contradiction |].
  assert (Hfold : fold_left (analyze_step (__init__ fs) _analyze_python_file)
                    (f :: l) (empty_report (len (f :: l))) = report)
    by (injection Hrep as Hrep; exact Hrep).
  pose proof (fold_analyze_lists (__init__ fs) _analyze_python_file (f :: l)
                (empty_report (len (f :: l)))) as Hlists.
  cbv zeta in Hlists. rewrite Hfold in Hlists.
  destruct Hlists as [_ [Hf [Hx [Hl Hg]]]].
  rewrite Hf, Hx, Hl, Hg. cbn [empty_report files complex_functions
                               long_functions long_files app thresholds
                               __init__ cyclomatic lines_per_function
                               lines_per_file].
  split; [| split].
  - apply (in_flat_map_intro _ _ file); [exact Hfile |].
    rewrite Hfr. now left.
  - intro Hgt. apply (in_flat_map_intro _ _ file); [exact Hfile |].
    rewrite Hfr.
    destruct (total_lines fr >? 300) eqn:Hc; [now left | lia].
  - intros func Hfunc. split.
    + intro Hgt. apply (in_flat_map_intro _ _ file); [exact Hfile |].
      rewrite Hfr. apply (in_flat_map_intro _ _ func); [exact Hfunc |].
      destruct (get_complexity func >? 10) eqn:Hc; [now left | lia].
    + intro Hgt. apply (in_flat_map_intro _ _ file); [exact Hfile |].
      rewrite Hfr. apply (in_flat_map_intro _ _ func); [exact Hfunc |].
      destruct (fn_lines func >? 50) eqn:Hc; [now left | lia].
Qed.

(** At a file without any function that the analyzer counts as 301
    lines, and at a file whose one function has score 12. *)
Lemma sizing_checks_complete_witness :
  (let R := Examples.runtime (fun _ => inl Examples.full_tree) in
   exists report fr,
     analyze_python_files (__init__ Examples.full_project) = Some report
     /\ _analyze_python_file Examples.full_file = inl fr
     /\ functions fr = []
     /\ In (long_file_entry_of Examples.full_file fr) (long_files report))
  /\ (let R := Examples.runtime (fun _ => inl MoreExamples.tangled_tree) in
      exists report func,
        analyze_python_files (__init__ [MoreExamples.tangled_file])
        = Some report
        /\ get_complexity func = 12
        /\ In (complex_entry_of MoreExamples.tangled_file func)
              (complex_functions report)).
Proof.
  split.
  - intro R.
    destruct (analyze_python_files (__init__ Examples.full_project))
      as [report |] eqn:Hrep; [| vm_compute in Hrep; discriminate].
    destruct (_analyze_python_file Examples.full_file)
      as [fr | e] eqn:Hfr; [| vm_compute in Hfr; discriminate].
    assert (Hshape : functions fr = [] /\ total_lines fr = 301).
    { vm_compute in Hfr. injection Hfr as <-. split; reflexivity. }
    destruct Hshape as [Hnone Htotal].
    exists report, fr.
    split; [reflexivity | split; [reflexivity | split; [exact Hnone |]]].
    destruct (sizing_checks_complete Examples.full_project report
                Examples.full_file fr Hrep (or_introl eq_refl) Hfr)
      as [_ [Hlong _]].
    apply Hlong. rewrite Htotal. reflexivity.
  - intro R.
    destruct (analyze_python_files (__init__ [MoreExamples.tangled_file]))
      as [report |] eqn:Hrep; [| vm_compute in Hrep; discriminate].
    destruct (_analyze_python_file MoreExamples.tangled_file)
      as [fr | e] eqn:Hfr; [| vm_compute in Hfr; discriminate].
    set (func := _analyze_python_function (py "g") 1 (Some 12) 1
                   (split newline MoreExamples.tangled_source)).
    assert (Hfunc : In func (functions fr)).
    { vm_compute in Hfr. injection Hfr as <-. left. reflexivity. }
    exists report, func. split; [reflexivity | split; [reflexivity |]].
    destruct (sizing_checks_complete [MoreExamples.tangled_file] report
                MoreExamples.tangled_file fr Hrep
                (or_introl eq_refl) Hfr) as [_ [_ Hfuncs]].
    apply (Hfuncs func Hfunc). reflexivity.
Defined.

Section WithRuntime3.
Context {R : PyRuntime}.

Lemma analyze_python_file_names (file : entry) (fr : file_result) :
  _analyze_python_file file = inl fr -> fr_file fr = e_path file.
Proof.
  unfold _analyze_python_file.
  destruct (e_read file); [| discriminate].
  destruct (ast_parse _); [| discriminate].
  intro Hfr. injection Hfr as <-. reflexivity.
Qed.

Lemma analysed_names (l : list entry) :
  map fr_file
      (flat_map (fun file => match _analyze_python_file file with
                             | inl fr => [fr]
                             | inr _ => []
                             end) l) =
  map e_path (filter analysable l).
Proof.
  induction l as [| file l IH]; [reflexivity |].
  cbn [flat_map filter]. unfold analysable at 1.
  destruct (_analyze_python_file file) as [fr | e] eqn:Hfr.
  - cbn [app map]. rewrite IH.
    now rewrite (analyze_python_file_names file fr Hfr).
  - exact IH.
Qed.

End WithRuntime3.

(** X12. In the report of the Python pass [file_count] counts every
    Python file of the tree, while [files] lists, in order, only those
    that could be read and parsed: a file whose analysis raises is
    counted but not listed. *)
Theorem analysed_files_listed {R : PyRuntime}
    (fs : project) (report : language_report) :
  analyze_python_files (__init__ fs) = Some report ->
  file_count report = len (glob_suffix ".py" fs)
  /\ map fr_file (files report) =
     map e_path (filter analysable (glob_suffix ".py" fs))
  /\ len (files report) <= file_count report.
Proof.
  intro Hrep. unfold analyze_python_files in Hrep.
  change (project_root (__init__ fs)) with fs in Hrep.
  destruct (glob_suffix ".py" fs) as [| f l] eqn:E; [discriminate |].
  assert (Hfold : fold_left (analyze_step (__init__ fs) _analyze_python_file)
                    (f :: l) (empty_report (len (f :: l))) = report)
    by (injection Hrep as Hrep; exact Hrep).
  pose proof (fold_analyze_lists (__init__ fs) _analyze_python_file (f :: l)
                (empty_report (len (f :: l)))) as Hlists.
  cbv zeta in Hlists. rewrite Hfold in Hlists.
  destruct Hlists as [Hc [Hf _]].
  cbn [empty_report file_count files app] in Hc, Hf.
  assert (Hnames : map fr_file (files report) =
                   map e_path (filter analysable (f :: l)))
    by (rewrite Hf; apply analysed_names).
  split; [exact Hc | split; [exact Hnames |]].
  rewrite Hc. unfold len.
  rewrite <- (length_map fr_file), Hnames, length_map.
  pose proof (filter_length_le analysable (f :: l)). lia.
Qed.

Lemma analysed_files_listed_witness :
  let R := Examples.runtime Examples.broken_parse in
  exists report,
    analyze_python_files (__init__ Examples.broken_project) = Some report
    /\ file_count report = 1
    /\ map fr_file (files report) = [].
Proof.
  intro R. eexists. split; [reflexivity |].
  destruct (analysed_files_listed Examples.broken_project _ eq_refl)
    as [Hc [Hf _]].
  split; [exact Hc | exact Hf].
Defined.

Section WithRuntime4.
Context {R : PyRuntime}.

(** A report without complex functions whose listed functions carry no
    complexity. *)
Lemma shell_step_plain (self : ComplexityAnalyzer)
    (results : language_report) (file : entry) :
  plain results -> plain (analyze_shell_step self results file).
Proof.
  intros [Hc Hf]. unfold analyze_shell_step.
  destruct (_analyze_shell_file file) as [fr | e] eqn:Hfr;
    [| now split].
  split; [exact Hc |].
  cbn [files]. intros fr' func Hin Hfunc.
  apply in_app_or in Hin. destruct Hin as [Hin | [<- | []]];
    [now apply (Hf fr') |].
  unfold _analyze_shell_file in Hfr.
  destruct (e_read file) as [content | e]; [| discriminate].
  injection Hfr as <-. cbn [functions] in Hfunc.
  apply in_flat_map in Hfunc. destruct Hfunc as [[i line] [_ Hfunc]].
  destruct (re_match pat_shell_function (strip line)); [| contradiction].
  destruct Hfunc as [<- | []]. reflexivity.
Qed.

Lemma fold_shell_plain (self : ComplexityAnalyzer) (l : list entry) :
  forall results,
    plain results -> plain (fold_left (analyze_shell_step self) l results).
Proof.
  induction l as [| file l IH]; intros results Hp; [exact Hp |].
  cbn [fold_left]. apply IH. now apply shell_step_plain.
Qed.

End WithRuntime4.

(** X13. The shell pass never reports a complex function: its
    [complex_functions] list is empty whatever the scripts hold, and
    the functions it lists carry no complexity at all. *)
Theorem shell_pass_never_complex {R : PyRuntime}
    (fs : project) (report : language_report) :
  analyze_shell_files (__init__ fs) = Some report ->
  complex_functions report = []
  /\ forall fr func,
       In fr (files report) -> In func (functions fr) ->
       fn_complexity func = None.
Proof.
  intro Hrep. unfold analyze_shell_files in Hrep.
  destruct (glob_suffix ".sh" (project_root (__init__ fs))) as [| f l];
    [discriminate |].
  assert (Hfold : fold_left (analyze_shell_step (__init__ fs)) (f :: l)
                    (empty_report (len (f :: l))) = report)
    by (injection Hrep as Hrep; exact Hrep).
  rewrite <- Hfold. apply fold_shell_plain.
  split; [reflexivity | intros fr func Hin; contradiction].
Qed.

Lemma shell_pass_never_complex_witness :
  let R := Examples.runtime (fun _ => inl []) in
  exists report,
    analyze_shell_files (__init__ Examples.greeting_project) = Some report
    /\ len (files report) = 1
    /\ complex_functions report = [].
Proof.
  intro R. eexists. split; [reflexivity | split; [reflexivity |]].
  exact (proj1 (shell_pass_never_complex Examples.greeting_project _
                  eq_refl)).
Defined.

Lemma nth_skipn_add {A} (l : list A) (k n : nat) (d : A) :
  nth n (skipn k l) d = nth (k + n) l d.
Proof.
  revert l. induction k as [| k IH]; intro l; [reflexivity |].
  destruct l as [| x l]; [now destruct n | apply IH].
Qed.

Lemma find_end_from_bounds (lines : list str) :
  forall (i brace_count e : Z),
    find_end_from lines i brace_count = Some e ->
    i <= e < i + len lines
    /\ contains (py "}") (strip (nth (Z.to_nat (e - i)) lines [])) = true.
Proof.
  unfold len.
  induction lines as [| l lines IH]; intros i bc e Hfind;
    cbn [find_end_from] in Hfind; [discriminate |].
  destruct ((bc + (count (py "{") (strip l) - count (py "}") (strip l))
             =? 0)
            && contains (py "}") (strip l)) eqn:Hhere.
  - injection Hfind as <-. split; [cbn [List.length]; lia |].
    replace (i - i) with 0 by lia.
    now apply andb_true_iff in Hhere.
  - apply IH in Hfind. destruct Hfind as [Hrange Hc].
    split; [cbn [List.length]; lia |].
    replace (Z.to_nat (e - i)) with (S (Z.to_nat (e - (i + 1)))) by lia.
    exact Hc.
Qed.

(** X14. When [_find_shell_function_end] finds the end of a function
    that starts at a valid index, the end lies at or after the start
    and within the file, and the line there holds a closing brace. *)
Theorem shell_function_end_bounds (lines : list str) (start_idx e : Z) :
  0 <= start_idx ->
  _find_shell_function_end lines start_idx = Some e ->
  start_idx <= e < len lines
  /\ contains (py "}") (strip (nth (Z.to_nat e) lines [])) = true.
Proof.
  intros Hstart Hfind. unfold _find_shell_function_end in Hfind.
  apply find_end_from_bounds in Hfind. destruct Hfind as [Hrange Hc].
  rewrite nth_skipn_add in Hc.
  replace (Z.to_nat start_idx + Z.to_nat (e - start_idx))%nat
    with (Z.to_nat e) in Hc by lia.
  split; [| exact Hc].
  unfold len in *. rewrite length_skipn in Hrange. lia.
Qed.

Lemma shell_function_end_bounds_witness :
  _find_shell_function_end MoreExamples.shell_function_lines 0 = Some 2
  /\ 0 <= 2 < len MoreExamples.shell_function_lines.
Proof.
  split; [reflexivity |].
  exact (proj1 (shell_function_end_bounds MoreExamples.shell_function_lines
                  0 2 (Z.le_refl 0) eq_refl)).
Defined.

Lemma estimate_from_bounds (lines : list str) :
  forall (fuel : nat) (offset brace_count n : Z),
    estimate_from lines fuel offset brace_count = Some n ->
    offset < n <= offset + Z.of_nat (Nat.min fuel (List.length lines)).
Proof.
  induction lines as [| l lines IH]; intros fuel offset bc n Hest.
  - destruct fuel; discriminate.
  - destruct fuel as [| k]; [discriminate |].
    cbn [estimate_from] in Hest.
    destruct ((bc + (count (py "{") (strip l) - count (py "}") (strip l))
               =? 0)
              && contains (py "}") (strip l)).
    + injection Hest as <-. cbn [List.length Nat.min]. lia.
    + apply IH in Hest. cbn [List.length]. lia.
Qed.

Lemma estimate_bounds (lines : list str) (start_idx : Z) :
  0 <= start_idx < len lines ->
  1 <= _estimate_js_function_length lines start_idx <= 100
  /\ _estimate_js_function_length lines start_idx <= len lines - start_idx.
Proof.
  intro Hstart. unfold _estimate_js_function_length.
  destruct (estimate_from _ 100 0 0) as [n |] eqn:Hest.
  - apply estimate_from_bounds in Hest.
    rewrite length_skipn in Hest. unfold len in *. lia.
  - lia.
Qed.

Lemma fold_js_bounds (lines : list str) :
  forall acc,
    acc <= fold_left js_step lines acc <= acc + 2 * len lines.
Proof.
  unfold len.
  induction lines as [| l lines IH]; intro acc; cbn [fold_left].
  - simpl. lia.
  - specialize (IH (js_step acc l)).
    assert (Hstep : acc <= js_step acc l <= acc + 2).
    { unfold js_step.
      destruct (existsb _ js_keywords); destruct (contains _ (strip l));
        lia. }
    cbn [List.length]. lia.
Qed.

(** X15. The metrics of the JavaScript pass: every function it lists
    starts on a line of the file, is between 1 and 100 lines long and
    no longer than what is left of the file, and has a complexity
    between 1 and 1 plus twice its length. *)
Theorem javascript_metrics_bounds {R : PyRuntime}
    (file : entry) (fr : file_result) (func : function_metrics) :
  _analyze_javascript_file file = inl fr ->
  In func (functions fr) ->
  1 <= fn_line func <= total_lines fr
  /\ 1 <= fn_lines func <= 100
  /\ fn_lines func <= total_lines fr - fn_line func + 1
  /\ 1 <= get_complexity func <= 1 + 2 * fn_lines func.
Proof.
  intros Hfr Hfunc. unfold _analyze_javascript_file in Hfr.
  destruct (e_read file) as [content | e]; [| discriminate].
  injection Hfr as <-. cbn [functions total_lines] in *.
  set (lines := split newline content) in *.
  apply in_flat_map in Hfunc. destruct Hfunc as [[i line] [Hpos Hfunc]].
  apply ScannerProperties.in_enumerate in Hpos. destruct Hpos as [Hrange _].
  destruct (re_match pat_js_function (strip line)) as [group1 |];
    [| contradiction].
  destruct Hfunc as [<- | []].
  cbn [fn_line fn_lines get_complexity fn_complexity].
  destruct (estimate_bounds lines i) as [Hlen Hleft]; [lia |].
  split; [lia | split; [lia | split; [lia |]]].
  unfold _calculate_js_complexity.
  pose proof (fold_js_bounds
                (slice lines i (i + _estimate_js_function_length lines i)) 1)
    as Hfold.
  rewrite len_slice in Hfold. unfold clamp_index in Hfold.
  destruct (i <? 0) eqn:Ei; [lia |].
  destruct (i + _estimate_js_function_length lines i <? 0) eqn:Ee; [lia |].
  lia.
Qed.

Lemma javascript_metrics_bounds_witness :
  exists fr func,
    @_analyze_javascript_file MoreExamples.js_runtime MoreExamples.greet_file
    = inl fr
    /\ functions fr = [func]
    /\ fn_lines func = 3
    /\ 1 <= get_complexity func <= 1 + 2 * fn_lines func.
Proof.
  destruct (@_analyze_javascript_file MoreExamples.js_runtime
              MoreExamples.greet_file) as [fr | e] eqn:Hfr;
    [| vm_compute in Hfr; discriminate].
  assert (Hfunc : exists func, functions fr = [func] /\ fn_lines func = 3).
  { vm_compute in Hfr. injection Hfr as <-. eexists. split; reflexivity. }
  destruct Hfunc as [func [Hfuncs Hlines]].
  exists fr, func. split; [reflexivity | split; [exact Hfuncs |]].
  split; [exact Hlines |].
  apply (@javascript_metrics_bounds MoreExamples.js_runtime
           MoreExamples.greet_file fr func Hfr).
  rewrite Hfuncs. now left.
Defined.

Lemma summary_stats_sums (total : Z) (rs : list language_report) :
  forall init,
    let s :=
      fold_left (fun summary lang_results =>
                   {| total_files := total_files summary;
                      complex_files :=
                        complex_files summary
                        + len (complex_functions lang_results);
                      high_complexity_functions :=
                        high_complexity_functions summary
                        + len (complex_functions lang_results);
                      long_functions_count :=
                        long_functions_count summary
                        + len (long_functions lang_results);
                      long_files_count :=
                        long_files_count summary
                        + len (long_files lang_results) |})
                rs init in
    total_files s = total_files init
    /\ complex_files s =
       complex_files init
       + sum_Z (map (fun r => len (complex_functions r)) rs)
    /\ high_complexity_functions s =
       high_complexity_functions init
       + sum_Z (map (fun r => len (complex_functions r)) rs)
    /\ long_functions_count s =
       long_functions_count init
       + sum_Z (map (fun r => len (long_functions r)) rs)
    /\ long_files_count s =
       long_files_count init
       + sum_Z (map (fun r => len (long_files r)) rs).
Proof.
  unfold sum_Z.
  induction rs as [| r rs IH]; intro init; cbv zeta.
  - cbn [fold_left map fold_right]. repeat split; lia.
  - cbn [fold_left map fold_right].
    match goal with |- context [fold_left ?f rs ?i] =>
      destruct (IH i) as [Ht [Hc [Hh [Hl Hf]]]] end.
    cbv zeta in Ht, Hc, Hh, Hl, Hf.
    rewrite Ht, Hc, Hh, Hl, Hf.
    cbn [total_files complex_files high_complexity_functions
         long_functions_count long_files_count].
    repeat split; lia.
Qed.

Lemma sum_lens_zero {A} (f : language_report -> list A)
    (rs : list language_report) :
  sum_Z (map (fun r => len (f r)) rs) = 0
  <-> forall r, In r rs -> f r = [].
Proof.
  unfold sum_Z.
  assert (Hpos : forall l, 0 <= fold_right Z.add 0
                                  (map (fun r => len (f r)) l)).
  { induction l as [| r l IH]; cbn [map fold_right]; [lia |].
    unfold len at 1. lia. }
  induction rs as [| r rs IH]; cbn [map fold_right].
  - split; [intros _ r Hin; contradiction | reflexivity].
  - pose proof (Hpos rs). assert (0 <= len (f r)) by (unfold len; lia).
    split.
    + intros Hsum r' [<- | Hin].
      * apply ScoreBandProperties.len_zero_nil. lia.
      * apply IH; [lia | exact Hin].
    + intro Hall.
      rewrite (Hall r (or_introl eq_refl)).
      rewrite (proj2 IH); [reflexivity |].
      intros r' Hin. apply Hall. now right.
Qed.

Lemma recommendations_all_clear (s : summary) :
  (ComplexityRecommendations._generate_recommendations s
   = [ComplexityRecommendations.acceptable]
   <-> high_complexity_functions s <= 0 /\ long_functions_count s <= 0
       /\ long_files_count s <= 0 /\ complex_files s <= 0)
  /\ ComplexityRecommendations._generate_recommendations s <> [].
Proof.
  unfold ComplexityRecommendations._generate_recommendations.
  destruct (high_complexity_functions s >? 0) eqn:Eh;
    destruct (long_functions_count s >? 0) eqn:El;
    destruct (long_files_count s >? 0) eqn:Ef;
    destruct (complex_files s >? 0) eqn:Ec;
    cbn [app];
    (split; [split; [intro Hq | intro Hle] | intro Hq]);
    try lia; try discriminate; try reflexivity;
    injection Hq as Hq; try discriminate;
    apply (f_equal (hd 0%N)) in Hq;
    unfold ComplexityRecommendations.acceptable in Hq;
    cbn [hd app] in Hq; discriminate.
Qed.

(** X16. In the summary of the complexity analysis, [complex_files] is
    not a number of files: it always equals
    [high_complexity_functions], the number of complex functions over
    all languages; the other counts are the lengths of the lists they
    name. The recommendations are never empty, and they are the single
    all-clear message exactly when no language reports a complex
    function, a long function or a long file. *)
Theorem complexity_summary_counts {R : PyRuntime} (fs : project) :
  let report := analyze_all_files (__init__ fs) in
  let s := r_summary report in
  let all := present (r_languages report) in
  complex_files s = high_complexity_functions s
  /\ high_complexity_functions s =
     sum_Z (map (fun r => len (complex_functions r)) all)
  /\ long_functions_count s =
     sum_Z (map (fun r => len (long_functions r)) all)
  /\ long_files_count s = sum_Z (map (fun r => len (long_files r)) all)
  /\ total_files s = sum_Z (map file_count all)
  /\ ComplexityRecommendations._generate_recommendations s <> []
  /\ (ComplexityRecommendations._generate_recommendations s
      = [ComplexityRecommendations.acceptable]
      <-> forall r, In r all ->
            complex_functions r = [] /\ long_functions r = []
            /\ long_files r = []).
Proof.
  intros report s all.
  assert (Htotal : forall (rs : list language_report) init,
             fold_left (fun t r => t + file_count r) rs init =
             init + sum_Z (map file_count rs)).
  { unfold sum_Z. induction rs as [| r rs IH]; intro init;
      cbn [fold_left map fold_right]; [lia | rewrite IH; lia]. }
  pose proof (summary_stats_sums
                (fold_left (fun t r => t + file_count r) all 0) all
                {| total_files :=
                     fold_left (fun t r => t + file_count r) all 0;
                   complex_files := 0; high_complexity_functions := 0;
                   long_functions_count := 0; long_files_count := 0 |})
    as Hsums.
  cbv zeta in Hsums.
  match type of Hsums with
  | total_files ?t = _ /\ _ => change t with s in Hsums
  end.
  destruct Hsums as [Ht [Hc [Hh [Hl Hf]]]].
  cbn [total_files complex_files high_complexity_functions
       long_functions_count long_files_count] in Ht, Hc, Hh, Hl, Hf.
  rewrite Htotal in Ht.
  destruct (recommendations_all_clear s) as [Hclear Hnonempty].
  split; [lia | split; [lia | split; [lia | split; [lia | split; [lia |]]]]].
  split; [exact Hnonempty |].
  rewrite Hclear.
  pose proof (sum_lens_zero complex_functions all) as Zc.
  pose proof (sum_lens_zero long_functions all) as Zl.
  pose proof (sum_lens_zero long_files all) as Zf.
  assert (Pc : 0 <= sum_Z (map (fun r => len (complex_functions r)) all)).
  { clear. unfold sum_Z. induction all as [| r l IH];
      cbn [map fold_right]; [lia | unfold len at 1; lia]. }
  assert (Pl : 0 <= sum_Z (map (fun r => len (long_functions r)) all)).
  { clear. unfold sum_Z. induction all as [| r l IH];
      cbn [map fold_right]; [lia | unfold len at 1; lia]. }
  assert (Pf : 0 <= sum_Z (map (fun r => len (long_files r)) all)).
  { clear. unfold sum_Z. induction all as [| r l IH];
      cbn [map fold_right]; [lia | unfold len at 1; lia]. }
  split.
  - intros [H1 [H2 [H3 H4]]] r Hin.
    split; [apply Zc; [lia | exact Hin] |].
    split; [apply Zl; [lia | exact Hin] | apply Zf; [lia | exact Hin]].
  - intro Hall.
    rewrite Hc, Hh, Hl, Hf.
    rewrite (proj2 Zc), (proj2 Zl), (proj2 Zf);
      [lia | | |]; intros r Hin; now apply Hall.
Qed.

End AnalyzerProperties.

(** ** Further properties of the review *)

Module ReviewProperties.
Import CodeReviewAutomator MoreSpec.

Section WithRuntime.
Context {R : PyRuntime}.

Lemma shell_line_missing_set_e (line : str) (line_num : Z) (file_path : str)
    (f : Finding) :
  In f (_analyze_shell_line line line_num file_path) ->
  f_issue f = missing_set_e ->
  line_num = 1 /\ contains (py "set -e") line = false /\ f_line f = 1.
Proof.
  unfold _analyze_shell_line. intros Hin Hissue.
  apply in_app_or in Hin. destruct Hin as [Hin | Hin].
  - destruct (re_search pat_unquoted_var NOFLAG line); [| contradiction].
    destruct Hin as [<- | []]. vm_compute in Hissue. discriminate.
  - apply in_app_or in Hin. destruct Hin as [Hin | Hin].
    + destruct (line_num =? 1) eqn:E1; [| contradiction].
      destruct (contains (py "set -e") line); [contradiction |].
      destruct Hin as [<- | []].
      split; [lia | split; [reflexivity | cbn [f_line finding]; lia]].
    + destruct (contains (py "/usr/local") line || contains (py "/opt/") line);
        [| contradiction].
      destruct Hin as [<- | []]. vm_compute in Hissue. discriminate.
Qed.

Lemma shell_first_line_flagged (line : str) (file_path : str) :
  contains (py "set -e") line = false ->
  In (finding file_path 1 Logic Medium missing_set_e
        (py "Add 'set -e' at script beginning to exit on errors"))
     (_analyze_shell_line line 1 file_path).
Proof.
  intro Hc. unfold _analyze_shell_line. apply in_or_app. right.
  apply in_or_app. left. rewrite Hc. now left.
Qed.

Lemma review_lines_from (analyze : str -> Z -> str -> list Finding)
    (file_path : str) (lines : list str) (start : Z) (f : Finding) :
  In f (flat_map (fun '(i, line) =>
                    let line_clean := strip line in
                    match line_clean with
                    | [] => []
                    | _ => if startswith (py "#") line_clean then []
                           else analyze line_clean i file_path
                    end)
                 (enumerate start lines)) ->
  exists i line,
    start <= i /\ In line lines /\ strip line <> []
    /\ startswith (py "#") (strip line) = false
    /\ In f (analyze (strip line) i file_path).
Proof.
  intro Hin. apply in_flat_map in Hin.
  destruct Hin as [[i line] [Hpos Hf]].
  apply ScannerProperties.in_enumerate in Hpos.
  destruct Hpos as [Hrange Hnth]. apply nth_error_In in Hnth.
  cbv zeta in Hf. exists i, line.
  destruct (strip line) as [| c l] eqn:El; [contradiction |].
  destruct (startswith (py "#") (c :: l)) eqn:Es; [contradiction |].
  split; [lia | split; [exact Hnth | split; [discriminate |]]].
  split; [reflexivity | exact Hf].
Qed.

End WithRuntime.

(** X17. The [set -e] check of the shell review looks at the first line
    of the file only, and only if that line is neither blank nor a
    comment: the review reports a missing [set -e] exactly when the
    first line, stripped, is a command that does not hold [set -e]. A
    script that starts with a shebang or another comment is never
    reported, and a [set -e] on a later line does not count. *)
Theorem set_e_check_reads_first_line {R : PyRuntime}
    (file : entry) (content first : str) (rest : list str) :
  e_read file = inl content ->
  split newline content = first :: rest ->
  ((exists f, In f (_review_shell_file file) /\ f_issue f = missing_set_e)
   <-> strip first <> []
       /\ startswith (py "#") (strip first) = false
       /\ contains (py "set -e") (strip first) = false)
  /\ forall f, In f (_review_shell_file file) ->
               f_issue f = missing_set_e -> f_line f = 1.
Proof.
  intros Hread Hsplit. unfold _review_shell_file. rewrite Hread, Hsplit.
  split.
  - split.
    + intros [f [Hin Hissue]]. unfold review_lines in Hin.
      cbn [enumerate flat_map] in Hin. apply in_app_or in Hin.
      destruct Hin as [Hin | Hin].
      * cbv zeta in Hin.
        destruct (strip first) as [| c l] eqn:Ef; [contradiction |].
        destruct (startswith (py "#") (c :: l)) eqn:Es; [contradiction |].
        split; [discriminate | split; [reflexivity |]].
        now destruct (shell_line_missing_set_e _ _ _ f Hin Hissue) as [_ [? _]].
      * apply review_lines_from in Hin.
        destruct Hin as [i [line [Hi [_ [_ [_ Hf]]]]]].
        destruct (shell_line_missing_set_e _ _ _ f Hf Hissue) as [Hone _]. lia.
    + intros [Hne [Hs Hc]].
      exists (finding (e_path file) 1 Logic Medium missing_set_e
                (py "Add 'set -e' at script beginning to exit on errors")).
      split; [| reflexivity].
      unfold review_lines. cbn [enumerate flat_map].
      apply in_or_app. left. cbv zeta.
      destruct (strip first) as [| c l] eqn:Ef; [contradiction |].
      rewrite Hs. now apply shell_first_line_flagged.
  - intros f Hin Hissue. unfold review_lines in Hin.
    apply review_lines_from in Hin.
    destruct Hin as [i [line [_ [_ [_ [_ Hf]]]]]].
    now destruct (shell_line_missing_set_e _ _ _ f Hf Hissue) as [_ [_ ?]].
Qed.

Lemma set_e_check_reads_first_line_witness :
  let R := Examples.runtime (fun _ => inl []) in
  let script :=
    text_file (py "run.sh")
      (Examples.join_lines [py "#!/bin/bash"; py "echo hi"]) in
  ~ exists f, In f (_review_shell_file script) /\ f_issue f = missing_set_e.
Proof.
  intros R script Hex.
  destruct (@set_e_check_reads_first_line R script
              (Examples.join_lines [py "#!/bin/bash"; py "echo hi"])
              (py "#!/bin/bash") [py "echo hi"] eq_refl eq_refl)
    as [Hiff _].
  apply Hiff in Hex. destruct Hex as [_ [Hcomment _]].
  vm_compute in Hcomment. discriminate.
Defined.

(** X18. The print check of the Python review exempts a file by the
    end of its path: for a path that ends in [test.py] (as [latest.py]
    does) no print statement is ever reported, while for any other
    path every checked line that holds [print(] is. A line of
    88 characters or fewer gets no other style finding. *)
Theorem print_check_exempts_by_suffix {R : PyRuntime}
    (line : str) (line_num : Z) (file_path : str) :
  (endswith (py "test.py") file_path = true ->
   forall f, In f (_analyze_python_line line line_num file_path) ->
             f_issue f <> print_issue)
  /\ (endswith (py "test.py") file_path = false ->
      contains (py "print(") line = true ->
      In (finding file_path line_num Style Medium print_issue
            (py "Use proper logging instead of print statements"))
         (_analyze_python_line line line_num file_path))
  /\ (len line <= 88 ->
      forall f, In f (_analyze_python_line line line_num file_path) ->
                f_category f = Style -> f_issue f = print_issue).
Proof.
  unfold _analyze_python_line.
  split; [| split].
  - intros Hend f Hin Hissue. rewrite Hend, andb_false_r in Hin.
    repeat (apply in_app_or in Hin; destruct Hin as [Hin | Hin]);
      try contradiction.
    + destruct (len line >? 88); [| contradiction].
      destruct Hin as [<- | []].
      apply (f_equal (hd 0%N)) in Hissue. vm_compute in Hissue. discriminate.
    + destruct (contains (py "TODO") (upper line)); [| contradiction].
      destruct Hin as [<- | []]. vm_compute in Hissue. discriminate.
    + destruct (contains (py "except:") line
                && negb (contains (py "Exception") line)); [| contradiction].
      destruct Hin as [<- | []]. vm_compute in Hissue. discriminate.
    + apply in_flat_map in Hin. destruct Hin as [num [_ Hin]].
      destruct (negb _); [| contradiction].
      destruct Hin as [<- | []].
      apply (f_equal (hd 0%N)) in Hissue. vm_compute in Hissue. discriminate.
  - intros Hend Hprint. rewrite Hend, Hprint. cbn [negb andb].
    apply in_or_app. right. apply in_or_app. right.
    apply in_or_app. left. now left.
  - intros Hlen f Hin Hcat.
    repeat (apply in_app_or in Hin; destruct Hin as [Hin | Hin]).
    + destruct (len line >? 88) eqn:E; [lia | contradiction].
    + destruct (contains (py "TODO") (upper line)); [| contradiction].
      destruct Hin as [<- | []]. discriminate.
    + destruct (contains (py "print(") line
                && negb (endswith (py "test.py") file_path));
        [| contradiction].
      destruct Hin as [<- | []]. reflexivity.
    + destruct (contains (py "except:") line
                && negb (contains (py "Exception") line)); [| contradiction].
      destruct Hin as [<- | []]. discriminate.
    + apply in_flat_map in Hin. destruct Hin as [num [_ Hin]].
      destruct (negb _); [| contradiction].
      destruct Hin as [<- | []]. discriminate.
Qed.

Lemma print_check_exempts_by_suffix_witness :
  let R := Examples.runtime (fun _ => inl []) in
  (forall f, In f (_analyze_python_line (py "print(x)") 3 (py "latest.py")) ->
             f_issue f <> print_issue)
  /\ In (finding (py "late.py") 3 Style Medium print_issue
           (py "Use proper logging instead of print statements"))
        (_analyze_python_line (py "print(x)") 3 (py "late.py")).
Proof.
  intro R. split.
  - exact (proj1 (@print_check_exempts_by_suffix R (py "print(x)") 3
                    (py "latest.py")) eq_refl).
  - exact (proj1 (proj2 (@print_check_exempts_by_suffix R (py "print(x)") 3
                           (py "late.py"))) eq_refl eq_refl).
Defined.

Lemma count_nested_ifs_chain (k : nat) :
  forall lineno depth,
    count_nested_ifs (elif_chain lineno k) depth = depth + Z.of_nat k + 1.
Proof.
  induction k as [| k IH]; intros lineno depth.
  - cbn [elif_chain count_nested_ifs fold_left]. lia.
  - cbn [elif_chain count_nested_ifs fold_left]. rewrite IH. lia.
Qed.

(** X19. An [if] with [k] [elif] branches is counted as [k + 1] levels
    of nesting, although none of its tests lies inside another: the
    review reports any chain of four or more tests as deeply nested
    if statements, at the line of its first test, and a shorter chain
    gives no finding. *)
Theorem elif_chain_counts_as_nesting (file_path : str) (lineno : Z) (k : nat) :
  count_nested_ifs (elif_chain lineno k) 0 = Z.of_nat k + 1
  /\ ((3 <= k)%nat ->
      In (finding file_path lineno Maintainability Medium
            (py "Deeply nested if statements (depth "
             ++ str_of_Z (Z.of_nat k + 1) ++ py ")")
            (py "Extract nested logic into separate functions"))
         (_analyze_ast [elif_chain lineno k] file_path))
  /\ ((k < 3)%nat -> _analyze_ast [elif_chain lineno k] file_path = []).
Proof.
  split; [rewrite count_nested_ifs_chain; lia |].
  split.
  - intro Hk. unfold _analyze_ast. cbn [flat_map]. rewrite app_nil_r.
    destruct k as [| k]; [lia |].
    cbn [elif_chain visit].
    change (If lineno [Other []] [elif_chain (lineno + 2) k])
      with (elif_chain lineno (S k)).
    rewrite count_nested_ifs_chain.
    destruct (0 + Z.of_nat (S k) + 1 >? 3) eqn:E;
      [| rewrite Z.gtb_ltb in E; apply Z.ltb_ge in E; lia].
    apply in_or_app. left. left.
    replace (0 + Z.of_nat (S k) + 1) with (Z.of_nat (S k) + 1) by lia.
    reflexivity.
  - intro Hk. destruct k as [| [| [| k]]]; [| | | lia]; reflexivity.
Qed.

Lemma elif_chain_counts_as_nesting_witness :
  In (finding (py "a.py") 1 Maintainability Medium
        (py "Deeply nested if statements (depth 4)")
        (py "Extract nested logic into separate functions"))
     (_analyze_ast [elif_chain 1 3] (py "a.py")).
Proof.
  apply (proj1 (proj2 (elif_chain_counts_as_nesting (py "a.py") 1 3))).
  lia.
Defined.

End ReviewProperties.

(** ** The summary of a run and the exit code *)

Module SummaryProperties.
Import QualityGateManager.

Lemma filter_length_le {A} (f : A -> bool) (l : list A) :
  (List.length (filter f l) <= List.length l)%nat.
Proof.
  induction l as [| x l IH]; cbn [filter List.length]; [lia |].
  destruct (f x); cbn [List.length]; lia.
Qed.

Lemma filter_length_all {A} (f : A -> bool) (l : list A) :
  List.length (filter f l) = List.length l <-> forallb f l = true.
Proof.
  induction l as [| x l IH]; cbn [filter List.length forallb]; [tauto |].
  pose proof (filter_length_le f l) as Hle.
  destruct (f x); cbn [List.length andb].
  - rewrite <- IH. lia.
  - split; [lia | discriminate].
Qed.

Lemma filter_length_pos {A} (f : A -> bool) (l : list A) :
  (0 < List.length (filter f l))%nat <-> existsb f l = true.
Proof.
  induction l as [| x l IH]; cbn [filter List.length existsb].
  - split; [lia | discriminate].
  - destruct (f x); cbn [List.length orb]; [| exact IH].
    split; [reflexivity | lia].
Qed.

Lemma filter_statuses_disjoint {A} (f g h : A -> bool) (l : list A) :
  (forall x, f x = true -> g x = false /\ h x = false) ->
  (forall x, g x = true -> h x = false) ->
  (List.length (filter f l) + List.length (filter g l)
   + List.length (filter h l) <= List.length l)%nat.
Proof.
  intros Hf Hg. induction l as [| x l IH]; cbn [filter List.length]; [lia |].
  destruct (f x) eqn:Ef.
  - destruct (Hf x Ef) as [-> ->]. cbn [List.length]. lia.
  - destruct (g x) eqn:Eg.
    + rewrite (Hg x Eg). cbn [List.length]. lia.
    + destruct (h x); cbn [List.length]; lia.
Qed.

(** The loop of [_generate_summary] from any starting summary. *)
Lemma generate_summary_fold (gate_results : list (string * gate_result)) :
  forall init : gates_summary,
    let s :=
      fold_left
        (fun summary '(gate_name, result) =>
           let status := get_status result in
           {| total_gates := total_gates summary;
              passed_gates :=
                if status_eqb status Passed then passed_gates summary + 1
                else passed_gates summary;
              warning_gates :=
                if status_eqb status Warning then warning_gates summary + 1
                else warning_gates summary;
              failed_gates :=
                if status_eqb status Failed then failed_gates summary + 1
                else failed_gates summary;
              critical_issues :=
                if status_eqb status Failed
                then critical_issues summary ++ [gate_name]
                else critical_issues summary |})
        gate_results init in
    total_gates s = total_gates init
    /\ passed_gates s
       = passed_gates init
         + len (filter (fun g => status_eqb (get_status (snd g)) Passed)
                       gate_results)
    /\ warning_gates s
       = warning_gates init
         + len (filter (fun g => status_eqb (get_status (snd g)) Warning)
                       gate_results)
    /\ failed_gates s
       = failed_gates init
         + len (filter (fun g => status_eqb (get_status (snd g)) Failed)
                       gate_results)
    /\ critical_issues s
       = critical_issues init
         ++ map fst (filter (fun g => status_eqb (get_status (snd g)) Failed)
                            gate_results).
Proof.
  unfold len.
  induction gate_results as [| [name result] l IH]; intro init.
  - cbn [fold_left filter map List.length]. rewrite app_nil_r.
    repeat split; lia.
  - cbn [fold_left]. cbv zeta in IH |- *.
    match goal with
    | |- context [fold_left _ l ?i] => specialize (IH i)
    end.
    destruct IH as [Ht [Hp [Hw [Hf Hc]]]].
    rewrite Ht, Hp, Hw, Hf, Hc.
    cbn [total_gates passed_gates warning_gates failed_gates critical_issues
         filter snd].
    destruct (get_status result);
      cbn [status_eqb map fst List.length];
      try rewrite <- app_assoc; cbn [app];
      repeat split; lia.
Qed.

Lemma in_statuses (s : status) (l : list (string * gate_result)) :
  In s (map (fun g => get_status (snd g)) l)
  <-> existsb (fun g => status_eqb (get_status (snd g)) s) l = true.
Proof.
  rewrite in_map_iff, existsb_exists.
  split; intros [g [Ha Hb]]; exists g.
  - split; [exact Hb |]. rewrite Ha. now destruct s.
  - split; [| exact Ha]. now apply GateProperties.status_eqb_eq in Hb.
Qed.

Lemma all_passed (l : list (string * gate_result)) :
  Forall (eq Passed) (map (fun g => get_status (snd g)) l)
  <-> forallb (fun g => status_eqb (get_status (snd g)) Passed) l = true.
Proof.
  rewrite Forall_forall, forallb_forall. split.
  - intros Hall g Hg. apply GateProperties.status_eqb_eq. symmetry.
    apply Hall. apply in_map_iff. now exists g.
  - intros Hall s Hs. apply in_map_iff in Hs. destruct Hs as [g [<- Hg]].
    symmetry. now apply GateProperties.status_eqb_eq, Hall.
Qed.

(** The status of each of the four gates is one of the three. *)
Lemma gate_statuses_known {R : PyRuntime} {H : Host}
    (self : QualityGateManager) :
  Forall (fun g => get_status (snd g) <> Unknown)
         (gates (run_all_quality_gates self)).
Proof.
  unfold run_all_quality_gates. cbn [gates].
  repeat apply Forall_cons; try apply Forall_nil; cbn [snd get_status].
  - unfold run_linting_checks; cbn [l_status].
    repeat match goal with |- context [if ?c then _ else _] =>
      destruct c end; discriminate.
  - unfold run_complexity_analysis; cbn [c_status].
    repeat match goal with |- context [if ?c >? ?d then _ else _] =>
      destruct (c >? d) end; discriminate.
  - unfold run_security_scanning; cbn [s_status].
    repeat match goal with |- context [if ?c >? ?d then _ else _] =>
      destruct (c >? d) end; discriminate.
  - unfold run_code_review_checks.
    destruct (match review_script with
              | Exited _ _ => _ | _ => _ end) as [[ck rec] sc];
      cbn [r_status].
    repeat match goal with |- context [if Qle_bool ?c ?d then _ else _] =>
      destruct (Qle_bool c d) end; discriminate.
Qed.

(** X20. The summary agrees with the overall status on any dictionary
    of gate results: the three counters never add up to more than the
    number of gates, the critical issues are the failed gates in the
    order of the dictionary, the overall status is failed exactly when
    the counter of failed gates is positive, warning exactly when it is
    zero and the counter of warnings is positive, and passed exactly
    when every gate is counted as passed. *)
Theorem summary_agrees_with_status
    (gate_results : list (string * gate_result)) :
  let s := _generate_summary gate_results in
  let overall := _calculate_overall_status gate_results in
  total_gates s = len gate_results
  /\ 0 <= passed_gates s /\ 0 <= warning_gates s /\ 0 <= failed_gates s
  /\ passed_gates s + warning_gates s + failed_gates s <= total_gates s
  /\ critical_issues s
     = map fst (filter (fun g => status_eqb (get_status (snd g)) Failed)
                       gate_results)
  /\ len (critical_issues s) = failed_gates s
  /\ (overall = Failed <-> 0 < failed_gates s)
  /\ (overall = Warning <-> failed_gates s = 0 /\ 0 < warning_gates s)
  /\ (overall = Passed <-> passed_gates s = total_gates s).
Proof.
  intros s overall.
  pose proof (generate_summary_fold gate_results
                {| total_gates := len gate_results; passed_gates := 0;
                   warning_gates := 0; failed_gates := 0;
                   critical_issues := [] |}) as Hfold.
  cbv zeta in Hfold.
  match type of Hfold with
  | total_gates ?t = _ /\ _ => change t with s in Hfold
  end.
  cbn [total_gates passed_gates warning_gates failed_gates critical_issues app]
    in Hfold.
  destruct Hfold as [Ht [Hp [Hw [Hf Hc]]]].
  pose proof (filter_statuses_disjoint
                (fun g : string * gate_result =>
                   status_eqb (get_status (snd g)) Passed)
                (fun g => status_eqb (get_status (snd g)) Warning)
                (fun g => status_eqb (get_status (snd g)) Failed)
                gate_results) as Hsum.
  assert (Hle : passed_gates s + warning_gates s + failed_gates s
                <= total_gates s).
  { rewrite Ht, Hp, Hw, Hf. unfold len.
    cbn beta in Hsum.
    assert (Hd : (List.length
                    (filter (fun g : string * gate_result =>
                               status_eqb (get_status (snd g)) Passed)
                            gate_results)
                  + List.length
                      (filter (fun g : string * gate_result =>
                                 status_eqb (get_status (snd g)) Warning)
                              gate_results)
                  + List.length
                      (filter (fun g : string * gate_result =>
                                 status_eqb (get_status (snd g)) Failed)
                              gate_results)
                  <= List.length gate_results)%nat).
    { apply Hsum.
      - intros g Hg. destruct (get_status (snd g)); try discriminate.
        split; reflexivity.
      - intros g Hg. destruct (get_status (snd g)); try discriminate.
        reflexivity. }
    lia. }
  pose proof (filter_length_pos
                (fun g : string * gate_result =>
                   status_eqb (get_status (snd g)) Failed) gate_results)
    as Hfpos.
  pose proof (filter_length_pos
                (fun g : string * gate_result =>
                   status_eqb (get_status (snd g)) Warning) gate_results)
    as Hwpos.
  pose proof (filter_length_all
                (fun g : string * gate_result =>
                   status_eqb (get_status (snd g)) Passed) gate_results)
    as Hpall.
  rewrite <- in_statuses in Hfpos, Hwpos.
  assert (Hpassed : Forall (eq Passed)
                      (map (fun g => get_status (snd g)) gate_results)
                    <-> passed_gates s = total_gates s).
  { rewrite Hp, Ht. unfold len.
    rewrite all_passed, <- Hpall. lia. }
  split; [exact Ht |].
  split; [rewrite Hp; unfold len; lia |].
  split; [rewrite Hw; unfold len; lia |].
  split; [rewrite Hf; unfold len; lia |].
  split; [exact Hle |].
  split; [exact Hc |].
  split; [rewrite Hc, Hf; unfold len; now rewrite length_map |].
  assert (Hfz : 0 < failed_gates s
                <-> In Failed (map (fun g => get_status (snd g))
                                   gate_results)).
  { rewrite <- Hfpos, Hf. unfold len. lia. }
  assert (Hwz : 0 < warning_gates s
                <-> In Warning (map (fun g => get_status (snd g))
                                    gate_results)).
  { rewrite <- Hwpos, Hw. unfold len. lia. }
  assert (Hfnn : 0 <= failed_gates s) by (rewrite Hf; unfold len; lia).
  assert (Hwnn : 0 <= warning_gates s) by (rewrite Hw; unfold len; lia).
  assert (Hpnn : 0 <= passed_gates s) by (rewrite Hp; unfold len; lia).
  destruct (GateProperties.overall_status_cases gate_results)
    as [[Hin E] | [[Hnf [Hin E]] | [[Hnf [Hnw [Hall E]]]
                                    | [Hnf [Hnw [Hnp E]]]]]];
    fold overall in E; rewrite E;
    rewrite <- ?Hfz, <- ?Hwz, ?Hpassed in *.
  - split; [tauto |]. split; [split; [discriminate | lia] |].
    split; [discriminate | lia].
  - split; [split; [discriminate | tauto] |].
    split; [split; [intros _; split; [lia | exact Hin] | reflexivity] |].
    split; [discriminate | lia].
  - split; [split; [discriminate | tauto] |].
    split; [split; [discriminate | tauto] |].
    split; [intros _; exact Hall | reflexivity].
  - split; [split; [discriminate | tauto] |].
    split; [split; [discriminate | tauto] |].
    split; [discriminate | tauto].
Qed.

(** X21. The exit code of a run follows the summary: every one of the
    four gates is counted as passed, warning or failed, and the run
    ends with exit code 1 exactly when the summary counts a failed
    gate, with 0 otherwise. *)
Theorem exit_code_follows_summary {R : PyRuntime} {H : Host}
    (self : QualityGateManager) :
  let r := run_all_quality_gates self in
  total_gates (summary r) = 4
  /\ passed_gates (summary r) + warning_gates (summary r)
     + failed_gates (summary r) = 4
  /\ (exit_code r = 1 <-> 0 < failed_gates (summary r))
  /\ (exit_code r = 0 <-> failed_gates (summary r) = 0).
Proof.
  intro r.
  pose proof (gate_statuses_known self) as Hknown. fold r in Hknown.
  pose proof (generate_summary_fold (gates r)
                {| total_gates := len (gates r); passed_gates := 0;
                   warning_gates := 0; failed_gates := 0;
                   critical_issues := [] |}) as Hfold.
  cbv zeta in Hfold.
  match type of Hfold with
  | total_gates ?t = _ /\ _ => change t with (summary r) in Hfold
  end.
  cbn [total_gates passed_gates warning_gates failed_gates] in Hfold.
  destruct Hfold as [Ht [Hp [Hw [Hf _]]]].
  change (len (gates r)) with 4 in Ht.
  assert (Hover : overall_status r = _calculate_overall_status (gates r))
    by reflexivity.
  unfold exit_code. rewrite Hover.
  subst r. unfold run_all_quality_gates in *. cbn [gates summary] in *.
  repeat match goal with
         | Hk : Forall _ (_ :: _) |- _ => inversion_clear Hk
         end.
  cbn [snd get_status] in *.
  unfold _calculate_overall_status.
  cbn [map snd get_status filter existsb forallb] in *.
  destruct (l_status (run_linting_checks self)); try contradiction;
    destruct (c_status (run_complexity_analysis self)); try contradiction;
    destruct (s_status (run_security_scanning self)); try contradiction;
    destruct (r_status (run_code_review_checks self)); try contradiction;
    cbn [status_eqb orb andb len List.length] in *;
    rewrite Ht, Hp, Hw, Hf; cbn;
    repeat split; intros; try lia; try discriminate; try reflexivity.
Qed.

End SummaryProperties.

(** ** The gates when the analyzer scripts are not used *)

Module FallbackProperties.
Import QualityGateManager MoreSpec.

Lemma fold_max_gt (l : list Z) :
  forall a t : Z,
    t < fold_left Z.max l a <-> t < a \/ exists x, In x l /\ t < x.
Proof.
  induction l as [| y l IH]; intros a t; cbn [fold_left].
  - split; [now left | intros [Ha | [x [[] _]]]; exact Ha].
  - rewrite IH. split.
    + intros [Hm | [x [Hx Ht]]].
      * destruct (Z.max_spec a y) as [[_ E] | [_ E]]; rewrite E in Hm.
        -- right. exists y. split; [now left | exact Hm].
        -- now left.
      * right. exists x. split; [now right | exact Ht].
    + intros [Ha | [x [[<- | Hx] Ht]]].
      * left. lia.
      * left. lia.
      * right. now exists x.
Qed.

Lemma length_cons_pos {A} (x : A) (l : list A) : (len (x :: l) >? 0) = true.
Proof. apply Z.gtb_lt. unfold len. cbn [List.length]. lia. Qed.

Lemma max_default_gt (l : list Z) (t : Z) :
  0 <= t -> (t < max_default l <-> exists x, In x l /\ t < x).
Proof.
  intro Ht. destruct l as [| y l]; cbn [max_default].
  - split; [lia | intros [x [[] _]]].
  - rewrite fold_max_gt. split.
    + intros [Hy | [x [Hx Hlt]]].
      * exists y. split; [now left | exact Hy].
      * exists x. split; [now right | exact Hlt].
    + intros [x [[<- | Hx] Hlt]]; [now left | right; now exists x].
Qed.

Lemma max_default_zero (l : list Z) :
  (forall x, In x l -> x = 0) -> max_default l = 0.
Proof.
  destruct l as [| y l]; [reflexivity |]. intro Hzero.
  cbn [max_default]. rewrite (Hzero y) by now left.
  assert (Hl : forall x, In x l -> x = 0)
    by (intros x Hx; apply Hzero; now right).
  clear Hzero. induction l as [| z l IH]; [reflexivity |].
  cbn [fold_left]. rewrite (Hl z) by now left.
  apply IH. intros x Hx. apply Hl. now right.
Qed.

Section WithHost.
Context {R : PyRuntime} {H : Host}.

(** The lists [_run_shell_complexity] builds. *)
Lemma shell_complexity_lists (self : QualityGateManager)
    (files : list entry) :
  forall init : complexity_part,
    let result := fold_left (shell_complexity_step self) files init in
    (forall f, In f (cp_complex_functions result) ->
               In f (cp_complex_functions init) \/ cf_complexity f = None)
    /\ (forall lf, In lf (cp_long_functions result) <->
                   In lf (cp_long_functions init)
                   \/ exists file content,
                        In file files /\ e_read file = inl content
                        /\ complexity_max_lines (thresholds self)
                           < len (split newline content)
                        /\ lf = {| lfn_file := e_path file;
                                   lfn_lines := len (split newline content) |}).
Proof.
  induction files as [| file files IH]; intro init; cbn [fold_left].
  - split; [intros f Hf; now left |].
    intro lf. split; [intro Hlf; now left |].
    intros [Hlf | [file [content [[] _]]]]. exact Hlf.
  - cbv zeta in IH |- *.
    specialize (IH (shell_complexity_step self init file)).
    destruct IH as [IHc IHl]. split.
    + intros f Hf. apply IHc in Hf. destruct Hf as [Hf | Hf]; [| now right].
      unfold shell_complexity_step in Hf.
      destruct (e_read file) as [content | e]; [| now left].
      cbn [cp_complex_functions] in Hf. apply in_app_or in Hf.
      destruct Hf as [Hf | Hf]; [now left |].
      destruct (_ >? 20); [| contradiction].
      destruct Hf as [<- | []]. now right.
    + intro lf. rewrite IHl. unfold shell_complexity_step.
      destruct (e_read file) as [content | e] eqn:Eread;
        cbn [cp_long_functions].
      * rewrite in_app_iff. split.
        -- intros [[Hlf | Hlf] | [f' [c' [Hin Hrest]]]].
           ++ now left.
           ++ destruct (len (split newline content)
                        >? complexity_max_lines (thresholds self)) eqn:E;
                [| contradiction].
              destruct Hlf as [<- | []]. right. exists file, content.
              split; [now left | split; [exact Eread |]].
              split; [lia | reflexivity].
           ++ right. exists f', c'. split; [now right | exact Hrest].
        -- intros [Hlf | [f' [c' [[<- | Hin] [Hr [Hlt ->]]]]]].
           ++ left. now left.
           ++ left. right. rewrite Eread in Hr. injection Hr as <-.
              destruct (len (split newline content)
                        >? complexity_max_lines (thresholds self)) eqn:E;
                [now left | lia].
           ++ right. exists f', c'. now repeat split.
      * split.
        -- intros [Hlf | [f' [c' [Hin Hrest]]]]; [now left |].
           right. exists f', c'. split; [now right | exact Hrest].
        -- intros [Hlf | [f' [c' [[<- | Hin] [Hr Hrest]]]]].
           ++ now left.
           ++ rewrite Eread in Hr. discriminate.
           ++ right. exists f', c'. now repeat split.
Qed.

End WithHost.

(** X22. Shell scripts alone never fail the complexity gate: in a
    project without Python files no entry of the gate carries a
    complexity, so the greatest complexity is 0 and the gate is never
    failed, however many functions a script holds. It gives a warning
    exactly when for some readable script the gate's count of lines,
    the number of pieces of the content split at newlines, is above
    100, and passes otherwise; a script of 100 lines that each end in
    a newline is counted as 101. *)
Theorem shell_scripts_never_fail_complexity {R : PyRuntime} {H : Host}
    (fs : project) :
  glob_suffix ".py" fs = [] ->
  let r := run_complexity_analysis (__init__ fs) in
  max_complexity (c_summary r) = 0
  /\ c_status r <> Failed
  /\ (c_status r = Warning
      <-> exists file content,
            In file (glob_suffix ".sh" fs) /\ e_read file = inl content
            /\ 100 < len (split newline content))
  /\ (c_status r = Passed
      <-> forall file content,
            In file (glob_suffix ".sh" fs) -> e_read file = inl content ->
            len (split newline content) <= 100).
Proof.
  intros Hpy r.
  set (self := __init__ fs) in *.
  destruct (shell_complexity_lists self (glob_suffix ".sh" fs)
              {| cp_files_analyzed := 0; cp_complex_functions := [];
                 cp_long_functions := [] |}) as [Hc Hl].
  cbn [cp_complex_functions cp_long_functions] in Hc, Hl.
  assert (Hcomplex : forall f, In f (complex_functions r) ->
                               cf_complexity f = None).
  { intros f Hf. subst r. unfold run_complexity_analysis in Hf.
    cbn [complex_functions] in Hf.
    unfold _has_python_files in Hf. cbn [project_root self __init__] in Hf.
    rewrite Hpy in Hf. unfold len at 1 in Hf.
    cbn [List.length Z.of_nat Z.gtb Z.compare app] in Hf.
    destruct (_has_shell_files self); [| contradiction].
    cbn [flat_map] in Hf. rewrite app_nil_r in Hf.
    unfold _run_shell_complexity in Hf. cbn [cp_complex_functions] in Hf.
    apply Hc in Hf. destruct Hf as [[] | Hf]. exact Hf. }
  assert (Hlong : forall lf, In lf (long_functions r) <->
                    exists file content,
                      In file (glob_suffix ".sh" fs)
                      /\ e_read file = inl content
                      /\ 100 < len (split newline content)
                      /\ lf = {| lfn_file := e_path file;
                                 lfn_lines := len (split newline content) |}).
  { intro lf. subst r. unfold run_complexity_analysis.
    cbn [long_functions].
    unfold _has_python_files, _has_shell_files.
    cbn [project_root self __init__].
    rewrite Hpy. unfold len at 1. cbn [List.length Z.of_nat Z.gtb Z.compare app].
    destruct (glob_suffix ".sh" fs) as [| f0 rest] eqn:Esh.
    - unfold len. cbn [List.length Z.of_nat Z.gtb Z.compare flat_map].
      split; [contradiction | intros [file [content [[] _]]]].
    - rewrite length_cons_pos.
      cbn [flat_map]. rewrite app_nil_r.
      unfold _run_shell_complexity. cbn [cp_long_functions].
      cbn [project_root self __init__]. rewrite Esh.
      rewrite Hl. split; [intros [[] | Hex]; exact Hex | intro Hex; now right]. }
  assert (Hmaxc : max_complexity (c_summary r) = 0).
  { subst r. unfold run_complexity_analysis. cbn [c_summary max_complexity].
    cbv zeta.
    match goal with
    | |- max_default (map ?g ?l) = 0 =>
        assert (Hzero : forall x, In x (map g l) -> x = 0)
    end.
    { intros x Hx. apply in_map_iff in Hx. destruct Hx as [f [<- Hf]].
      change (In f (complex_functions (run_complexity_analysis self))) in Hf.
      now rewrite (Hcomplex f Hf). }
    now apply max_default_zero. }
  assert (Hmaxl : 100 < max_lines (c_summary r)
                  <-> exists file content,
                        In file (glob_suffix ".sh" fs)
                        /\ e_read file = inl content
                        /\ 100 < len (split newline content)).
  { change (max_lines (c_summary r))
      with (max_default (map lfn_lines (long_functions r))).
    rewrite max_default_gt by lia. split.
    - intros [x [Hx Hlt]]. apply in_map_iff in Hx.
      destruct Hx as [lf [<- Hlf]]. apply Hlong in Hlf.
      destruct Hlf as [file [content [Hin [Hr [Hgt ->]]]]].
      now exists file, content.
    - intros [file [content [Hin [Hr Hgt]]]].
      exists (len (split newline content)). split; [| exact Hgt].
      apply in_map_iff.
      exists {| lfn_file := e_path file;
                lfn_lines := len (split newline content) |}.
      split; [reflexivity |]. apply Hlong. now exists file, content. }
  assert (Hstatus : c_status r
                    = if max_complexity (c_summary r) >? 10 then Failed
                      else if max_lines (c_summary r) >? 100 then Warning
                      else Passed) by reflexivity.
  rewrite Hmaxc in Hstatus. cbn [Z.gtb Z.compare] in Hstatus.
  split; [exact Hmaxc |].
  destruct (max_lines (c_summary r) >? 100) eqn:E; rewrite Hstatus.
  - assert (Hgt : 100 < max_lines (c_summary r)) by lia.
    split; [discriminate |]. split.
    + split; [intros _; now apply Hmaxl | reflexivity].
    + split; [discriminate |]. intro Hall. exfalso.
      apply Hmaxl in Hgt. destruct Hgt as [file [content [Hin [Hr Hlt]]]].
      specialize (Hall file content Hin Hr). lia.
  - assert (Hle : ~ 100 < max_lines (c_summary r)) by lia.
    split; [discriminate |]. split.
    + split; [discriminate |]. intro Hex. exfalso. now apply Hle, Hmaxl.
    + split; [| reflexivity]. intros _ file content Hin Hr.
      destruct (Z.lt_ge_cases 100 (len (split newline content)))
        as [Hlt | Hge]; [| lia].
      exfalso. apply Hle, Hmaxl. now exists file, content.
Qed.

(** A script of exactly 100 lines, each ended by a newline, is counted
    as 101 and makes the gate warn. *)
Lemma shell_scripts_never_fail_complexity_witness :
  let R := Examples.runtime (fun _ => inl []) in
  let H := Examples.host Missing Missing in
  count [newline] MoreExamples.hundred_lines = 100
  /\ len (split newline MoreExamples.hundred_lines) = 101
  /\ c_status (run_complexity_analysis
                 (__init__ MoreExamples.hundred_lines_project)) = Warning.
Proof.
  intros R H.
  split; [vm_compute; reflexivity | split; [vm_compute; reflexivity |]].
  apply (proj1 (proj2 (proj2 (@shell_scripts_never_fail_complexity R H
                  MoreExamples.hundred_lines_project eq_refl)))).
  exists (text_file (py "long.sh") MoreExamples.hundred_lines),
         MoreExamples.hundred_lines.
  split; [now left | split; [reflexivity | vm_compute; reflexivity]].
Defined.



(** X24. When the review script is missing, cannot be run or ends with
    a return code other than 0, the review gate scores 25 for each of
    the four checks whose status is passed, whatever the scores of the
    checks: it passes only if all four passed, gives a warning if
    exactly three did, and fails otherwise. *)
Theorem fallback_review_counts_passed_checks {R : PyRuntime} {H : Host}
    (self : QualityGateManager) :
  (review_script = Missing \/ review_script = Raised
   \/ exists returncode latest,
        review_script = Exited returncode latest /\ returncode <> 0) ->
  let r := run_code_review_checks self in
  checks r = fallback_checks
  /\ recommendations r = []
  /\ 0 <= passed_checks <= 4
  /\ (score r == inject_Z (25 * passed_checks))%Q
  /\ (r_status r = Passed <-> passed_checks = 4)
  /\ (r_status r = Warning <-> passed_checks = 3)
  /\ (r_status r = Failed <-> passed_checks <= 2).
Proof.
  intros Hscript r.
  assert (Hr : r = (let checks := fallback_checks in
                    let score :=
                      (inject_Z passed_checks / inject_Z 4 * inject_Z 100)%Q in
                    {| r_status :=
                         if Qle_bool (inject_Z 90) score then Passed
                         else if Qle_bool (inject_Z 75) score then Warning
                         else Failed;
                       checks := checks;
                       recommendations := [];
                       score := score |})).
  { subst r. unfold run_code_review_checks.
    destruct Hscript as [-> | [-> | [rc [latest [-> Hrc]]]]];
      try reflexivity.
    destruct (rc =? 0) eqn:E; [lia | reflexivity]. }
  rewrite Hr. clear Hr r. cbv zeta.
  cbn [checks recommendations score r_status].
  unfold passed_checks, fallback_checks. cbn [filter snd].
  destruct (status_eqb (ck_status check_documentation) Passed);
    destruct (status_eqb (ck_status check_naming) Passed);
    destruct (status_eqb (ck_status check_structure) Passed);
    destruct (status_eqb (ck_status check_best_practices) Passed);
    vm_compute;
    (split; [reflexivity |]); (split; [reflexivity |]);
    (split; [split; discriminate |]); (split; [reflexivity |]);
    repeat split; intros; try discriminate; try reflexivity;
    try (exfalso; congruence).
Qed.

Lemma fallback_review_counts_passed_checks_witness :
  let R := Examples.runtime (fun _ => inl []) in
  let H := Examples.host Missing Missing in
  r_status (run_code_review_checks (__init__ Examples.greeting_project))
  = Passed.
Proof.
  intros R H.
  apply (proj2 (proj1 (proj2 (proj2 (proj2 (proj2
           (@fallback_review_counts_passed_checks R H
              (__init__ Examples.greeting_project)
              (or_introl eq_refl)))))))).
  reflexivity.
Defined.

End FallbackProperties.

(** ** The linting helpers and the best-practices check *)

Module HelperProperties.
Import QualityGateManager GateHelpers MoreSpec.

(** A running total of numbers that are not negative. *)
Lemma fold_sum_nonneg {A} (f : A -> Z) (l : list A) :
  (forall x, In x l -> 0 <= f x) ->
  forall a : Z,
    let total := fold_left (fun total x => total + f x) l a in
    a <= total
    /\ (a < total <-> exists x, In x l /\ 0 < f x)
    /\ ((forall x, In x l -> f x = 0) -> total = a).
Proof.
  induction l as [| y l IH]; intros Hnn a; cbn [fold_left].
  - split; [lia |]. split; [| reflexivity].
    split; [lia | intros [x [[] _]]].
  - assert (Hl : forall x, In x l -> 0 <= f x)
      by (intros x Hx; apply Hnn; now right).
    assert (Hy : 0 <= f y) by (apply Hnn; now left).
    cbv zeta in IH |- *.
    destruct (IH Hl (a + f y)) as [Hle [Hpos Hzero]].
    split; [lia |]. split; [split |].
    + intro Hlt. destruct (Z_lt_le_dec 0 (f y)) as [Hfy | Hfy].
      * exists y. split; [now left | exact Hfy].
      * assert (Hlt' : a + f y < fold_left (fun total x => total + f x) l
                                           (a + f y)) by lia.
        apply Hpos in Hlt'. destruct Hlt' as [x [Hx Hfx]].
        exists x. split; [now right | exact Hfx].
    + intros [x [[<- | Hx] Hfx]]; [lia |].
      assert (Hlt' : a + f y < fold_left (fun total x => total + f x) l
                                         (a + f y))
        by (apply Hpos; now exists x).
      lia.
    + intro Hall. rewrite Hzero by (intros x Hx; apply Hall; now right).
      rewrite (Hall y) by now left. lia.
Qed.

Section WithTools.
Context {R : PyRuntime} {T : Tools}.

(** The loop over the output lines of a linter, from any result. *)
Lemma count_output_counts (is_error : str -> bool) (lines : list str) :
  forall init : lang_lint,
    let r := count_output is_error lines init in
    details r = details init ++ filter nonblank lines
    /\ errors r
       = errors init + len (filter is_error (filter nonblank lines))
    /\ warnings r
       = warnings init
         + len (filter (fun line => negb (is_error line))
                       (filter nonblank lines)).
Proof.
  unfold len.
  induction lines as [| line lines IH]; intro init.
  - cbn. rewrite app_nil_r. repeat split; lia.
  - cbv zeta.
    change (count_output is_error (line :: lines) init)
      with (count_output is_error lines
              (match strip line with
               | [] => init
               | _ => if is_error line then add_error init line
                      else add_warning init line
               end)).
    cbn [filter].
    assert (Hnb : nonblank line
                  = match strip line with [] => false | _ => true end)
      by reflexivity.
    destruct (strip line) as [| c l]; rewrite Hnb.
    + apply IH.
    + destruct (is_error line) eqn:Ee.
      * destruct (IH (add_error init line)) as [Hd [He Hw]].
        rewrite Hd, He, Hw. cbn [filter]. rewrite Ee.
        cbn [add_error details errors warnings negb List.length].
        rewrite <- app_assoc. cbn [app]. repeat split; lia.
      * destruct (IH (add_warning init line)) as [Hd [He Hw]].
        rewrite Hd, He, Hw. cbn [filter]. rewrite Ee.
        cbn [add_warning details errors warnings negb List.length].
        rewrite <- app_assoc. cbn [app]. repeat split; lia.
Qed.

Lemma for_files_none (body : lang_lint -> entry -> option lang_lint)
    (files : list entry) :
  fold_left (fun acc file =>
               match acc with
               | Some result => body result file
               | None => None
               end) files None = None.
Proof. induction files as [| f files IH]; [reflexivity | exact IH]. Qed.

(** What every step of a loop over files keeps, the loop keeps. *)
Lemma for_files_keeps (P : lang_lint -> Prop)
    (body : lang_lint -> entry -> option lang_lint) (files : list entry) :
  (forall result file result',
     P result -> body result file = Some result' -> P result') ->
  forall init r, P init -> for_files body files init = Some r -> P r.
Proof.
  intro Hstep. unfold for_files.
  induction files as [| f files IH]; intros init r Hinit Hr.
  - cbn in Hr. injection Hr as <-. exact Hinit.
  - cbn [fold_left] in Hr.
    destruct (body init f) as [result' |] eqn:Eb.
    + apply (IH result' r); [now apply (Hstep init f) | exact Hr].
    + rewrite for_files_none in Hr. discriminate.
Qed.

(** No helper counts below zero, and only the output of the two linter
    commands is counted as warnings: none when the executable is not
    found. *)
Lemma python_linting_counts (self : QualityGateManager) (r : lang_lint) :
  _run_python_linting self = Some r ->
  0 <= errors r /\ 0 <= warnings r
  /\ (flake8 = NotFound -> warnings r = 0).
Proof.
  unfold _run_python_linting. intro Hr.
  destruct flake8 as [| | rc out err].
  - assert (Hp : 0 <= errors r /\ warnings r = 0).
    { refine (for_files_keeps (fun x => 0 <= errors x /\ warnings x = 0)
                _ _ _ _ r _ Hr); [| cbn; lia].
      intros result file result' [He Hw] Hb.
      destruct (e_read file) as [text | e]; [| discriminate].
      destruct (py_compile text (e_path file)); try discriminate;
        injection Hb as <-; cbn; lia. }
    lia.
  - discriminate.
  - split; [| split; [| discriminate]].
    + destruct (rc =? 0); injection Hr as <-; [cbn; lia |].
      match goal with
      | |- context [count_output ?f ?l ?i] =>
          destruct (count_output_counts f l i) as [_ [-> _]]
      end.
      unfold len. cbn. lia.
    + destruct (rc =? 0); injection Hr as <-; [cbn; lia |].
      match goal with
      | |- context [count_output ?f ?l ?i] =>
          destruct (count_output_counts f l i) as [_ [_ ->]]
      end.
      unfold len. cbn. lia.
Qed.

Lemma shell_linting_counts (self : QualityGateManager) (r : lang_lint) :
  _run_shell_linting self = Some r ->
  0 <= errors r /\ 0 <= warnings r
  /\ (shellcheck = NotFound -> warnings r = 0).
Proof.
  unfold _run_shell_linting. intro Hr.
  destruct shellcheck as [| | rc out err].
  - assert (Hp : 0 <= errors r /\ warnings r = 0).
    { refine (for_files_keeps (fun x => 0 <= errors x /\ warnings x = 0)
                _ _ _ _ r _ Hr); [| cbn; lia].
      intros result file result' [He Hw] Hb.
      destruct (bash_n (e_path file)) as [| | rc o e]; try discriminate.
      destruct (rc =? 0); injection Hb as <-; cbn; lia. }
    lia.
  - discriminate.
  - split; [| split; [| discriminate]].
    + destruct (rc =? 0); injection Hr as <-; [cbn; lia |].
      match goal with
      | |- context [count_output ?f ?l ?i] =>
          destruct (count_output_counts f l i) as [_ [-> _]]
      end.
      unfold len. cbn. lia.
    + destruct (rc =? 0); injection Hr as <-; [cbn; lia |].
      match goal with
      | |- context [count_output ?f ?l ?i] =>
          destruct (count_output_counts f l i) as [_ [_ ->]]
      end.
      unfold len. cbn. lia.
Qed.

Lemma yaml_linting_counts (self : QualityGateManager) (r : lang_lint) :
  _run_yaml_linting self = Some r -> 0 <= errors r /\ warnings r = 0.
Proof.
  unfold _run_yaml_linting. intro Hr.
  assert (Hstep : forall result file result',
             0 <= errors result /\ warnings result = 0 ->
             yaml_step result file = Some result' ->
             0 <= errors result' /\ warnings result' = 0).
  { intros result file result' [He Hw] Hb. unfold yaml_step in Hb.
    destruct (yaml_safe_load file); try discriminate;
      injection Hb as <-; cbn; lia. }
  destruct yaml_available.
  - destruct (for_files yaml_step (glob_suffix ".yml" (project_root self))
                        no_issues) as [mid |] eqn:Emid; [| discriminate].
    refine (for_files_keeps (fun x => 0 <= errors x /\ warnings x = 0)
              _ _ Hstep mid r _ Hr).
    refine (for_files_keeps (fun x => 0 <= errors x /\ warnings x = 0)
              _ _ Hstep no_issues mid _ Emid).
    cbn. lia.
  - injection Hr as <-. cbn. lia.
Qed.

(** The first loop of [_check_best_practices], from any state. *)
Lemma secret_loop (files : list entry) :
  forall init : practice_state,
    let state := fold_left secret_step files init in
    ps_score state
    = ps_score init - 15 * len (filter holds_secret_word files)
    /\ len (ps_issues state)
       = len (ps_issues init) + len (filter holds_secret_word files).
Proof.
  unfold len.
  induction files as [| file files IH]; intro init.
  - cbn. lia.
  - cbn [fold_left filter]. cbv zeta in IH |- *.
    specialize (IH (secret_step init file)). destruct IH as [-> ->].
    unfold secret_step, holds_secret_word.
    destruct (e_is_file file
              && negb (existsb (fun suffix =>
                                  endswith (py suffix)
                                           (basename (e_path file)))
                               skipped_names)); cbn [andb];
      [| lia].
    destruct (e_read file) as [text | e]; [| lia].
    unfold secret_words. cbn [find existsb].
    destruct (contains (py "hardcoded") (lower text)
              || contains (py "=") (lower text));
      rewrite ?andb_true_r, ?andb_false_r, ?orb_false_r; cbn [orb];
      [| lia].
    destruct (contains (py "password") (lower text)); cbn [orb];
      [cbn [ps_score ps_issues List.length]; rewrite length_app;
       cbn [List.length]; lia |].
    destruct (contains (py "secret") (lower text)); cbn [orb];
      [cbn [ps_score ps_issues List.length]; rewrite length_app;
       cbn [List.length]; lia |].
    destruct (contains (py "key") (lower text)); cbn [orb];
      [cbn [ps_score ps_issues List.length]; rewrite length_app;
       cbn [List.length]; lia |].
    destruct (contains (py "token") (lower text)); cbn [orb];
      [cbn [ps_score ps_issues List.length]; rewrite length_app;
       cbn [List.length]; lia |].
    lia.
Qed.

End WithTools.

(** X25. When flake8 or shellcheck ends with a return code other than
    0, every line of its output and of its error stream that is not
    blank is kept and counted once: as an error if it holds the word
    error in any case (for shellcheck, also the word critical), as a
    warning otherwise. With return code 0 nothing is counted, whatever
    was printed. *)
Theorem linter_output_counted {R : PyRuntime} {T : Tools}
    (self : QualityGateManager) (returncode : Z) (stdout stderr : str) :
  let lines := split newline stdout ++ split newline stderr in
  (flake8 = Completed returncode stdout stderr ->
   exists r,
     _run_python_linting self = Some r
     /\ if returncode =? 0 then errors r = 0 /\ warnings r = 0
        else details r = filter nonblank lines
             /\ errors r
                = len (filter (fun line => contains (py "error") (lower line))
                              (details r))
             /\ errors r + warnings r = len (details r))
  /\ (shellcheck = Completed returncode stdout stderr ->
      exists r,
        _run_shell_linting self = Some r
        /\ if returncode =? 0 then errors r = 0 /\ warnings r = 0
           else details r = filter nonblank lines
                /\ errors r
                   = len (filter (fun line =>
                                    contains (py "error") (lower line)
                                    || contains (py "critical") (lower line))
                                 (details r))
                /\ errors r + warnings r = len (details r)).
Proof.
  assert (Hsplit : forall (f : str -> bool) (l : list str),
             len (filter f l) + len (filter (fun x => negb (f x)) l) = len l).
  { intros f l. unfold len. induction l as [| x l IH]; [reflexivity |].
    cbn [filter]. destruct (f x); cbn [negb List.length]; lia. }
  intro lines. split; intro Htool.
  - unfold _run_python_linting. rewrite Htool.
    destruct (returncode =? 0); eexists; (split; [reflexivity |]).
    + split; reflexivity.
    + match goal with
      | |- context [count_output ?f ?l ?i] =>
          destruct (count_output_counts f l i) as [Hd [He Hw]]
      end.
      fold lines in Hd, He, Hw |- *. cbn [no_issues details errors warnings app] in Hd, He, Hw.
      rewrite Hd, He, Hw. split; [reflexivity | split; [reflexivity |]].
      cbn [Z.add]. apply Hsplit.
  - unfold _run_shell_linting. rewrite Htool.
    destruct (returncode =? 0); eexists; (split; [reflexivity |]).
    + split; reflexivity.
    + match goal with
      | |- context [count_output ?f ?l ?i] =>
          destruct (count_output_counts f l i) as [Hd [He Hw]]
      end.
      fold lines in Hd, He, Hw |- *. cbn [no_issues details errors warnings app] in Hd, He, Hw.
      rewrite Hd, He, Hw. split; [reflexivity | split; [reflexivity |]].
      cbn [Z.add]. apply Hsplit.
Qed.

Lemma linter_output_counted_witness :
  let R := Examples.runtime (fun _ => inl []) in
  let T := MoreExamples.tools
             (Completed 1 MoreExamples.flake8_output []) NotFound in
  exists r,
    _run_python_linting (__init__ Examples.greeting_project) = Some r
    /\ errors r = 1 /\ warnings r = 1.
Proof.
  intros R T.
  destruct (proj1 (@linter_output_counted R T
                     (__init__ Examples.greeting_project) 1
                     MoreExamples.flake8_output []) eq_refl)
    as [r [Hr Hc]].
  exists r. split; [exact Hr |].
  vm_compute in Hr. injection Hr as <-. split; reflexivity.
Defined.

(** X26. With the results of the three linting helpers, the linting
    gate fails exactly when some language that is present reports an
    error, and its totals are never negative. Warnings come from the
    output of the two linter commands only: when neither the [python3]
    executable nor the [shellcheck] executable is found, so that both
    fallback syntax checks run, the total of warnings is 0 and the
    gate never gives a warning. (A [python3] without the flake8 module
    is not that case: the command runs and ends with a return code
    other than 0, and its output is counted like any other.) *)
Theorem linting_gate_from_helpers {R : PyRuntime} {T : Tools} {H : Host}
    (fs : project) :
  _run_python_linting (__init__ fs) = Some python_linting ->
  _run_shell_linting (__init__ fs) = Some shell_linting ->
  _run_yaml_linting (__init__ fs) = Some yaml_linting ->
  let r := run_linting_checks (__init__ fs) in
  0 <= total_errors r /\ 0 <= total_warnings r
  /\ (l_status r = Failed
      <-> exists name lang, In (name, lang) (l_languages r) /\ 0 < errors lang)
  /\ (flake8 = NotFound -> shellcheck = NotFound ->
      total_warnings r = 0 /\ l_status r <> Warning).
Proof.
  intros Hpy Hsh Hya r.
  destruct (python_linting_counts _ _ Hpy) as [Hpe [Hpw Hpf]].
  destruct (shell_linting_counts _ _ Hsh) as [Hse [Hsw Hsf]].
  destruct (yaml_linting_counts _ _ Hya) as [Hye Hyw].
  assert (Hlang : forall p, In p (l_languages r) ->
                    0 <= errors (snd p) /\ 0 <= warnings (snd p)
                    /\ (flake8 = NotFound -> shellcheck = NotFound ->
                        warnings (snd p) = 0)).
  { intros p Hin. unfold r, run_linting_checks in Hin.
    cbn [l_languages] in Hin.
    apply in_app_or in Hin. destruct Hin as [Hin | Hin];
      [| apply in_app_or in Hin; destruct Hin as [Hin | Hin]];
      match type of Hin with
      | In _ (if ?c then _ else _) => destruct c
      end; try contradiction; destruct Hin as [<- | []]; cbn [snd];
      (split; [lia | split; [lia |]]); intros Hf8 Hsc; auto. }
  assert (Herr : total_errors r
                 = fold_left (fun total p => total + errors (snd p))
                             (l_languages r) 0) by reflexivity.
  assert (Hwarn : total_warnings r
                  = fold_left (fun total p => total + warnings (snd p))
                              (l_languages r) 0) by reflexivity.
  assert (Hstatus : l_status r
                    = if total_errors r >? 0 then Failed
                      else if total_warnings r >? 10 then Warning
                      else Passed) by reflexivity.
  destruct (fold_sum_nonneg (fun p : string * lang_lint => errors (snd p))
              (l_languages r) (fun p Hp => proj1 (Hlang p Hp)) 0)
    as [He0 [Hepos _]].
  destruct (fold_sum_nonneg (fun p : string * lang_lint => warnings (snd p))
              (l_languages r)
              (fun p Hp => proj1 (proj2 (Hlang p Hp))) 0)
    as [Hw0 [_ Hwzero]].
  rewrite <- Herr in He0, Hepos. rewrite <- Hwarn in Hw0, Hwzero.
  split; [exact He0 |]. split; [exact Hw0 |]. split.
  - rewrite Hstatus. destruct (Z.gtb_spec (total_errors r) 0) as [Hgt | Hle].
    + split; [intros _ | reflexivity].
      apply Hepos in Hgt. destruct Hgt as [[name lang] [Hin Hpos]].
      now exists name, lang.
    + split.
      * intro Hst. destruct (total_warnings r >? 10); discriminate Hst.
      * intros [name [lang [Hin Hpos]]]. exfalso.
        assert (Hgt : 0 < total_errors r)
          by (apply Hepos; now exists (name, lang)).
        lia.
  - intros Hf8 Hsc.
    assert (Hz : total_warnings r = 0).
    { apply Hwzero. intros p Hp. now apply (Hlang p Hp). }
    split; [exact Hz |]. rewrite Hstatus, Hz.
    destruct (total_errors r >? 0); discriminate.
Qed.

(** On a host where neither executable is found. *)
Lemma linting_gate_from_helpers_witness :
  let R := Examples.runtime (fun _ => inl []) in
  let T := MoreExamples.tools NotFound NotFound in
  let H := MoreExamples.linted_host Examples.greeting_project in
  l_status (run_linting_checks (__init__ Examples.greeting_project))
  <> Warning.
Proof.
  intros R T H.
  exact (proj2 (proj2 (proj2 (proj2
           (@linting_gate_from_helpers R T H Examples.greeting_project
              eq_refl eq_refl eq_refl))) eq_refl eq_refl)).
Defined.

(** X27. The best-practices check takes 15 points for every file it
    reports, once per file however many of the four words the file
    holds, and 10 more when the words TODO pass 20 in all; the score
    is what is left of 100, never below 0. The check passes while the
    points taken are at most 20 and fails once they pass 40, and it
    lists one issue per reported file and one for the TODO count. *)
Theorem best_practices_score {R : PyRuntime} (fs : project) :
  let r := _check_best_practices (__init__ fs) in
  let flagged := len (filter holds_secret_word (glob_all fs)) in
  let todo_count := fold_left todo_step (glob_all fs) 0 in
  let taken := 15 * flagged + (if todo_count >? 20 then 10 else 0) in
  ck_score r = Z.max 0 (100 - taken)
  /\ 0 <= ck_score r <= 100
  /\ len (ck_issues r) = flagged + (if todo_count >? 20 then 1 else 0)
  /\ (ck_status r = Passed <-> taken <= 20)
  /\ (ck_status r = Warning <-> 20 < taken <= 40)
  /\ (ck_status r = Failed <-> 40 < taken).
Proof.
  intros r flagged todo_count taken.
  destruct (secret_loop (glob_all fs) {| ps_score := 0; ps_issues := [] |})
    as [Hscore Hissues].
  fold flagged in Hscore, Hissues.
  cbn [ps_score ps_issues] in Hscore, Hissues.
  change (len (@nil str)) with 0 in Hissues.
  assert (Hflagged : 0 <= flagged) by (unfold flagged, len; lia).
  subst r taken. unfold _check_best_practices.
  cbn [project_root __init__]. fold todo_count.
  destruct (todo_count >? 20); unfold graded; cbv zeta;
    cbn [ck_score ck_status ck_issues];
    rewrite ?Hscore;
    (split; [lia |]); (split; [lia |]);
    (split; [unfold len in *; rewrite ?length_app; cbn [List.length]; lia |]);
    match goal with
    | |- context [if ?s >=? 80 then _ else _] =>
        destruct (Z.geb_spec s 80);
        [| match goal with
           | |- context [if ?s' >=? 60 then _ else _] =>
               destruct (Z.geb_spec s' 60)
           end]
    end;
    repeat split; intros; try discriminate; try reflexivity; try lia.
Qed.

End HelperProperties.
